(** * SochAI backend: the model-listing lifecycle and query engine

    A shallow embedding of [models/Model.js] (the Mongoose schema and its
    pre-save hook) and of [routes/models.js] (the Express handlers), with
    the properties of the listing lifecycle stated over it.

    Conventions of the embedding.
    - A JavaScript string is a sequence of UTF-16 code units.  The model
      covers the code units below 256 (ISO-8859-1), which is what [ascii]
      holds; [String.length] is the JavaScript [length].
    - The collection is a list of documents in storage order; [findOne]
      returns the first match.
    - Handlers run in a state-and-exception monad over the database; an
      exception that reaches the handler's [catch] becomes the 500 reply.
    - [req.user._id] is an argument of the protected handlers: they run
      after the authentication middleware has accepted the token.
    - Joi's recogniser of URIs and the regular-expression engine are
      parameters of the handlers. *)

From Stdlib Require Import Ascii String NArith ZArith Bool List Lia.
From stdpp Require Import base option list strings pretty gmap.

Local Open Scope N_scope.

(** ** JavaScript strings *)

Module Js.

Definition code (c : ascii) : N := N_of_ascii c.

Definition between (lo hi : N) (c : ascii) : bool :=
  (lo <=? code c) && (code c <=? hi).

(** [String.prototype.toLowerCase] on one code unit below 256: the basic
    Latin capitals and the Latin-1 capitals (all of U+00C0..U+00DE but the
    multiplication sign U+00D7) move up by 32. *)
Definition lower_unit (c : ascii) : ascii :=
  if between 65 90 c || (between 192 222 c && negb (code c =? 215))
  then ascii_of_N (code c + 32) else c.

Fixpoint toLowerCase (s : string) : string :=
  match s with
  | EmptyString => EmptyString
  | String c r => String (lower_unit c) (toLowerCase r)
  end.

(** White space and line terminators removed by [String.prototype.trim]
    (TAB, LF, VT, FF, CR, SPACE, NBSP below 256). *)
Definition is_space (c : ascii) : bool :=
  between 9 13 c || (code c =? 32) || (code c =? 160).

Fixpoint trimStart (s : string) : string :=
  match s with
  | String c r => if is_space c then trimStart r else s
  | EmptyString => EmptyString
  end.

Definition trim (s : string) : string :=
  String.rev (trimStart (String.rev (trimStart s))).

(** [!s] for a string: only the empty string is falsy. *)
Definition falsy (s : string) : bool := String.eqb s "".

Fixpoint startsWith (p s : string) : bool :=
  match p, s with
  | EmptyString, _ => true
  | String a p', String b s' => Ascii.eqb a b && startsWith p' s'
  | String _ _, EmptyString => false
  end.

(** [s.includes(p)]. *)
Fixpoint includes (p s : string) : bool :=
  startsWith p s ||
  match s with
  | EmptyString => false
  | String _ r => includes p r
  end.

(** [['a', 'b'].includes(x)] on an array of strings. *)
Definition one_of (l : list string) (x : string) : bool :=
  existsb (String.eqb x) l.

End Js.

(** ** The slug of a name ([modelSchema.pre('save')], the pure part) *)

(** The character class [[a-z0-9]]. *)
Definition slug_char (c : ascii) : bool :=
  Js.between 97 122 c || Js.between 48 57 c.

(** [.replace(/[^a-z0-9]+/g, '-')]: every maximal run of characters outside
    the class becomes one hyphen.  [in_run] tells that the previous
    character already belonged to the run being replaced. *)
Fixpoint replace_runs (in_run : bool) (s : string) : string :=
  match s with
  | EmptyString => EmptyString
  | String c r =>
      if slug_char c then String c (replace_runs false r)
      else if in_run then replace_runs true r
      else String "-" (replace_runs true r)
  end.

Fixpoint drop_hyphens (s : string) : string :=
  match s with
  | String c r => if Ascii.eqb c "-" then drop_hyphens r else s
  | EmptyString => EmptyString
  end.

(** [.replace(/^-+|-+$/g, '')]: the leading and the trailing run of
    hyphens are removed. *)
Definition strip_hyphens (s : string) : string :=
  String.rev (drop_hyphens (String.rev (drop_hyphens s))).

Definition baseSlug (name : string) : string :=
  strip_hyphens (replace_runs false (Js.toLowerCase name)).

(** The template literal [`${baseSlug}-${counter}`]. *)
Definition suffixed (base : string) (counter : nat) : string :=
  base +:+ "-" +:+ pretty counter.

(** ** Object ids *)

(** An [ObjectId] is kept as its canonical text: 24 lower-case hexadecimal
    digits. *)
Definition ObjectId := string.

Definition is_hex (c : ascii) : bool :=
  Js.between 48 57 c || Js.between 97 102 c || Js.between 65 70 c.

Fixpoint all_hex (s : string) : bool :=
  match s with
  | EmptyString => true
  | String c r => is_hex c && all_hex r
  end.

(** [mongoose.Types.ObjectId.isValid(id)] for an id taken from the request
    path: a string of 24 hexadecimal digits.  (Some driver versions also take
    any 12-character string; such strings are treated as malformed here.) *)
Definition isValid (raw : string) : bool :=
  (String.length raw =? 24)%nat && all_hex raw.

(** The cast Mongoose applies to a string given for an [ObjectId] path of a
    query; [None] is the [CastError] it throws. *)
Definition castObjectId (raw : string) : option ObjectId :=
  if isValid raw then Some (Js.toLowerCase raw) else None.

(** ** The schema of [models/Model.js] *)

Inductive Status := pending | approved | rejected.

Definition Status_eqb (a b : Status) : bool :=
  match a, b with
  | pending, pending | approved, approved | rejected, rejected => true
  | _, _ => false
  end.

Definition Status_text (s : Status) : string :=
  match s with
  | pending => "pending" | approved => "approved" | rejected => "rejected"
  end.

(** The enum of the [status] path, read from a request. *)
Definition Status_of_text (s : string) : option Status :=
  if String.eqb s "pending" then Some pending
  else if String.eqb s "approved" then Some approved
  else if String.eqb s "rejected" then Some rejected
  else None.

Definition categories : list string :=
  [ "chatbots"; "image"; "code"; "productivity"; "voice";
    "writing"; "research"; "agents"; "video"; "audio";
    "data-analysis"; "language"; "design"; "automation";
    "healthcare"; "education"; "marketing"; "finance" ].

Definition pricings : list string := [ "free"; "freemium"; "paid" ].

Definition capability_names : list string :=
  [ "text"; "image"; "audio"; "video"; "code"; "agent" ].

Module Model.

(** A document of the collection.  A path that is [undefined] in the
    document is [None]; the slug of a document that was never saved is
    [undefined], which the hook's guard [!this.slug] treats as it treats
    the empty string, and both are the empty string here.  [updatedAt] is
    left out: no handler reads it. *)
Record t := mk {
  _id : ObjectId;
  name : string;
  slug : string;
  shortDescription : string;
  longDescription : option string;
  category : string;
  tags : list string;
  provider : string;
  pricing : string;
  rating : N;
  reviewsCount : N;
  installsCount : N;
  capabilities : list string;
  isApiAvailable : bool;
  isOpenSource : bool;
  modelType : option string;
  externalUrl : option string;
  iconUrl : option string;
  screenshots : list string;
  featured : bool;
  trendingScore : N;
  bestFor : list string;
  features : list string;
  examplePrompts : list string;
  uploadedBy : ObjectId;
  status : Status;
  rejectionReason : option string;
  createdAt : N
}.

(** Setters of single paths; a [String] path declared with [trim: true]
    stores the trimmed text. *)
Definition set_slug (v : string) (d : t) : t :=
  mk (_id d) (name d) (Js.toLowerCase (Js.trim v)) (shortDescription d)
     (longDescription d) (category d) (tags d) (provider d) (pricing d)
     (rating d) (reviewsCount d) (installsCount d) (capabilities d)
     (isApiAvailable d) (isOpenSource d) (modelType d) (externalUrl d)
     (iconUrl d) (screenshots d) (featured d) (trendingScore d) (bestFor d)
     (features d) (examplePrompts d) (uploadedBy d) (status d)
     (rejectionReason d) (createdAt d).

Definition set_status (v : Status) (d : t) : t :=
  mk (_id d) (name d) (slug d) (shortDescription d)
     (longDescription d) (category d) (tags d) (provider d) (pricing d)
     (rating d) (reviewsCount d) (installsCount d) (capabilities d)
     (isApiAvailable d) (isOpenSource d) (modelType d) (externalUrl d)
     (iconUrl d) (screenshots d) (featured d) (trendingScore d) (bestFor d)
     (features d) (examplePrompts d) (uploadedBy d) v
     (rejectionReason d) (createdAt d).

(** [model.rejectionReason = v]; [None] is the assignment of
    [undefined]. *)
Definition set_rejectionReason (v : option string) (d : t) : t :=
  mk (_id d) (name d) (slug d) (shortDescription d)
     (longDescription d) (category d) (tags d) (provider d) (pricing d)
     (rating d) (reviewsCount d) (installsCount d) (capabilities d)
     (isApiAvailable d) (isOpenSource d) (modelType d) (externalUrl d)
     (iconUrl d) (screenshots d) (featured d) (trendingScore d) (bestFor d)
     (features d) (examplePrompts d) (uploadedBy d) (status d)
     (Js.trim <$> v) (createdAt d).

(** *** Validators of the schema, run by [save] *)

Definition required (s : string) : bool := negb (Js.falsy s).

Definition maxlength (n : nat) (s : string) : bool :=
  (String.length s <=? n)%nat.

Definition opt_ok (p : string -> bool) (o : option string) : bool :=
  match o with Some s => p s | None => true end.

(** A character matched by [.] in a regular expression without the [s]
    flag: anything but a line terminator. *)
Definition not_newline (c : ascii) : bool :=
  negb ((Js.code c =? 10) || (Js.code c =? 13)).

Definition after_scheme (scheme v : string) : bool :=
  Js.startsWith scheme v &&
  match String.substring (String.length scheme) 1 v with
  | String c _ => not_newline c
  | EmptyString => false
  end.

(** [!v || /^https?:\/\/.+/.test(v)]. *)
Definition externalUrl_validator (v : string) : bool :=
  Js.falsy v || after_scheme "http://" v || after_scheme "https://" v.

Definition valid (d : t) : bool :=
  required (name d) && maxlength 100 (name d) &&
  required (shortDescription d) && maxlength 200 (shortDescription d) &&
  opt_ok (maxlength 2000) (longDescription d) &&
  required (category d) && Js.one_of categories (category d) &&
  forallb (maxlength 30) (tags d) &&
  required (provider d) && maxlength 50 (provider d) &&
  Js.one_of pricings (pricing d) &&
  (rating d <=? 5) &&
  forallb (Js.one_of capability_names) (capabilities d) &&
  opt_ok (maxlength 50) (modelType d) &&
  opt_ok externalUrl_validator (externalUrl d) &&
  (trendingScore d <=? 100) &&
  forallb (maxlength 50) (bestFor d) &&
  forallb (maxlength 100) (features d) &&
  forallb (maxlength 200) (examplePrompts d).

End Model.

(** Modelled from the spec: the [User] schema ([models/User.js] is not among
    the sources).  The paths are those the sign-up handler of
    [routes/auth.js] stores, with the back-reference collection
    [uploadedModels] that the model routes push to and pull from. *)
Module User.

Record t := mk {
  _id : ObjectId;
  firstName : string;
  lastName : string;
  email : string;
  mobileNumber : string;
  password : string;
  uploadedModels : list ObjectId
}.

Definition set_uploadedModels (v : list ObjectId) (u : t) : t :=
  mk (_id u) (firstName u) (lastName u) (email u) (mobileNumber u)
     (password u) v.

End User.

(** ** The database and the monad of the handlers *)

Record Db := mkDb {
  models : list Model.t;
  users : list User.t
}.

Inductive exn :=
| CastError          (* a query value that does not cast to its path's type *)
| ValidationError    (* a schema validator failed in [save] *)
| DuplicateKey       (* E11000, a unique index refused the write *)
| SyntaxError.       (* [new RegExp] on an invalid pattern *)

(** [Stuck] is the loop of the pre-save hook running out of the fuel the
    model gives it; the totality lemmas show it never happens. *)
Inductive outcome (A : Type) :=
| Done (a : A)
| Raise (e : exn)
| Stuck.
Arguments Done {A} a.
Arguments Raise {A} e.
Arguments Stuck {A}.

Definition M (A : Type) : Type := Db -> outcome A * Db.

Definition ret {A} (a : A) : M A := fun db => (Done a, db).

Definition bind {A B} (m : M A) (k : A -> M B) : M B :=
  fun db =>
    match m db with
    | (Done a, db') => k a db'
    | (Raise e, db') => (Raise e, db')
    | (Stuck, db') => (Stuck, db')
    end.

Definition throw {A} (e : exn) : M A := fun db => (Raise e, db).

Definition stuck {A} : M A := fun db => (Stuck, db).

(** [try { body } catch (error) { handler }]. *)
Definition try_catch {A} (body : M A) (handler : exn -> M A) : M A :=
  fun db =>
    match body db with
    | (Raise e, db') => handler e db'
    | r => r
    end.

Definition get_db : M Db := fun db => (Done db, db).

Definition put_db (db : Db) : M unit := fun _ => (Done tt, db).

Declare Scope db_scope.
Delimit Scope db_scope with db.
Notation "'let*' x ':=' m 'in' k" := (bind m (fun x => k))
  (at level 10, x name, m at level 100, k at level 200) : db_scope.
Notation "'do' m 'in' k" := (bind m (fun _ => k))
  (at level 10, m at level 100, k at level 200) : db_scope.
Local Open Scope db_scope.

(** ** The storage layer, as Mongoose presents it to the handlers *)

Definition id_eqb (a b : ObjectId) : bool := String.eqb a b.

(** A document in memory: its paths, whether it was created by [new Model]
    and not yet saved, and what [isModified('name')] answers. *)
Record Document := mkDocument {
  fields : Model.t;
  isNew : bool;
  name_modified : bool
}.

(** A document as a query returns it. *)
Definition hydrate (d : Model.t) : Document := mkDocument d false false.

(** The cast of a raw request value used for an [ObjectId] path. *)
Definition cast (raw : string) : M ObjectId :=
  match castObjectId raw with
  | Some i => ret i
  | None => throw CastError
  end.

Definition findOne (p : Model.t -> bool) : M (option Model.t) :=
  fun db => (Done (List.find p (models db)), db).

Definition find_all (p : Model.t -> bool) : M (list Model.t) :=
  fun db => (Done (List.filter p (models db)), db).

Definition countDocuments (p : Model.t -> bool) : M nat :=
  fun db => (Done (length (List.filter p (models db))), db).

(** The query of the hook: [{ slug: slug, _id: { $ne: this._id } }]. *)
Definition slug_of_another (self : ObjectId) (slug : string) (m : Model.t) : bool :=
  String.eqb (Model.slug m) slug && negb (id_eqb (Model._id m) self).

(** The [while (true)] loop of the hook, one probe of the collection per
    turn; [fuel] bounds the number of turns. *)
Fixpoint probe (fuel : nat) (self : ObjectId) (base slug : string)
  (counter : nat) : M string :=
  match fuel with
  | O => stuck
  | S fuel' =>
      let* existingModel := findOne (slug_of_another self slug) in
      match existingModel with
      | None => ret slug
      | Some _ => probe fuel' self base (suffixed base counter) (S counter)
      end
  end.

(** [modelSchema.pre('save', ...)].  The loop is given one turn more than
    the collection has documents, which is enough for it to end
    ([probe_total]). *)
Definition pre_save (doc : Document) : M Document :=
  let this := fields doc in
  if name_modified doc || Js.falsy (Model.slug this) then
    let base := baseSlug (Model.name this) in
    let* db := get_db in
    let* slug := probe (S (length (models db))) (Model._id this) base base 1%nat in
    ret (mkDocument (Model.set_slug slug this) (isNew doc) (name_modified doc))
  else ret doc.

Definition has_id (i : ObjectId) (m : Model.t) : bool := id_eqb (Model._id m) i.

Definition replace_doc (d : Model.t) (l : list Model.t) : list Model.t :=
  List.map (fun m => if has_id (Model._id d) m then d else m) l.

(** [doc.save()]: the validators of the schema, then the pre-save hook,
    then the write, which the unique indexes on [_id] and [slug] may
    refuse. *)
Definition save (doc : Document) : M Model.t :=
  if negb (Model.valid (fields doc)) then throw ValidationError
  else
    let* doc' := pre_save doc in
    let d := fields doc' in
    let* db := get_db in
    if isNew doc' then
      if existsb (has_id (Model._id d)) (models db)
         || existsb (fun m => String.eqb (Model.slug m) (Model.slug d)) (models db)
      then throw DuplicateKey
      else do put_db (mkDb (models db ++ [d]) (users db)) in ret d
    else
      if existsb (slug_of_another (Model._id d) (Model.slug d)) (models db)
      then throw DuplicateKey
      else do put_db (mkDb (replace_doc d (models db)) (users db)) in ret d.

(** [Model.findByIdAndDelete(raw)]. *)
Definition findByIdAndDelete (raw : string) : M unit :=
  let* i := cast raw in
  let* db := get_db in
  put_db (mkDb (List.filter (fun m => negb (has_id i m)) (models db)) (users db)).

Definition update_user (i : ObjectId) (f : User.t -> User.t) : M unit :=
  let* db := get_db in
  put_db (mkDb (models db)
            (List.map (fun u => if id_eqb (User._id u) i then f u else u) (users db))).

(** [User.findByIdAndUpdate(i, { $push: { uploadedModels: m } })]. *)
Definition push_uploadedModel (i m : ObjectId) : M unit :=
  update_user i (fun u => User.set_uploadedModels (User.uploadedModels u ++ [m]) u).

(** [User.findByIdAndUpdate(i, { $pull: { uploadedModels: raw } })]. *)
Definition pull_uploadedModel (i : ObjectId) (raw : string) : M unit :=
  let* m := cast raw in
  update_user i (fun u =>
    User.set_uploadedModels
      (List.filter (fun x => negb (id_eqb x m)) (User.uploadedModels u)) u).

(** ** The request body and its Joi schema ([routes/models.js]) *)

(** What the body holds under a key of the schema: nothing, a JSON value
    that Joi cannot convert to the type the schema gives the key, or a value
    of that type. *)
Inductive given (A : Type) :=
| Missing
| Mistyped
| Given (a : A).
Arguments Missing {A}.
Arguments Mistyped {A}.
Arguments Given {A} a.

(** An array of the body: each item is a string or ([None]) something
    else. *)
Definition items := given (list (option string)).

Module Body.
Record t := mk {
  name : given string;
  shortDescription : given string;
  longDescription : given string;
  category : given string;
  tags : items;
  provider : given string;
  pricing : given string;
  capabilities : items;
  isApiAvailable : given bool;
  isOpenSource : given bool;
  modelType : given string;
  externalUrl : given string;
  bestFor : items;
  features : items;
  examplePrompts : items;
  (** keys of the body that the schema does not declare *)
  unknown : list string
}.
End Body.

(** The object [modelSchema.validate] returns as [value]: converted
    (trimmed) texts and defaults filled in; an optional key that the body
    does not hold is absent ([None]). *)
Module Value.
Record t := mk {
  name : string;
  shortDescription : string;
  longDescription : option string;
  category : string;
  tags : list string;
  provider : string;
  pricing : string;
  capabilities : list string;
  isApiAvailable : bool;
  isOpenSource : bool;
  modelType : option string;
  externalUrl : option string;
  bestFor : list string;
  features : list string;
  examplePrompts : list string
}.
End Value.

(** One entry of [error.details]: the key (and the index, for an item of an
    array) and Joi's error type. *)
Record detail := mkDetail {
  path : string;
  index : option nat;
  type : string
}.

Inductive checked (A : Type) :=
| Valid (a : A)
| Invalid (d : detail).
Arguments Valid {A} a.
Arguments Invalid {A} d.

Definition and_then {A B} (c : checked A) (k : A -> checked B) : checked B :=
  match c with
  | Valid a => k a
  | Invalid d => Invalid d
  end.

Notation "'let+' x ':=' c 'in' k" := (and_then c (fun x => k))
  (at level 10, x name, c at level 100, k at level 200).

Definition bad {A} (key type : string) : checked A :=
  Invalid (mkDetail key None type).

(** [Joi.string().trim().max(n)] on a string: the text is trimmed first;
    the empty text is refused unless [allow('')] lets it through. *)
Definition string_rule (key : string) (n : nat) (allow_empty : bool) (s : string)
  : checked string :=
  let s' := Js.trim s in
  if Js.falsy s' then
    if allow_empty then Valid s' else bad key "string.empty"
  else if (n <? String.length s')%nat then bad key "string.max"
  else Valid s'.

(** [Joi.string().trim().max(n).required()]. *)
Definition required_string (key : string) (n : nat) (g : given string)
  : checked string :=
  match g with
  | Missing => bad key "any.required"
  | Mistyped => bad key "string.base"
  | Given s => string_rule key n false s
  end.

(** [Joi.string().trim().max(n).allow('')]. *)
Definition optional_string (key : string) (n : nat) (g : given string)
  : checked (option string) :=
  match g with
  | Missing => Valid None
  | Mistyped => bad key "string.base"
  | Given s => let+ s' := string_rule key n true s in Valid (Some s')
  end.

(** [Joi.string().valid(...).required()]: exactly one of the listed
    texts. *)
Definition required_only (key : string) (allowed : list string) (g : given string)
  : checked string :=
  match g with
  | Missing => bad key "any.required"
  | Mistyped => bad key "any.only"
  | Given s => if Js.one_of allowed s then Valid s else bad key "any.only"
  end.

(** [Joi.string().valid(...).default(d)]. *)
Definition only_or_default (key : string) (allowed : list string) (d : string)
  (g : given string) : checked string :=
  match g with
  | Missing => Valid d
  | Mistyped => bad key "any.only"
  | Given s => if Js.one_of allowed s then Valid s else bad key "any.only"
  end.

Definition at_index {A} (i : nat) (c : checked A) : checked A :=
  match c with
  | Valid a => Valid a
  | Invalid d => Invalid (mkDetail (path d) (Some i) (type d))
  end.

Fixpoint each_item (rule : option string -> checked string) (i : nat)
  (l : list (option string)) : checked (list string) :=
  match l with
  | [] => Valid []
  | x :: r =>
      let+ x' := at_index i (rule x) in
      let+ r' := each_item rule (S i) r in
      Valid (x' :: r')
  end.

(** [Joi.array().items(rule).default([])]. *)
Definition array_of (key : string) (rule : option string -> checked string)
  (g : items) : checked (list string) :=
  match g with
  | Missing => Valid []
  | Mistyped => bad key "array.base"
  | Given l => each_item rule 0 l
  end.

(** The item rule [Joi.string().trim().max(n)]. *)
Definition text_item (key : string) (n : nat) (x : option string) : checked string :=
  match x with
  | None => bad key "string.base"
  | Some s => string_rule key n false s
  end.

(** The item rule [Joi.string().valid(...)]. *)
Definition only_item (key : string) (allowed : list string) (x : option string)
  : checked string :=
  match x with
  | Some s => if Js.one_of allowed s then Valid s else bad key "any.only"
  | None => bad key "any.only"
  end.

(** [Joi.boolean().default(false)]. *)
Definition boolean (key : string) (g : given bool) : checked bool :=
  match g with
  | Missing => Valid false
  | Mistyped => bad key "boolean.base"
  | Given b => Valid b
  end.

(** ** Documents as the replies carry them *)

#[local] Unset Elimination Schemes.
Inductive Val :=
| VNull
| VStr (s : string)
| VNum (n : N)
| VBool (b : bool)
| VList (l : list string)
| VDoc (d : gmap string Val).
#[local] Set Elimination Schemes.

Definition optional (key : string) (o : option string) : list (string * Val) :=
  match o with
  | Some s => [(key, VStr s)]
  | None => []
  end.

(** The paths of a listing, as a query without projection returns them. *)
Definition model_doc (d : Model.t) : gmap string Val :=
  list_to_map
    ([ ("_id", VStr (Model._id d)); ("name", VStr (Model.name d));
       ("slug", VStr (Model.slug d));
       ("shortDescription", VStr (Model.shortDescription d));
       ("category", VStr (Model.category d)); ("tags", VList (Model.tags d));
       ("provider", VStr (Model.provider d));
       ("pricing", VStr (Model.pricing d)); ("rating", VNum (Model.rating d));
       ("reviewsCount", VNum (Model.reviewsCount d));
       ("installsCount", VNum (Model.installsCount d));
       ("capabilities", VList (Model.capabilities d));
       ("isApiAvailable", VBool (Model.isApiAvailable d));
       ("isOpenSource", VBool (Model.isOpenSource d));
       ("screenshots", VList (Model.screenshots d));
       ("featured", VBool (Model.featured d));
       ("trendingScore", VNum (Model.trendingScore d));
       ("bestFor", VList (Model.bestFor d));
       ("features", VList (Model.features d));
       ("examplePrompts", VList (Model.examplePrompts d));
       ("uploadedBy", VStr (Model.uploadedBy d));
       ("status", VStr (Status_text (Model.status d)));
       ("createdAt", VNum (Model.createdAt d)) ]
     ++ optional "longDescription" (Model.longDescription d)
     ++ optional "modelType" (Model.modelType d)
     ++ optional "externalUrl" (Model.externalUrl d)
     ++ optional "iconUrl" (Model.iconUrl d)
     ++ optional "rejectionReason" (Model.rejectionReason d)).

Definition user_doc (u : User.t) : gmap string Val :=
  list_to_map
    [ ("_id", VStr (User._id u)); ("firstName", VStr (User.firstName u));
      ("lastName", VStr (User.lastName u)); ("email", VStr (User.email u));
      ("mobileNumber", VStr (User.mobileNumber u));
      ("password", VStr (User.password u));
      ("uploadedModels", VList (User.uploadedModels u)) ].

(** [.select('-key')]. *)
Definition deselect (key : string) (d : gmap string Val) : gmap string Val :=
  delete key d.

(** The inclusive projection ['key1 key2'] of [populate]: the listed paths,
    and [_id], which an inclusive projection keeps. *)
Definition select_only (keys : list string) (d : gmap string Val)
  : gmap string Val :=
  filter (fun kv => kv.1 ∈ "_id" :: keys) d.

(** [.populate('uploadedBy', keys)]: the reference is replaced by the
    projected document of the user, or by [null] when there is none. *)
Definition populate (keys : list string) (us : list User.t)
  (d : gmap string Val) : gmap string Val :=
  match d !! "uploadedBy" with
  | Some (VStr i) =>
      <[ "uploadedBy" :=
           match List.find (fun u => id_eqb (User._id u) i) us with
           | Some u => VDoc (select_only keys (user_doc u))
           | None => VNull
           end ]> d
  | _ => d
  end.

(** ** Replies *)

Record Pagination := mkPagination {
  currentPage : N;
  totalPages : N;
  totalModels : N;
  hasNext : bool;
  hasPrev : bool
}.

Inductive Data :=
| NoData
| OneModel (model : gmap string Val)
| Saved (model : Model.t) (uploadedBy : option Val)
| Models (models : list (gmap string Val)) (count : nat)
| Page (models : list (gmap string Val)) (pagination : Pagination).

(** [res.status(code).json({ success, message, errors, data })]. *)
Record Reply := mkReply {
  code : N;
  success : bool;
  message : option string;
  errors : list detail;
  data : Data
}.

Definition failure (code : N) (message : string) : Reply :=
  mkReply code false (Some message) [] NoData.

Definition validation_error (ds : list detail) : Reply :=
  mkReply 400 false (Some "Validation error") ds NoData.

(** The reply of every [catch] block. *)
Definition internal_error : Reply := failure 500 "Internal server error".

(** The replies of the handlers that refuse a request. *)
Definition duplicate_name : Reply :=
  failure 400 "You have already uploaded a model with this name".

Definition invalid_id : Reply := failure 400 "Invalid model ID format".

Definition model_not_found : Reply := failure 404 "Model not found".

Definition not_yours_to_edit : Reply :=
  failure 404 "Model not found or you do not have permission to edit it".

Definition not_yours_to_delete : Reply :=
  failure 404 "Model not found or you do not have permission to delete it".

Definition approved_is_frozen : Reply :=
  failure 400
    "Cannot edit an approved model. Contact support if changes are needed.".

Definition invalid_status : Reply :=
  failure 400 "Invalid status. Must be: pending, approved, or rejected".

Definition reason_required : Reply :=
  failure 400 "Rejection reason is required when rejecting a model".

Definition ok (message : option string) (d : Data) : Reply :=
  mkReply 200 true message [] d.

(** ** Queries of the public collection *)

Module Query.
(** [req.query]; [page] and [limit] arrive as decimal numerals, and the
    model covers the positive ones. *)
Record t := mk {
  category : option string;
  pricing : option string;
  page : option positive;
  limit : option positive;
  search : option string
}.
End Query.

Inductive clause :=
| name_regex (re : string -> bool)
| shortDescription_regex (re : string -> bool)
| tags_in_regex (re : string -> bool).

(** The filter object handed to [Model.find] and [Model.countDocuments]. *)
Record Filter := mkFilter {
  f_status : option Status;
  f_category : option string;
  f_pricing : option string;
  f_or : option (list clause)
}.

Definition clause_holds (m : Model.t) (c : clause) : bool :=
  match c with
  | name_regex re => re (Model.name m)
  | shortDescription_regex re => re (Model.shortDescription m)
  | tags_in_regex re => existsb re (Model.tags m)
  end.

Definition equals {A} (eqb : A -> A -> bool) (want : option A) (have : A) : bool :=
  match want with
  | Some w => eqb have w
  | None => true
  end.

Definition matches (f : Filter) (m : Model.t) : bool :=
  equals Status_eqb (f_status f) (Model.status m)
  && equals String.eqb (f_category f) (Model.category m)
  && equals String.eqb (f_pricing f) (Model.pricing m)
  && match f_or f with
     | Some cs => existsb (clause_holds m) cs
     | None => true
     end.

(** [{ featured: -1, trendingScore: -1, createdAt: -1 }]: [a] may stand
    before [b]. *)
Definition sorts_before (a b : Model.t) : bool :=
  match Model.featured a, Model.featured b with
  | true, false => true
  | false, true => false
  | _, _ =>
      (Model.trendingScore b <? Model.trendingScore a)
      || ((Model.trendingScore a =? Model.trendingScore b)
          && (Model.createdAt b <=? Model.createdAt a))
  end.

Fixpoint insert_by (before : Model.t -> Model.t -> bool) (x : Model.t)
  (l : list Model.t) : list Model.t :=
  match l with
  | [] => [x]
  | y :: r => if before x y then x :: y :: r else y :: insert_by before x r
  end.

(** [.sort(...)], as a stable sort. *)
Definition sort_by (before : Model.t -> Model.t -> bool) (l : list Model.t)
  : list Model.t :=
  fold_right (insert_by before) [] l.

(** [Math.ceil(a / b)] on whole numbers, [b] positive. *)
Definition ceil_div (a b : N) : N :=
  if a mod b =? 0 then a / b else a / b + 1.

(** A query parameter that is given and is not the word [all]. *)
Definition chosen (o : option string) : option string :=
  match o with
  | Some s => if Js.falsy s || String.eqb s "all" then None else Some s
  | None => None
  end.

(** The body of [PUT /admin/:id/status]; a key holds a string or is
    absent. *)
Module StatusBody.
Record t := mk {
  status : option string;
  rejectionReason : option string
}.
End StatusBody.

Section Handlers.

(** Joi's recogniser of URIs (RFC 3986), behind [Joi.string().uri()]. *)
Variable is_uri : string -> bool.

(** [new RegExp(pattern, 'i')] and the [$regex] operator with option [i]:
    the search predicate of the compiled pattern, or [None] when the
    pattern is not a regular expression. *)
Variable RegExp_i : string -> option (string -> bool).

(** [Joi.string().uri().allow('')]. *)
Definition uri_rule (key : string) (g : given string) : checked (option string) :=
  match g with
  | Missing => Valid None
  | Mistyped => bad key "string.base"
  | Given s =>
      if Js.falsy s then Valid (Some s)
      else if is_uri s then Valid (Some s)
      else bad key "string.uri"
  end.

(** [modelSchema.validate(req.body)], with Joi's defaults: conversion on,
    the first error ends the validation, keys outside the schema are
    refused once the declared keys have passed. *)
Definition validate (b : Body.t) : checked Value.t :=
  let+ name := required_string "name" 100 (Body.name b) in
  let+ shortDescription :=
    required_string "shortDescription" 200 (Body.shortDescription b) in
  let+ longDescription :=
    optional_string "longDescription" 2000 (Body.longDescription b) in
  let+ category := required_only "category" categories (Body.category b) in
  let+ tags := array_of "tags" (text_item "tags" 30) (Body.tags b) in
  let+ provider := required_string "provider" 50 (Body.provider b) in
  let+ pricing :=
    only_or_default "pricing" pricings "freemium" (Body.pricing b) in
  let+ capabilities :=
    array_of "capabilities" (only_item "capabilities" capability_names)
      (Body.capabilities b) in
  let+ isApiAvailable := boolean "isApiAvailable" (Body.isApiAvailable b) in
  let+ isOpenSource := boolean "isOpenSource" (Body.isOpenSource b) in
  let+ modelType := optional_string "modelType" 50 (Body.modelType b) in
  let+ externalUrl := uri_rule "externalUrl" (Body.externalUrl b) in
  let+ bestFor := array_of "bestFor" (text_item "bestFor" 50) (Body.bestFor b) in
  let+ features := array_of "features" (text_item "features" 100) (Body.features b) in
  let+ examplePrompts :=
    array_of "examplePrompts" (text_item "examplePrompts" 200)
      (Body.examplePrompts b) in
  match Body.unknown b with
  | key :: _ => bad key "object.unknown"
  | [] =>
      Valid (Value.mk name shortDescription longDescription category tags
               provider pricing capabilities isApiAvailable isOpenSource
               modelType externalUrl bestFor features examplePrompts)
  end.

(** *** Documents in memory *)

Definition or_keep {A} (v : option A) (old : option A) : option A :=
  match v with Some x => Some x | None => old end.

(** [new Model({ ...value, uploadedBy })]: the setters of the schema apply
    to what is given and the defaults of the schema fill the rest. *)
Definition new_Model (new_id : ObjectId) (now : N) (v : Value.t)
  (owner : ObjectId) : Document :=
  mkDocument
    (Model.mk new_id (Js.trim (Value.name v)) ""
       (Js.trim (Value.shortDescription v))
       (Js.trim <$> Value.longDescription v) (Value.category v)
       (List.map Js.trim (Value.tags v)) (Js.trim (Value.provider v))
       (Value.pricing v) 0 0 0 (Value.capabilities v)
       (Value.isApiAvailable v) (Value.isOpenSource v)
       (Js.trim <$> Value.modelType v) (Js.trim <$> Value.externalUrl v)
       None [] false 0
       (List.map Js.trim (Value.bestFor v))
       (List.map Js.trim (Value.features v))
       (List.map Js.trim (Value.examplePrompts v))
       owner pending None now)
    true true.

(** [Object.assign(model, value)]: every key of [value] is assigned; the
    name counts as modified when the text assigned differs from the text
    the document held. *)
Definition assign (doc : Document) (v : Value.t) : Document :=
  let d := fields doc in
  let name' := Js.trim (Value.name v) in
  mkDocument
    (Model.mk (Model._id d) name' (Model.slug d)
       (Js.trim (Value.shortDescription v))
       (or_keep (Js.trim <$> Value.longDescription v) (Model.longDescription d))
       (Value.category v)
       (List.map Js.trim (Value.tags v)) (Js.trim (Value.provider v))
       (Value.pricing v) (Model.rating d) (Model.reviewsCount d)
       (Model.installsCount d) (Value.capabilities v)
       (Value.isApiAvailable v) (Value.isOpenSource v)
       (or_keep (Js.trim <$> Value.modelType v) (Model.modelType d))
       (or_keep (Js.trim <$> Value.externalUrl v) (Model.externalUrl d))
       (Model.iconUrl d) (Model.screenshots d) (Model.featured d)
       (Model.trendingScore d)
       (List.map Js.trim (Value.bestFor v))
       (List.map Js.trim (Value.features v))
       (List.map Js.trim (Value.examplePrompts v))
       (Model.uploadedBy d) (Model.status d) (Model.rejectionReason d)
       (Model.createdAt d))
    (isNew doc)
    (name_modified doc || negb (String.eqb name' (Model.name d))).

Definition with_fields (f : Model.t -> Model.t) (doc : Document) : Document :=
  mkDocument (f (fields doc)) (isNew doc) (name_modified doc).

Definition owned_by (i caller : ObjectId) (m : Model.t) : bool :=
  has_id i m && id_eqb (Model.uploadedBy m) caller.

(** *** [POST /] : upload a model.  [caller] is [req.user._id], set by the
    authentication middleware; [new_id] and [now] are the id and the
    creation time the new document receives. *)
Definition post_model (caller new_id : ObjectId) (now : N) (body : Body.t)
  : M Reply :=
  try_catch
    (match validate body with
     | Invalid d => ret (validation_error [d])
     | Valid value =>
         let* existingModel :=
           findOne (fun m => String.eqb (Model.name m) (Value.name value)
                             && id_eqb (Model.uploadedBy m) caller) in
         match existingModel with
         | Some _ =>
             ret duplicate_name
         | None =>
             let* model := save (new_Model new_id now value caller) in
             do push_uploadedModel caller (Model._id model) in
             ret (mkReply 201 true
                    (Some "Model uploaded successfully and is pending review") []
                    (OneModel (list_to_map
                       [ ("id", VStr (Model._id model));
                         ("name", VStr (Model.name model));
                         ("slug", VStr (Model.slug model));
                         ("shortDescription", VStr (Model.shortDescription model));
                         ("category", VStr (Model.category model));
                         ("provider", VStr (Model.provider model));
                         ("status", VStr (Status_text (Model.status model)));
                         ("createdAt", VNum (Model.createdAt model)) ])))
         end
     end)
    (fun _ => ret internal_error).

Definition newest_first (a b : Model.t) : bool :=
  Model.createdAt b <=? Model.createdAt a.

(** *** [GET /my-models] *)
Definition get_my_models (caller : ObjectId) : M Reply :=
  try_catch
    (let* found := find_all (fun m => id_eqb (Model.uploadedBy m) caller) in
     let models :=
       List.map (fun m => deselect "uploadedBy" (model_doc m))
         (sort_by newest_first found) in
     ret (ok None (Models models (length models))))
    (fun _ => ret internal_error).

(** *** [GET /] : the public collection *)
Definition build_filter (q : Query.t) : M Filter :=
  let category := chosen (Query.category q) in
  let pricing := chosen (Query.pricing q) in
  match Query.search q with
  | Some search =>
      if Js.falsy search then ret (mkFilter (Some approved) category pricing None)
      else
        match RegExp_i search with
        | Some re =>
            ret (mkFilter (Some approved) category pricing
                   (Some [name_regex re; shortDescription_regex re;
                          tags_in_regex re]))
        | None => throw SyntaxError
        end
  | None => ret (mkFilter (Some approved) category pricing None)
  end.

Definition get_models (q : Query.t) : M Reply :=
  try_catch
    (let page := default 1 (Npos <$> Query.page q) in
     let limit := default 20 (Npos <$> Query.limit q) in
     let skip := (page - 1) * limit in
     let* filter := build_filter q in
     let* found := find_all (matches filter) in
     let* db := get_db in
     let models :=
       List.map
         (fun m => deselect "rejectionReason"
                     (populate ["firstName"; "lastName"] (users db) (model_doc m)))
         (firstn (N.to_nat limit)
            (skipn (N.to_nat skip) (sort_by sorts_before found))) in
     let* count := countDocuments (matches filter) in
     let totalModels := N.of_nat count in
     let totalPages := ceil_div totalModels limit in
     ret (ok None
            (Page models
               (mkPagination page totalPages totalModels
                  (page <? totalPages) (1 <? page)))))
    (fun _ => ret internal_error).

(** *** [GET /:id] *)
Definition get_model (id : string) : M Reply :=
  try_catch
    (if negb (isValid id) then ret invalid_id
     else
       let* i := cast id in
       let* model :=
         findOne (fun m => has_id i m && Status_eqb (Model.status m) approved) in
       match model with
       | None => ret model_not_found
       | Some m =>
           let* db := get_db in
           ret (ok None
                  (OneModel (populate ["firstName"; "lastName"] (users db)
                               (model_doc m))))
       end)
    (fun _ => ret internal_error).

(** *** [PUT /:id] : update by the owner *)
Definition put_model (caller : ObjectId) (id : string) (body : Body.t)
  : M Reply :=
  try_catch
    (let* i := cast id in
     let* model := findOne (owned_by i caller) in
     match model with
     | None => ret not_yours_to_edit
     | Some m =>
         if Status_eqb (Model.status m) approved then ret approved_is_frozen
         else
           match validate body with
           | Invalid d => ret (validation_error [d])
           | Valid value =>
               let model := assign (hydrate m) value in
               let model :=
                 if Status_eqb (Model.status (fields model)) rejected then
                   with_fields
                     (fun d => Model.set_rejectionReason None
                                 (Model.set_status pending d)) model
                 else model in
               let* saved := save model in
               ret (ok (Some "Model updated successfully") (Saved saved None))
           end
     end)
    (fun _ => ret internal_error).

(** *** [DELETE /:id] : removal by the owner *)
Definition delete_model (caller : ObjectId) (id : string) : M Reply :=
  try_catch
    (let* i := cast id in
     let* model := findOne (owned_by i caller) in
     match model with
     | None => ret not_yours_to_delete
     | Some _ =>
         do findByIdAndDelete id in
         do pull_uploadedModel caller id in
         ret (ok (Some "Model deleted successfully") NoData)
     end)
    (fun _ => ret internal_error).

(** *** [PUT /admin/:id/status] *)
Definition put_admin_status (id : string) (body : StatusBody.t) : M Reply :=
  try_catch
    (match StatusBody.status body ≫= Status_of_text with
     | None => ret invalid_status
     | Some status =>
         if Status_eqb status rejected
            && Js.falsy (default "" (StatusBody.rejectionReason body))
         then ret reason_required
         else
           let* i := cast id in
           let* model := findOne (has_id i) in
           match model with
           | None => ret model_not_found
           | Some m =>
               let model := with_fields (Model.set_status status) (hydrate m) in
               let model :=
                 if Status_eqb status rejected then
                   with_fields
                     (Model.set_rejectionReason (StatusBody.rejectionReason body))
                     model
                 else with_fields (Model.set_rejectionReason None) model in
               let* saved := save model in
               let* db := get_db in
               ret (ok (Some ("Model " +:+ Status_text status +:+ " successfully"))
                      (Saved saved
                         (populate ["firstName"; "lastName"; "email"] (users db)
                            (model_doc saved) !! "uploadedBy")))
           end
     end)
    (fun _ => ret internal_error).

End Handlers.

(** ** The properties, in the words of the specification *)

(** The sequence of candidates the slug generator tries: the base slug,
    then the base slug with the suffixes [-1], [-2], ... *)
Definition candidate (base : string) (k : nat) : string :=
  match k with
  | O => base
  | S _ => suffixed base k
  end.

(** Some listing other than [self] holds the slug [s]. *)
Definition held_by_another (self : ObjectId) (l : list Model.t) (s : string)
  : Prop :=
  exists m, In m l /\ Model._id m <> self /\ Model.slug m = s.

(** [s] is the first candidate that no other listing holds. *)
Definition first_free_candidate (self : ObjectId) (l : list Model.t)
  (base s : string) : Prop :=
  exists k,
    s = candidate base k
    /\ ~ held_by_another self l s
    /\ forall j, (j < k)%nat -> held_by_another self l (candidate base j).

(** The text [s] contains the term, letter case apart. *)
Definition contains_i (term s : string) : bool :=
  Js.includes (Js.toLowerCase term) (Js.toLowerCase s).

(** The listings of the public collection for a query: approved, of the
    category and of the pricing asked for (a parameter that is empty or is
    the word [all] asks for nothing), and found by the search term in the
    name, in the short description or in a tag. *)
Definition public_match (q : Query.t) (m : Model.t) : bool :=
  Status_eqb (Model.status m) approved
  && match chosen (Query.category q) with
     | Some c => String.eqb (Model.category m) c
     | None => true
     end
  && match chosen (Query.pricing q) with
     | Some p => String.eqb (Model.pricing m) p
     | None => true
     end
  && match Query.search q with
     | Some term =>
         Js.falsy term
         || contains_i term (Model.name m)
         || contains_i term (Model.shortDescription m)
         || existsb (contains_i term) (Model.tags m)
     | None => true
     end.

(** The same with every filter that is given applied as it is given: the
    reading under which a category filter [all] selects the listings whose
    category is [all]. *)
Definition literal_match (q : Query.t) (m : Model.t) : bool :=
  Status_eqb (Model.status m) approved
  && equals String.eqb (Query.category q) (Model.category m)
  && equals String.eqb (Query.pricing q) (Model.pricing m)
  && match Query.search q with
     | Some term =>
         contains_i term (Model.name m)
         || contains_i term (Model.shortDescription m)
         || existsb (contains_i term) (Model.tags m)
     | None => true
     end.

(** The invariants of the collection that its unique indexes maintain. *)
Definition unique_ids (db : Db) : Prop :=
  List.NoDup (List.map Model._id (models db)).

Definition unique_slugs (db : Db) : Prop :=
  List.NoDup (List.map Model.slug (models db)).

(** The collection as the handlers leave it: ids and slugs are unique and
    every document passes the validators of the schema. *)
Definition consistent (db : Db) : Prop :=
  unique_ids db /\ unique_slugs db
  /\ Forall (fun m => Model.valid m = true) (models db).

(** The shape [^[a-z0-9]+(-[a-z0-9]+)*$]: letters and digits, with single
    hyphens between them only. *)
Fixpoint hyphen_separated (after_hyphen : bool) (s : string) : bool :=
  match s with
  | EmptyString => negb after_hyphen
  | String c r =>
      if slug_char c then hyphen_separated false r
      else Ascii.eqb c "-" && negb after_hyphen && hyphen_separated true r
  end.

Definition slug_shape (s : string) : bool := hyphen_separated true s.

(** ** Notions the statements and the proofs use *)

Abbreviation chars := list_ascii_of_string.

(** Every character of [s] satisfies [P]. *)
Definition every (P : ascii -> bool) (s : string) : Prop :=
  forall c, In c (chars s) -> P c = true.

(** [trimStart] on the list of the characters. *)
Fixpoint lstrip (l : list ascii) : list ascii :=
  match l with
  | c :: r => if Js.is_space c then lstrip r else l
  | [] => []
  end.

(** The letters of a slug: [[a-z0-9]] and the hyphen. *)
Definition slug_letter (c : ascii) : bool := slug_char c || Ascii.eqb c "-".

Definition digit (c : ascii) : bool := Js.between 48 57 c.

(** What [save] leaves in the document it writes: the slug generated by
    the hook, or the document as it was. *)
Definition saved_from (doc : Document) (db : Db) (d' : Model.t) : Prop :=
  if name_modified doc || Js.falsy (Model.slug (fields doc)) then
    exists s,
      d' = Model.set_slug s (fields doc)
      /\ Model.slug d' = s
      /\ first_free_candidate (Model._id (fields doc)) (models db)
           (baseSlug (Model.name (fields doc))) s
  else d' = fields doc.

(** The request of the admin is well formed: the status is one of the
    three and a rejection carries a reason. *)
Definition well_formed (body : StatusBody.t) (st : Status) : Prop :=
  StatusBody.status body ≫= Status_of_text = Some st
  /\ (st = rejected ->
      Js.falsy (default "" (StatusBody.rejectionReason body)) = false).

(** The document [PUT /:id] hands to [save]. *)
Definition edited (m : Model.t) (v : Value.t) : Document :=
  let model := assign (hydrate m) v in
  if Status_eqb (Model.status (fields model)) rejected then
    with_fields
      (fun d => Model.set_rejectionReason None (Model.set_status pending d))
      model
  else model.

(** The page and the page size of a query, with their defaults. *)
Definition page_of (q : Query.t) : N := default 1 (Npos <$> Query.page q).

Definition limit_of (q : Query.t) : N := default 20 (Npos <$> Query.limit q).

(** The window of a page: [limit] items after the first
    [(page - 1) * limit]. *)
Definition window {A} (q : Query.t) (l : list A) : list A :=
  firstn (N.to_nat (limit_of q))
    (skipn (N.to_nat ((page_of q - 1) * limit_of q)) l).

(** The pagination block of the reply for [total] matching listings. *)
Definition pagination (q : Query.t) (total : nat) : Pagination :=
  let totalPages := ceil_div (N.of_nat total) (limit_of q) in
  mkPagination (page_of q) totalPages (N.of_nat total)
    (page_of q <? totalPages) (1 <? page_of q).

(** An item of the public collection. *)
Definition public_view (us : list User.t) (m : Model.t) : gmap string Val :=
  deselect "rejectionReason"
    (populate ["firstName"; "lastName"] us (model_doc m)).

(** The search term means its own text, letter case apart, to the
    regular-expression engine: so it is for a term without
    metacharacters. *)
Definition plain_term (RegExp_i : string -> option (string -> bool))
  (q : Query.t) : Prop :=
  forall term,
    Query.search q = Some term -> Js.falsy term = false ->
    RegExp_i term = Some (contains_i term).

(** No two hyphens stand side by side in [l]. *)
Definition no_double_hyphen (l : list ascii) : Prop :=
  forall l1 l2, l <> l1 ++ "-"%char :: "-"%char :: l2.

(** [l] is empty or starts with a letter or a digit. *)
Definition starts_well (l : list ascii) : Prop :=
  match l with
  | c :: _ => slug_char c = true
  | [] => True
  end.

(** The name holds a character that lower-cases to a letter or a digit of
    [[a-z0-9]]. *)
Definition has_alphanumeric (name : string) : Prop :=
  exists c, In c (chars (Js.toLowerCase name)) /\ slug_char c = true.

(** A text as Joi hands it on: trimmed and within its length. *)
Definition trimmed_within (n : nat) (s : string) : Prop :=
  Js.trim s = s /\ Model.maxlength n s = true.

Definition if_given (P : string -> Prop) (o : option string) : Prop :=
  forall s, o = Some s -> P s.

(** What [modelSchema.validate] guarantees of the value it returns. *)
Definition validated (v : Value.t) : Prop :=
  trimmed_within 100 (Value.name v) /\ Model.required (Value.name v) = true
  /\ trimmed_within 200 (Value.shortDescription v)
  /\ Model.required (Value.shortDescription v) = true
  /\ if_given (trimmed_within 2000) (Value.longDescription v)
  /\ Js.one_of categories (Value.category v) = true
  /\ Forall (trimmed_within 30) (Value.tags v)
  /\ trimmed_within 50 (Value.provider v)
  /\ Model.required (Value.provider v) = true
  /\ Js.one_of pricings (Value.pricing v) = true
  /\ Forall (fun c => Js.one_of capability_names c = true) (Value.capabilities v)
  /\ if_given (trimmed_within 50) (Value.modelType v)
  /\ Forall (trimmed_within 50) (Value.bestFor v)
  /\ Forall (trimmed_within 100) (Value.features v)
  /\ Forall (trimmed_within 200) (Value.examplePrompts v).

(** The link of the payload, if it gives one, passes the validator of the
    schema (Joi accepts any URI, the schema only [http] and [https]). *)
Definition link_accepted (v : Value.t) : Prop :=
  Model.opt_ok Model.externalUrl_validator (Js.trim <$> Value.externalUrl v)
  = true.

(** A computation keeps the collection consistent, whatever its outcome. *)
Definition keeps {A} (m : M A) : Prop :=
  forall db out db', consistent db -> m db = (out, db') -> consistent db'.

(** ** Sample data *)

Module Sample.

(** A stand-in for Joi's recogniser of URIs. *)
Definition uri (s : string) : bool :=
  Js.startsWith "http://" s || Js.startsWith "https://" s
  || Js.startsWith "ftp://" s.

(** A regular-expression engine that is asked for plain terms only. *)
Definition regex (pattern : string) : option (string -> bool) :=
  Some (contains_i pattern).

Definition alice : ObjectId := "64b000000000000000000a11".
Definition bob : ObjectId := "64b000000000000000000b0b".

Definition users : list User.t :=
  [ User.mk alice "Alice" "Ada" "alice@example.org" "9876543210" "hash-a" [];
    User.mk bob "Bob" "Bee" "bob@example.org" "9876543211" "hash-b" [] ].

Definition listing (id owner : ObjectId) (name slug : string) (st : Status)
  (reason : option string) : Model.t :=
  Model.mk id name slug "fast inference" None "chatbots" ["reasoning"] "Acme"
    "freemium" 0 0 0 [] false false None None None [] false 0 [] [] []
    owner st reason 1.

Definition first_id : ObjectId := "64b000000000000000000001".
Definition second_id : ObjectId := "64b000000000000000000002".

Definition bot (st : Status) (reason : option string) : Model.t :=
  listing first_id alice "Bot X" "bot-x" st reason.

Definition db_with (m : Model.t) : Db := mkDb [m] users.

Definition empty : Db := mkDb [] users.

(** A payload that the schema accepts. *)
Definition body (name : string) : Body.t :=
  Body.mk (Given name) (Given "fast inference") Missing (Given "chatbots")
    (Given [Some "reasoning"]) (Given "Acme") Missing Missing Missing Missing
    Missing Missing Missing Missing Missing [].

Definition value (name : string) : Value.t :=
  Value.mk name "fast inference" None "chatbots" ["reasoning"] "Acme"
    "freemium" [] false false None None [] [] [].

(** A payload that the schema refuses: no name, and a key it does not
    declare. *)
Definition malformed : Body.t :=
  Body.mk Missing Mistyped Missing (Given "no such category") Missing Missing
    Missing Missing Missing Missing Missing Missing Missing Missing Missing
    ["status"].

(** [n] approved listings, [n] at most 900. *)
Definition crowd (n : nat) : list Model.t :=
  List.map
    (fun k =>
       listing ("64b000000000000000000" +:+ pretty (100 + k)%nat) alice
         ("Model " +:+ pretty k) ("model-" +:+ pretty k) approved None)
    (seq 0 n).

Definition everything (limit : positive) : Query.t :=
  Query.mk None None None (Some limit) None.

End Sample.

(** ** The admin listings ([routes/models.js]) *)

Module AdminQuery.
(** [req.query] of the admin listings; [page] and [limit] as for the public
    collection. *)
Record t := mk {
  status : option string;
  page : option positive;
  limit : option positive
}.
End AdminQuery.

(** An item of an admin listing: the whole document, the owner resolved to
    the names and the email. *)
Definition admin_view (us : list User.t) (m : Model.t) : gmap string Val :=
  populate ["firstName"; "lastName"; "email"] us (model_doc m).

(** The filter [{ status: 'pending' }]. *)
Definition is_pending (m : Model.t) : bool :=
  Status_eqb (Model.status m) pending.

(** The filter of [GET /admin/all]: empty, or [{ status }] when the
    parameter is given and is not the word [all]. *)
Definition has_status (want : option string) (m : Model.t) : bool :=
  match chosen want with
  | Some s => String.eqb (Status_text (Model.status m)) s
  | None => true
  end.

(** The body shared by the two admin listings: [Model.find(filter)],
    populated, newest first, one page of it, with the pagination block. *)
Definition admin_listing (filter : Model.t -> bool) (q : AdminQuery.t)
  : M Reply :=
  try_catch
    (let page := default 1 (Npos <$> AdminQuery.page q) in
     let limit := default 20 (Npos <$> AdminQuery.limit q) in
     let skip := (page - 1) * limit in
     let* found := find_all filter in
     let* db := get_db in
     let models :=
       List.map (admin_view (users db))
         (firstn (N.to_nat limit)
            (skipn (N.to_nat skip) (sort_by newest_first found))) in
     let* count := countDocuments filter in
     let totalModels := N.of_nat count in
     let totalPages := ceil_div totalModels limit in
     ret (ok None
            (Page models
               (mkPagination page totalPages totalModels
                  (page <? totalPages) (1 <? page)))))
    (fun _ => ret internal_error).

(** [GET /admin/pending]. *)
Definition get_admin_pending (q : AdminQuery.t) : M Reply :=
  admin_listing is_pending q.

(** [GET /admin/all]. *)
Definition get_admin_all (q : AdminQuery.t) : M Reply :=
  admin_listing (has_status (AdminQuery.status q)) q.

(** ** The router *)

(** A request to [/api/models], after the authentication middleware where
    the route has it. *)
Inductive Request :=
| PostModel (caller new_id : ObjectId) (now : N) (body : Body.t)
| GetMyModels (caller : ObjectId)
| GetModels (q : Query.t)
| GetModel (id : string)
| PutModel (caller : ObjectId) (id : string) (body : Body.t)
| DeleteModel (caller : ObjectId) (id : string)
| GetAdminPending (q : AdminQuery.t)
| PutAdminStatus (id : string) (body : StatusBody.t)
| GetAdminAll (q : AdminQuery.t).

Definition route (is_uri : string -> bool)
  (RegExp_i : string -> option (string -> bool)) (r : Request) : M Reply :=
  match r with
  | PostModel caller new_id now body => post_model is_uri caller new_id now body
  | GetMyModels caller => get_my_models caller
  | GetModels q => get_models RegExp_i q
  | GetModel id => get_model id
  | PutModel caller id body => put_model is_uri caller id body
  | DeleteModel caller id => delete_model caller id
  | GetAdminPending q => get_admin_pending q
  | PutAdminStatus id body => put_admin_status id body
  | GetAdminAll q => get_admin_all q
  end.

(** The database after a sequence of requests, served one after the
    other. *)
Fixpoint serve (is_uri : string -> bool)
  (RegExp_i : string -> option (string -> bool)) (rs : list Request) (db : Db)
  : Db :=
  match rs with
  | [] => db
  | r :: rs' => serve is_uri RegExp_i rs' (snd (route is_uri RegExp_i r db))
  end.

(** A request that only reads. *)
Definition reads (r : Request) : bool :=
  match r with
  | GetMyModels _ | GetModels _ | GetModel _ | GetAdminPending _
  | GetAdminAll _ => true
  | _ => false
  end.

(** ** Further notions *)

(** A rejection reason is present exactly on the rejected listings. *)
Definition reason_iff_rejected (m : Model.t) : Prop :=
  Model.rejectionReason m <> None <-> Model.status m = rejected.

(** The slug of a listing is a candidate of the slug generator for the
    name the listing has. *)
Definition slug_from_name (m : Model.t) : Prop :=
  exists k, Model.slug m = candidate (baseSlug (Model.name m)) k.

(** The list is in the order of [before]: each item may stand before the
    next. *)
Fixpoint in_order {A} (before : A -> A -> bool) (l : list A) : Prop :=
  match l with
  | x :: (y :: _) as r => before x y = true /\ in_order before r
  | _ => True
  end.

(** An optional path of a value as the body holds it. *)
Definition if_some (o : option string) : given string :=
  match o with Some s => Given s | None => Missing end.

(** The body that holds the paths of a value, each under its key. *)
Definition to_body (v : Value.t) : Body.t :=
  Body.mk (Given (Value.name v)) (Given (Value.shortDescription v))
    (if_some (Value.longDescription v)) (Given (Value.category v))
    (Given (List.map Some (Value.tags v))) (Given (Value.provider v))
    (Given (Value.pricing v)) (Given (List.map Some (Value.capabilities v)))
    (Given (Value.isApiAvailable v)) (Given (Value.isOpenSource v))
    (if_some (Value.modelType v)) (if_some (Value.externalUrl v))
    (Given (List.map Some (Value.bestFor v)))
    (Given (List.map Some (Value.features v)))
    (Given (List.map Some (Value.examplePrompts v))) [].

(** The paths of a listing that no payload of the owner reaches. *)
Definition same_standing (a b : Model.t) : Prop :=
  Model._id a = Model._id b
  /\ Model.uploadedBy a = Model.uploadedBy b
  /\ Model.createdAt a = Model.createdAt b
  /\ Model.featured a = Model.featured b
  /\ Model.trendingScore a = Model.trendingScore b
  /\ Model.rating a = Model.rating b
  /\ Model.reviewsCount a = Model.reviewsCount b
  /\ Model.installsCount a = Model.installsCount b
  /\ Model.iconUrl a = Model.iconUrl b
  /\ Model.screenshots a = Model.screenshots b.

(** The reply of [POST /] for the listing it saved. *)
Definition uploaded (model : Model.t) : Reply :=
  mkReply 201 true
    (Some "Model uploaded successfully and is pending review") []
    (OneModel (list_to_map
       [ ("id", VStr (Model._id model));
         ("name", VStr (Model.name model));
         ("slug", VStr (Model.slug model));
         ("shortDescription", VStr (Model.shortDescription model));
         ("category", VStr (Model.category model));
         ("provider", VStr (Model.provider model));
         ("status", VStr (Status_text (Model.status model)));
         ("createdAt", VNum (Model.createdAt model)) ])).

(** The document [PUT /admin/:id/status] hands to [save]. *)
Definition judged (body : StatusBody.t) (st : Status) (m : Model.t)
  : Document :=
  let model := with_fields (Model.set_status st) (hydrate m) in
  if Status_eqb st rejected then
    with_fields (Model.set_rejectionReason (StatusBody.rejectionReason body))
      model
  else with_fields (Model.set_rejectionReason None) model.

(** The users after [$push] of a listing to the uploads of [caller]. *)
Definition pushed (caller i : ObjectId) (us : list User.t) : list User.t :=
  List.map
    (fun u =>
       if id_eqb (User._id u) caller
       then User.set_uploadedModels (User.uploadedModels u ++ [i]) u
       else u) us.

(** The users after [$pull] of a listing from the uploads of [caller]. *)
Definition pulled (caller i : ObjectId) (us : list User.t) : list User.t :=
  List.map
    (fun u =>
       if id_eqb (User._id u) caller
       then User.set_uploadedModels
              (List.filter (fun x => negb (id_eqb x i)) (User.uploadedModels u)) u
       else u) us.

(** The collection without the listing of id [i]. *)
Definition without (i : ObjectId) (l : list Model.t) : list Model.t :=
  List.filter (fun m => negb (has_id i m)) l.

(** A property of listings that every document handed to [save] by a
    handler has, provided the listing the handler started from has it. *)
Definition step_closed (P : Model.t -> Prop) : Prop :=
  (forall db new_id now v caller m',
      saved_from (new_Model new_id now v caller) db m' -> P m')
  /\ (forall db m v m', P m -> saved_from (edited m v) db m' -> P m')
  /\ (forall db body st m m',
        P m -> well_formed body st -> saved_from (judged body st m) db m' ->
        P m').

(** ** A sample session *)

Module Session.

(** Alice uploads a listing, the admin rejects it, Alice renames it, the
    admin approves it, Bob uploads a listing of the same name, and Alice
    removes hers. *)
Definition requests : list Request :=
  [ PostModel Sample.alice Sample.first_id 1 (Sample.body "Bot X");
    PutAdminStatus Sample.first_id
      (StatusBody.mk (Some "rejected") (Some "too niche"));
    PutModel Sample.alice Sample.first_id (Sample.body "Bot Y");
    PutAdminStatus Sample.first_id (StatusBody.mk (Some "approved") None);
    PostModel Sample.bob Sample.second_id 1 (Sample.body "Bot Y");
    GetModels (Sample.everything 10);
    DeleteModel Sample.alice Sample.first_id ].

(** A payload with a link that Joi accepts and the schema does not. *)
Definition linked : Body.t :=
  Body.mk (Given "Bot Z") (Given "fast inference") Missing (Given "chatbots")
    Missing (Given "Acme") Missing Missing Missing Missing Missing
    (Given "ftp://files.example.org/bot-z") Missing Missing Missing [].

Definition linked_value : Value.t :=
  Value.mk "Bot Z" "fast inference" None "chatbots" [] "Acme" "freemium" []
    false false None (Some "ftp://files.example.org/bot-z") [] [] [].

(** A payload that tries to set the status. *)
Definition approving : Body.t :=
  Body.mk (Given "Bot Z") (Given "fast inference") Missing (Given "chatbots")
    Missing (Given "Acme") Missing Missing Missing Missing Missing Missing
    Missing Missing Missing ["status"].

End Session.

(** The paths of a listing that the payload of its owner sets. *)
Definition same_content (a b : Model.t) : Prop :=
  Model.name a = Model.name b
  /\ Model.shortDescription a = Model.shortDescription b
  /\ Model.longDescription a = Model.longDescription b
  /\ Model.category a = Model.category b
  /\ Model.tags a = Model.tags b
  /\ Model.provider a = Model.provider b
  /\ Model.pricing a = Model.pricing b
  /\ Model.capabilities a = Model.capabilities b
  /\ Model.isApiAvailable a = Model.isApiAvailable b
  /\ Model.isOpenSource a = Model.isOpenSource b
  /\ Model.modelType a = Model.modelType b
  /\ Model.externalUrl a = Model.externalUrl b
  /\ Model.bestFor a = Model.bestFor b
  /\ Model.features a = Model.features b
  /\ Model.examplePrompts a = Model.examplePrompts b.

(** The link of the payload fails the validator of the schema. *)
Definition link_refused (v : Value.t) : Prop :=
  Model.opt_ok Model.externalUrl_validator (Js.trim <$> Value.externalUrl v)
  = false.

(** The authenticated caller of a request, on the routes that have one. *)
Definition sender (r : Request) : option ObjectId :=
  match r with
  | PostModel caller _ _ _ | GetMyModels caller | PutModel caller _ _
  | DeleteModel caller _ => Some caller
  | _ => None
  end.

(** The query for another page of the same search. *)
Definition with_page (q : Query.t) (p : positive) : Query.t :=
  Query.mk (Query.category q) (Query.pricing q) (Some p) (Query.limit q)
    (Query.search q).

(** The items of a reply that holds a page. *)
Definition items_of (r : outcome Reply * Db) : list (gmap string Val) :=
  match r with
  | (Done reply, _) =>
      match data reply with
      | Page ms _ => ms
      | _ => []
      end
  | _ => []
  end.

(** The total of a reply that holds a page. *)
Definition total_of (r : outcome Reply * Db) : N :=
  match r with
  | (Done reply, _) =>
      match data reply with
      | Page _ pg => totalModels pg
      | _ => 0
      end
  | _ => 0
  end.

(** The order is total: of two listings one may stand before the other. *)
Definition total_order (before : Model.t -> Model.t -> bool) : Prop :=
  forall a b, before a b = false -> before b a = true.

(** A request that carries a decision of the admin. *)
Definition decides (r : Request) : bool :=
  match r with
  | PutAdminStatus _ _ => true
  | _ => false
  end.

(** * Proofs *)

(** ** Strings *)

Lemma every_nil P : every P "".
Proof. intros c []. Qed.

Lemma every_cons P c s : every P (String c s) <-> P c = true /\ every P s.
Proof.
  unfold every; simpl; split.
  - intros H; split; [apply H; now left | intros d Hd; apply H; now right].
  - intros [Hc Hs] d [<- | Hd]; auto.
Qed.

Lemma every_weaken (P Q : ascii -> bool) s :
  (forall c, P c = true -> Q c = true) -> every P s -> every Q s.
Proof. intros HPQ H c Hc. apply HPQ, H, Hc. Qed.

Lemma chars_app s1 s2 : chars (s1 +:+ s2) = chars s1 ++ chars s2.
Proof. induction s1 as [|c s1 IH]; simpl; [easy | now rewrite IH]. Qed.

Lemma every_app P s1 s2 : every P (s1 +:+ s2) <-> every P s1 /\ every P s2.
Proof.
  unfold every. setoid_rewrite chars_app. setoid_rewrite in_app_iff.
  split; [intros H; split; intros c Hc; apply H; tauto | intros [H1 H2] c [?|?]; auto].
Qed.

Lemma chars_rev_app s1 s2 :
  chars (String.rev_app s1 s2) = List.rev (chars s1) ++ chars s2.
Proof.
  revert s2. induction s1 as [|c s1 IH]; intros s2; simpl; [easy|].
  rewrite IH. simpl. now rewrite <- app_assoc.
Qed.

Lemma chars_rev s : chars (String.rev s) = List.rev (chars s).
Proof. unfold String.rev. rewrite chars_rev_app. simpl. apply app_nil_r. Qed.

Lemma chars_inj s1 s2 : chars s1 = chars s2 -> s1 = s2.
Proof.
  intros H. rewrite <- (string_of_list_ascii_of_string s1),
    <- (string_of_list_ascii_of_string s2). now rewrite H.
Qed.

Lemma rev_rev s : String.rev (String.rev s) = s.
Proof. apply chars_inj. rewrite !chars_rev. apply rev_involutive. Qed.

Lemma every_rev P s : every P (String.rev s) <-> every P s.
Proof.
  unfold every. rewrite chars_rev. split; intros H c Hc; apply H.
  - now apply in_rev in Hc.
  - now apply in_rev.
Qed.

Lemma chars_trimStart s : chars (Js.trimStart s) = lstrip (chars s).
Proof.
  induction s as [|c s IH]; simpl; [easy|]. now destruct (Js.is_space c).
Qed.

Lemma chars_trim s :
  chars (Js.trim s) = List.rev (lstrip (List.rev (lstrip (chars s)))).
Proof.
  unfold Js.trim. now rewrite chars_rev, chars_trimStart, chars_rev, chars_trimStart.
Qed.

Lemma lstrip_head l c r : lstrip l = c :: r -> Js.is_space c = false.
Proof.
  induction l as [|x l IH]; simpl; [easy|].
  destruct (Js.is_space x) eqn:Hx; [exact IH | now intros [= <- _]].
Qed.

Lemma lstrip_fixed l :
  match l with c :: _ => Js.is_space c = false | [] => True end ->
  lstrip l = l.
Proof. destruct l as [|c l]; simpl; [easy | now intros ->]. Qed.

Lemma lstrip_lstrip l : lstrip (lstrip l) = lstrip l.
Proof.
  apply lstrip_fixed. destruct (lstrip l) as [|c r] eqn:Hl; [easy|].
  eapply lstrip_head; eauto.
Qed.

(** What [lstrip] removes is a prefix. *)
Lemma lstrip_suffix l : exists p, l = p ++ lstrip l.
Proof.
  induction l as [|c l (p & IH)]; [now exists []|]. simpl.
  destruct (Js.is_space c); [|now exists []].
  exists (c :: p). simpl. now rewrite <- IH.
Qed.

(** A trimmed text starts with no white space. *)
Lemma lstrip_trimmed l :
  lstrip (List.rev (lstrip (List.rev (lstrip l))))
  = List.rev (lstrip (List.rev (lstrip l))).
Proof.
  apply lstrip_fixed.
  destruct (lstrip_suffix (List.rev (lstrip l))) as (p & Hp).
  apply (f_equal (@List.rev ascii)) in Hp.
  rewrite rev_involutive, rev_app_distr in Hp.
  destruct (List.rev (lstrip (List.rev (lstrip l)))) as [|c r]; [easy|].
  simpl in Hp. eapply lstrip_head; eauto.
Qed.

(** [trim] is idempotent: the setters of the schema leave a text that Joi
    has trimmed as it is. *)
Lemma trim_trim s : Js.trim (Js.trim s) = Js.trim s.
Proof.
  apply chars_inj. rewrite (chars_trim (Js.trim s)), chars_trim.
  rewrite lstrip_trimmed, rev_involutive. apply lstrip_trimmed.
Qed.

Lemma trimStart_none s :
  every (fun c => negb (Js.is_space c)) s -> Js.trimStart s = s.
Proof.
  destruct s as [|c s]; [easy|]. intros [Hc _]%every_cons. simpl.
  now destruct (Js.is_space c).
Qed.

Lemma trim_none s : every (fun c => negb (Js.is_space c)) s -> Js.trim s = s.
Proof.
  intros H. unfold Js.trim. rewrite (trimStart_none s H).
  rewrite trimStart_none by now apply every_rev. apply rev_rev.
Qed.

Lemma toLowerCase_none s :
  every (fun c => Ascii.eqb (Js.lower_unit c) c) s -> Js.toLowerCase s = s.
Proof.
  induction s as [|c s IH]; [easy|]. intros [Hc Hs]%every_cons. simpl.
  apply Ascii.eqb_eq in Hc. rewrite Hc. f_equal. now apply IH.
Qed.

Lemma slug_letter_plain c :
  slug_letter c = true ->
  negb (Js.is_space c) = true /\ Ascii.eqb (Js.lower_unit c) c = true.
Proof.
  destruct c as [[] [] [] [] [] [] [] []]; vm_compute; intuition congruence.
Qed.

Lemma slug_letters_stored s :
  every slug_letter s -> Js.toLowerCase (Js.trim s) = s.
Proof.
  intros H. rewrite trim_none.
  - apply toLowerCase_none. eapply every_weaken; [|exact H].
    intros c Hc. now apply slug_letter_plain.
  - eapply every_weaken; [|exact H]. intros c Hc. now apply slug_letter_plain.
Qed.

Lemma replace_runs_letters b s : every slug_letter (replace_runs b s).
Proof.
  revert b. induction s as [|c s IH]; intros b; simpl; [apply every_nil|].
  destruct (slug_char c) eqn:Hc.
  - apply every_cons. split; [|apply IH]. unfold slug_letter. now rewrite Hc.
  - destruct b; [apply IH|]. apply every_cons. split; [easy | apply IH].
Qed.

Lemma drop_hyphens_letters P s : every P s -> every P (drop_hyphens s).
Proof.
  induction s as [|c s IH]; simpl; [easy|]. intros H.
  destruct (Ascii.eqb c "-"); [|easy]. apply IH. now apply every_cons in H.
Qed.

Lemma strip_hyphens_letters P s : every P s -> every P (strip_hyphens s).
Proof.
  intros H. unfold strip_hyphens.
  now apply every_rev, drop_hyphens_letters, every_rev, drop_hyphens_letters.
Qed.

Lemma baseSlug_letters name : every slug_letter (baseSlug name).
Proof. apply strip_hyphens_letters, replace_runs_letters. Qed.

Lemma pretty_N_char_digit x : digit (pretty_N_char x) = true.
Proof. unfold pretty_N_char. now repeat case_match. Qed.

Lemma pretty_N_go_digits x s : every digit s -> every digit (pretty_N_go x s).
Proof.
  revert s. induction (N.lt_wf_0 x) as [x _ IH]; intros s Hs.
  destruct (N.eq_dec x 0) as [-> | Hx]; [now rewrite pretty_N_go_0|].
  rewrite pretty_N_go_step by lia. apply IH.
  - apply N.div_lt; lia.
  - apply every_cons. split; [apply pretty_N_char_digit | exact Hs].
Qed.

Lemma pretty_nat_digits (k : nat) : every digit (pretty k).
Proof.
  unfold pretty, pretty_nat, pretty, pretty_N. case_decide.
  - apply every_cons. split; [easy | apply every_nil].
  - apply pretty_N_go_digits, every_nil.
Qed.

Lemma candidate_letters base k :
  every slug_letter base -> every slug_letter (candidate base k).
Proof.
  intros H. destruct k as [|k]; [exact H|]. unfold candidate, suffixed.
  apply every_app. split; [exact H|]. apply every_app. split.
  - apply every_cons. split; [easy | apply every_nil].
  - eapply every_weaken; [|apply pretty_nat_digits].
    intros c Hc. unfold slug_letter, slug_char, digit in *. rewrite Hc.
    now rewrite orb_true_r.
Qed.

Lemma length_app s1 s2 :
  String.length (s1 +:+ s2) = (String.length s1 + String.length s2)%nat.
Proof. induction s1 as [|c s1 IH]; simpl; [easy | now rewrite IH]. Qed.

Lemma candidate_inj base j k : candidate base j = candidate base k -> j = k.
Proof.
  destruct j as [|j], k as [|k]; unfold candidate, suffixed; intros H; [easy| | |].
  - apply (f_equal String.length) in H. rewrite length_app in H.
    simpl in H. lia.
  - apply (f_equal String.length) in H. rewrite length_app in H.
    simpl in H. lia.
  - apply String.app_inj in H. apply String.app_inj in H.
    now apply pretty_nat_inj in H.
Qed.

(** ** The shape of a slug *)

Lemma no_double_hyphen_nil : no_double_hyphen [].
Proof. intros [|? ?] l2 H; discriminate. Qed.

Lemma no_double_hyphen_cons c l :
  c <> "-"%char \/ (forall r, l <> "-"%char :: r) ->
  no_double_hyphen l -> no_double_hyphen (c :: l).
Proof.
  intros Hc Hl [|x l1] l2 H; simpl in H; injection H as H1 H2.
  - destruct Hc as [Hc | Hc]; [now apply Hc | now apply (Hc l2)].
  - now apply (Hl l1 l2).
Qed.

Lemma no_double_hyphen_suffix p l :
  no_double_hyphen (p ++ l) -> no_double_hyphen l.
Proof.
  intros H l1 l2 Hl. apply (H (p ++ l1) l2). now rewrite Hl, app_assoc.
Qed.

Lemma no_double_hyphen_rev l : no_double_hyphen l -> no_double_hyphen (List.rev l).
Proof.
  intros H l1 l2 Hl. apply (H (List.rev l2) (List.rev l1)).
  apply (f_equal (@List.rev ascii)) in Hl. rewrite rev_involutive in Hl.
  rewrite Hl, rev_app_distr. simpl. now rewrite <- !app_assoc.
Qed.

Lemma slug_letter_cases c :
  slug_letter c = true -> slug_char c = true \/ c = "-"%char.
Proof.
  unfold slug_letter. intros [H | H]%orb_true_iff; [now left | right].
  now apply Ascii.eqb_eq.
Qed.

Lemma hyphen_not_slug_char : slug_char "-" = false.
Proof. reflexivity. Qed.

(** The output of the first replacement: letters of a slug, no two
    hyphens side by side, and no hyphen first when a run is under way. *)
Lemma replace_runs_hyphens b s :
  no_double_hyphen (chars (replace_runs b s))
  /\ (b = true -> forall r, chars (replace_runs b s) <> "-"%char :: r).
Proof.
  revert b. induction s as [|c s IH]; intros b; simpl.
  - split; [apply no_double_hyphen_nil | intros _ r H; discriminate].
  - destruct (slug_char c) eqn:Hc.
    + split.
      * apply no_double_hyphen_cons; [|apply IH]. left. intros ->.
        rewrite hyphen_not_slug_char in Hc. discriminate.
      * intros _ r H. simpl in H. injection H as -> _.
        rewrite hyphen_not_slug_char in Hc. discriminate.
    + destruct b.
      * apply IH.
      * split; [|discriminate]. apply no_double_hyphen_cons; [|apply IH].
        right. now apply IH.
Qed.

Lemma drop_hyphens_suffix s :
  exists p, chars s = p ++ chars (drop_hyphens s).
Proof.
  induction s as [|c s (p & IH)]; [now exists []|]. simpl.
  destruct (Ascii.eqb c "-"); [|now exists []].
  exists (c :: p). simpl. now rewrite <- IH.
Qed.

Lemma drop_hyphens_head s r : chars (drop_hyphens s) <> "-"%char :: r.
Proof.
  induction s as [|c s IH]; simpl; [discriminate|].
  destruct (Ascii.eqb_spec c "-"); [exact IH|]. simpl. congruence.
Qed.

Lemma drop_hyphens_keeps s c :
  In c (chars s) -> slug_char c = true -> In c (chars (drop_hyphens s)).
Proof.
  induction s as [|x s IH]; simpl; [easy|]. intros Hin Hc.
  destruct (Ascii.eqb_spec x "-") as [-> | Hx]; [|exact Hin].
  destruct Hin as [<- | Hin]; [|now apply IH].
  rewrite hyphen_not_slug_char in Hc. discriminate.
Qed.

Lemma replace_runs_keeps b s c :
  In c (chars s) -> slug_char c = true -> In c (chars (replace_runs b s)).
Proof.
  revert b. induction s as [|x s IH]; intros b; simpl; [easy|]. intros Hin Hc.
  destruct (slug_char x) eqn:Hx.
  - destruct Hin as [<- | Hin]; [now left | right; now apply IH].
  - destruct Hin as [<- | Hin]; [congruence|].
    destruct b; [now apply IH | right; now apply IH].
Qed.

Lemma starts_well_intro s :
  every slug_letter s -> (forall r, chars s <> "-"%char :: r) ->
  starts_well (chars s).
Proof.
  destruct s as [|c s]; simpl; [easy|]. intros [Hc _]%every_cons Hh.
  destruct (slug_letter_cases c Hc) as [H | ->]; [exact H|].
  now destruct (Hh (chars s)).
Qed.

(** The characterisation of the shape on the list of the characters. *)
Lemma hyphen_separated_intro s : forall b,
  every slug_letter s ->
  no_double_hyphen (chars s) ->
  (b = true -> starts_well (chars s)) ->
  starts_well (List.rev (chars s)) ->
  (s <> "" \/ b = false) ->
  hyphen_separated b s = true.
Proof.
  induction s as [|c s IH]; intros b Hall Hnd Hhead Hlast Hne; simpl.
  - destruct Hne as [Hne | ->]; [now destruct Hne | reflexivity].
  - apply every_cons in Hall as [Hc Hall].
    assert (Hnd' : no_double_hyphen (chars s))
      by (apply (no_double_hyphen_suffix [c]); exact Hnd).
    assert (Hlast' : s <> "" -> starts_well (List.rev (chars s))).
    { intros Hs. simpl in Hlast. destruct (List.rev (chars s)) as [|x r] eqn:Hr.
      - destruct s; [now destruct Hs|]. simpl in Hr.
        now destruct (List.rev (chars s)).
      - exact Hlast. }
    destruct (slug_char c) eqn:Hsc.
    + apply IH; try assumption; [discriminate | |now right].
      destruct s as [|x s]; [exact I | apply Hlast'; discriminate].
    + destruct (slug_letter_cases c Hc) as [H | ->]; [congruence|].
      destruct b; [now specialize (Hhead eq_refl)|]. simpl.
      destruct s as [|x s]; [now simpl in Hlast|].
      apply IH; try assumption.
      * intros _. simpl. apply every_cons in Hall as [Hx _].
        destruct (slug_letter_cases x Hx) as [H | ->]; [exact H|].
        now destruct (Hnd [] (chars s)).
      * apply Hlast'. discriminate.
      * left. discriminate.
Qed.

(** The base slug of a name that holds a letter or a digit is not empty
    and has the shape [^[a-z0-9]+(-[a-z0-9]+)*$]. *)
Lemma baseSlug_shape name :
  has_alphanumeric name -> slug_shape (baseSlug name) = true.
Proof.
  intros (c & Hin & Hc). unfold slug_shape, baseSlug, strip_hyphens.
  set (r := replace_runs false (Js.toLowerCase name)).
  set (a := drop_hyphens r). set (b := drop_hyphens (String.rev a)).
  destruct (replace_runs_hyphens false (Js.toLowerCase name)) as [Hr _].
  fold r in Hr.
  destruct (drop_hyphens_suffix r) as (p & Hp). fold a in Hp.
  destruct (drop_hyphens_suffix (String.rev a)) as (q & Hq). fold b in Hq.
  assert (Ha : no_double_hyphen (chars a)).
  { apply (no_double_hyphen_suffix p). now rewrite <- Hp. }
  assert (Hb : no_double_hyphen (chars b)).
  { apply (no_double_hyphen_suffix q). rewrite <- Hq, chars_rev.
    now apply no_double_hyphen_rev. }
  assert (Hletters : every slug_letter (String.rev b)).
  { apply (strip_hyphens_letters slug_letter r), replace_runs_letters. }
  assert (Hcb : In c (chars (String.rev b))).
  { rewrite chars_rev. apply -> in_rev. apply drop_hyphens_keeps; [|exact Hc].
    rewrite chars_rev. apply -> in_rev. apply drop_hyphens_keeps; [|exact Hc].
    now apply replace_runs_keeps. }
  apply hyphen_separated_intro.
  - exact Hletters.
  - rewrite chars_rev. now apply no_double_hyphen_rev.
  - intros _. rewrite chars_rev in Hq.
    apply (f_equal (@List.rev ascii)) in Hq.
    rewrite rev_involutive, rev_app_distr in Hq. rewrite chars_rev.
    assert (Hhead : starts_well (chars a)).
    { apply starts_well_intro; [|apply drop_hyphens_head].
      apply drop_hyphens_letters, replace_runs_letters. }
    rewrite Hq in Hhead. destruct (List.rev (chars b)); [exact I | exact Hhead].
  - rewrite chars_rev, rev_involutive. apply starts_well_intro.
    + exact (proj1 (every_rev slug_letter b) Hletters).
    + apply drop_hyphens_head.
  - left. intros Hempty. rewrite Hempty in Hcb. destruct Hcb.
Qed.

Lemma pretty_N_go_longer x s :
  (String.length s <= String.length (pretty_N_go x s))%nat.
Proof.
  revert s. induction (N.lt_wf_0 x) as [x _ IH]; intros s.
  destruct (N.eq_dec x 0) as [-> | Hx]; [now rewrite pretty_N_go_0|].
  rewrite pretty_N_go_step by lia.
  etransitivity; [|apply IH, N.div_lt; lia]. simpl. lia.
Qed.

Lemma pretty_nat_not_empty (k : nat) : pretty k <> "".
Proof.
  unfold pretty, pretty_nat, pretty, pretty_N. case_decide; [discriminate|].
  intros Hempty. rewrite pretty_N_go_step in Hempty by lia.
  pose proof (pretty_N_go_longer (N.of_nat k `div` 10)
                (String (pretty_N_char (N.of_nat k `mod` 10)) "")) as Hlen.
  rewrite Hempty in Hlen. simpl in Hlen. lia.
Qed.

Lemma digits_shape s b :
  every digit s -> s <> "" -> hyphen_separated b s = true.
Proof.
  revert b. induction s as [|c s IH]; intros b Hall Hne; [now destruct Hne|].
  apply every_cons in Hall as [Hc Hall]. simpl.
  assert (Hsc : slug_char c = true).
  { unfold slug_char. unfold digit in Hc. rewrite Hc. apply orb_true_r. }
  rewrite Hsc. destruct s as [|x s]; [reflexivity|]. now apply IH.
Qed.

Lemma hyphen_separated_app s1 s2 : forall b,
  hyphen_separated b s1 = true -> hyphen_separated false s2 = true ->
  hyphen_separated b (s1 +:+ s2) = true.
Proof.
  induction s1 as [|c s1 IH]; intros b H1 H2.
  - simpl in H1. apply negb_true_iff in H1. now subst b.
  - simpl in *. destruct (slug_char c); [now apply IH|].
    apply andb_true_iff in H1 as [H1 H3]. rewrite H1. simpl. now apply IH.
Qed.

(** A collision suffix keeps the shape. *)
Lemma candidate_shape base k :
  slug_shape base = true -> slug_shape (candidate base k) = true.
Proof.
  intros Hbase. destruct k as [|k]; [exact Hbase|].
  unfold candidate, suffixed, slug_shape. apply hyphen_separated_app; [exact Hbase|].
  simpl. apply digits_shape; [apply pretty_nat_digits | apply pretty_nat_not_empty].
Qed.

(** The slug generated for a name that holds a letter or a digit is not
    empty and has the shape, with or without a collision suffix. *)
Lemma generated_slug_shape self l name s :
  has_alphanumeric name ->
  first_free_candidate self l (baseSlug name) s ->
  slug_shape s = true /\ s <> "".
Proof.
  intros Hname (k & -> & _).
  assert (Hshape : slug_shape (candidate (baseSlug name) k) = true)
    by now apply candidate_shape, baseSlug_shape.
  split; [exact Hshape|]. intros Hempty. rewrite Hempty in Hshape. discriminate.
Qed.

(** ** What Joi guarantees *)

Lemma string_rule_valid key n allow s s' :
  string_rule key n allow s = Valid s' ->
  trimmed_within n s' /\ (allow = false -> Model.required s' = true).
Proof.
  unfold string_rule, trimmed_within, Model.required, Model.maxlength.
  destruct (Js.falsy (Js.trim s)) eqn:Hempty.
  - destruct allow; [|discriminate]. intros [= <-]. rewrite trim_trim.
    apply String.eqb_eq in Hempty. rewrite Hempty. easy.
  - destruct (n <? String.length (Js.trim s))%nat eqn:Hlen; [discriminate|].
    intros [= <-]. rewrite trim_trim, Hempty. repeat split.
    apply Nat.leb_le. apply Nat.ltb_ge in Hlen. exact Hlen.
Qed.

Lemma required_string_valid key n g s' :
  required_string key n g = Valid s' ->
  trimmed_within n s' /\ Model.required s' = true.
Proof.
  destruct g as [| |s]; try discriminate. simpl. intros H.
  apply string_rule_valid in H as [Ht Hr]. split; [exact Ht | now apply Hr].
Qed.

Lemma optional_string_valid key n g o :
  optional_string key n g = Valid o -> if_given (trimmed_within n) o.
Proof.
  destruct g as [| |s]; simpl; try discriminate.
  - intros [= <-] s' Hs. discriminate.
  - destruct (string_rule key n true s) as [s1|] eqn:Hrule; [|discriminate].
    simpl. intros [= <-] s' [= <-]. now apply string_rule_valid in Hrule.
Qed.

Lemma at_index_valid {A} i (c : checked A) a : at_index i c = Valid a -> c = Valid a.
Proof. destruct c; simpl; [easy | discriminate]. Qed.

Lemma each_item_valid rule (P : string -> Prop) :
  (forall x y, rule x = Valid y -> P y) ->
  forall l i l', each_item rule i l = Valid l' -> Forall P l'.
Proof.
  intros Hrule. induction l as [|x l IH]; intros i l'; simpl.
  - intros [= <-]. constructor.
  - destruct (at_index i (rule x)) as [x'|] eqn:Hx; [|discriminate]. simpl.
    destruct (each_item rule (S i) l) as [r'|] eqn:Hr; [|discriminate]. simpl.
    intros [= <-]. constructor.
    + apply (Hrule x). now apply at_index_valid in Hx.
    + now apply (IH (S i)).
Qed.

Lemma array_of_valid key rule (P : string -> Prop) g l' :
  (forall x y, rule x = Valid y -> P y) ->
  array_of key rule g = Valid l' -> Forall P l'.
Proof.
  intros Hrule. destruct g as [| |l]; simpl; try discriminate.
  - intros [= <-]. constructor.
  - now apply each_item_valid.
Qed.

Lemma text_item_valid key n x y :
  text_item key n x = Valid y -> trimmed_within n y.
Proof.
  destruct x as [s|]; simpl; [|discriminate]. intros H.
  now apply string_rule_valid in H.
Qed.

Lemma only_item_valid key allowed x y :
  only_item key allowed x = Valid y -> Js.one_of allowed y = true.
Proof.
  destruct x as [s|]; simpl; [|discriminate].
  destruct (Js.one_of allowed s) eqn:H; [|discriminate]. now intros [= <-].
Qed.

Lemma required_only_valid key allowed g y :
  required_only key allowed g = Valid y -> Js.one_of allowed y = true.
Proof.
  destruct g as [| |s]; simpl; try discriminate.
  destruct (Js.one_of allowed s) eqn:H; [|discriminate]. now intros [= <-].
Qed.

Lemma only_or_default_valid key allowed d g y :
  Js.one_of allowed d = true ->
  only_or_default key allowed d g = Valid y -> Js.one_of allowed y = true.
Proof.
  intros Hd. destruct g as [| |s]; simpl; try discriminate.
  - now intros [= <-].
  - destruct (Js.one_of allowed s) eqn:H; [|discriminate]. now intros [= <-].
Qed.

(** The value of an accepted payload is [validated]. *)
Lemma validate_sound is_uri body v :
  validate is_uri body = Valid v -> validated v.
Proof.
  unfold validate, and_then. intros H.
  repeat match type of H with
         | match ?c with Valid _ => _ | Invalid _ => _ end = _ =>
             let E := fresh "E" in destruct c eqn:E; [|discriminate]
         end.
  destruct (Body.unknown body); [|discriminate]. injection H as <-.
  unfold validated. cbn.
  repeat match goal with
         | E : required_string _ _ _ = Valid _ |- _ =>
             apply required_string_valid in E as [? ?]
         | E : optional_string _ _ _ = Valid _ |- _ =>
             apply optional_string_valid in E
         | E : required_only _ _ _ = Valid _ |- _ =>
             apply required_only_valid in E
         | E : only_or_default _ _ _ _ = Valid _ |- _ =>
             apply only_or_default_valid in E; [|reflexivity]
         | E : array_of _ (text_item _ ?n) _ = Valid _ |- _ =>
             apply (array_of_valid _ _ (trimmed_within n)) in E;
             [|intros ? ?; apply text_item_valid]
         | E : array_of _ (only_item _ ?a) _ = Valid _ |- _ =>
             apply (array_of_valid _ _ (fun c => Js.one_of a c = true)) in E;
             [|intros ? ?; apply only_item_valid]
         end.
  repeat match goal with |- _ /\ _ => split end; assumption.
Qed.

(** ** What the schema accepts *)

Lemma one_of_required l c :
  forallb Model.required l = true -> Js.one_of l c = true ->
  Model.required c = true.
Proof.
  intros Hall Hc. unfold Js.one_of in Hc.
  apply existsb_exists in Hc as (x & Hin & Heq). apply String.eqb_eq in Heq.
  subst x. rewrite forallb_forall in Hall. now apply Hall.
Qed.

Lemma forallb_trimmed n l :
  Forall (trimmed_within n) l ->
  forallb (Model.maxlength n) (List.map Js.trim l) = true.
Proof.
  induction 1 as [|x l [Ht Hm] _ IH]; simpl; [easy|]. now rewrite Ht, Hm, IH.
Qed.

Lemma forallb_one_of a l :
  Forall (fun c => Js.one_of a c = true) l -> forallb (Js.one_of a) l = true.
Proof. induction 1 as [|x l Hx _ IH]; simpl; [easy|]. now rewrite Hx, IH. Qed.

Lemma opt_ok_or_keep n (o old : option string) :
  if_given (trimmed_within n) o ->
  Model.opt_ok (Model.maxlength n) old = true ->
  Model.opt_ok (Model.maxlength n) (or_keep (Js.trim <$> o) old) = true.
Proof.
  intros Ho Hold. destruct o as [s|]; simpl; [|exact Hold].
  destruct (Ho s eq_refl) as [Ht Hm]. now rewrite Ht.
Qed.

Lemma opt_ok_trimmed n (o : option string) :
  if_given (trimmed_within n) o ->
  Model.opt_ok (Model.maxlength n) (Js.trim <$> o) = true.
Proof.
  intros Ho. destruct o as [s|]; simpl; [|easy].
  destruct (Ho s eq_refl) as [Ht Hm]. now rewrite Ht.
Qed.

(** The schema accepts the document that [Object.assign] makes of a valid
    document and a validated payload, the link apart. *)
Lemma assign_valid m v :
  Model.valid m = true -> validated v -> link_accepted v ->
  Model.valid (fields (assign (hydrate m) v)) = true.
Proof.
  intros Hm Hv Hlink. unfold Model.valid in Hm.
  repeat (apply andb_true_iff in Hm as [Hm ?]).
  destruct Hv as ([Hn1 Hn2] & Hn3 & [Hs1 Hs2] & Hs3 & Hld & Hcat & Htags
                  & [Hp1 Hp2] & Hp3 & Hpr & Hcap & Hmt & Hbf & Hft & Hex).
  unfold Model.valid.
  cbn [assign hydrate fields Model.name Model.shortDescription
         Model.longDescription Model.category Model.tags Model.provider
         Model.pricing Model.rating Model.capabilities Model.modelType
         Model.externalUrl Model.trendingScore Model.bestFor Model.features
         Model.examplePrompts].
  rewrite Hn1, Hn2, Hn3, Hs1, Hs2, Hs3, Hp1, Hp2, Hp3.
  rewrite (opt_ok_or_keep 2000), (opt_ok_or_keep 50) by assumption.
  rewrite (one_of_required categories) by (reflexivity || assumption).
  rewrite Hcat, Hpr, !forallb_trimmed, forallb_one_of by assumption.
  replace (Model.opt_ok Model.externalUrl_validator _) with true; [now rewrite H6, H2|].
  unfold link_accepted in Hlink. symmetry.
  now destruct (Value.externalUrl v).
Qed.

(** The schema accepts the document that [new Model] makes of a validated
    payload, the link apart. *)
Lemma new_Model_valid new_id now v owner :
  validated v -> link_accepted v ->
  Model.valid (fields (new_Model new_id now v owner)) = true.
Proof.
  intros Hv Hlink.
  destruct Hv as ([Hn1 Hn2] & Hn3 & [Hs1 Hs2] & Hs3 & Hld & Hcat & Htags
                  & [Hp1 Hp2] & Hp3 & Hpr & Hcap & Hmt & Hbf & Hft & Hex).
  unfold Model.valid.
  cbn [new_Model fields Model.name Model.shortDescription
         Model.longDescription Model.category Model.tags Model.provider
         Model.pricing Model.rating Model.capabilities Model.modelType
         Model.externalUrl Model.trendingScore Model.bestFor Model.features
         Model.examplePrompts].
  rewrite Hn1, Hn2, Hn3, Hs1, Hs2, Hs3, Hp1, Hp2, Hp3.
  rewrite (opt_ok_trimmed 2000), (opt_ok_trimmed 50) by assumption.
  rewrite (one_of_required categories) by (reflexivity || assumption).
  rewrite Hcat, Hpr, !forallb_trimmed, forallb_one_of by assumption.
  unfold link_accepted in Hlink. now rewrite Hlink.
Qed.

(** ** The monad *)

Lemma bind_done {A B} (m : M A) (k : A -> M B) db a db' :
  m db = (Done a, db') -> bind m k db = k a db'.
Proof. unfold bind. now intros ->. Qed.

Lemma bind_raise {A B} (m : M A) (k : A -> M B) db e db' :
  m db = (Raise e, db') -> bind m k db = (Raise e, db').
Proof. unfold bind. now intros ->. Qed.

Lemma try_catch_done {A} (m : M A) h db a db' :
  m db = (Done a, db') -> try_catch m h db = (Done a, db').
Proof. unfold try_catch. now intros ->. Qed.

Lemma try_catch_raise {A} (m : M A) h db e db' :
  m db = (Raise e, db') -> try_catch m h db = h e db'.
Proof. unfold try_catch. now intros ->. Qed.

Lemma done_inj {A} (a b : A) (db db' : Db) :
  (Done a, db) = (Done b, db') -> a = b /\ db = db'.
Proof. intros H. injection H. auto. Qed.

Lemma Page_inj ms pg ms' pg' : Page ms pg = Page ms' pg' -> ms = ms' /\ pg = pg'.
Proof. intros H. injection H. auto. Qed.

Lemma Models_inj ms n ms' n' : Models ms n = Models ms' n' -> ms = ms'.
Proof. intros H. injection H. auto. Qed.

(** ** The probe loop of the pre-save hook *)

Lemma find_slug_of_another self s l :
  List.find (slug_of_another self s) l = None <-> ~ held_by_another self l s.
Proof.
  split.
  - intros Hnone (m & Hin & Hid & Hs).
    apply (find_none _ _ Hnone) in Hin. unfold slug_of_another, id_eqb in Hin.
    rewrite Hs, String.eqb_refl in Hin. simpl in Hin.
    apply negb_false_iff, String.eqb_eq in Hin. contradiction.
  - intros Hfree. destruct (List.find _ l) as [m|] eqn:Hf; [|easy].
    apply find_some in Hf as [Hin Hm]. exfalso. apply Hfree. exists m.
    unfold slug_of_another, id_eqb in Hm.
    apply andb_true_iff in Hm as [Hs Hid]. apply String.eqb_eq in Hs.
    apply negb_true_iff, String.eqb_neq in Hid. easy.
Qed.

Lemma find_slug_of_another_some self s l m :
  List.find (slug_of_another self s) l = Some m -> held_by_another self l s.
Proof.
  intros Hf. apply find_some in Hf as [Hin Hm]. exists m.
  unfold slug_of_another, id_eqb in Hm.
  apply andb_true_iff in Hm as [Hs Hid]. apply String.eqb_eq in Hs.
  apply negb_true_iff, String.eqb_neq in Hid. easy.
Qed.

Lemma held_or_free self l s :
  held_by_another self l s \/ ~ held_by_another self l s.
Proof.
  destruct (List.find (slug_of_another self s) l) eqn:Hf.
  - left. eapply find_slug_of_another_some; eauto.
  - right. now apply find_slug_of_another.
Qed.

(** A search through the ranks below [n]: all hold, or there is a least
    rank that fails. *)
Lemma least_failure (P : nat -> Prop) (n : nat) :
  (forall i, P i \/ ~ P i) ->
  (forall i, (i < n)%nat -> P i)
  \/ exists k, (k < n)%nat /\ ~ P k /\ forall i, (i < k)%nat -> P i.
Proof.
  intros Hdec. induction n as [|n IH].
  - left. intros i Hi. lia.
  - destruct IH as [Hall | (k & Hk & Hnk & Hbelow)].
    + destruct (Hdec n) as [Hn | Hn].
      * left. intros i Hi. destruct (Nat.eq_dec i n) as [-> | ?]; [easy|].
        apply Hall. lia.
      * right. exists n. split; [lia | easy].
    + right. exists k. split; [lia | easy].
Qed.

(** Among any [length l + 1] candidates one is free: the candidates differ
    from one another and the collection holds [length l] slugs. *)
Lemma first_free_exists self l base :
  exists k, (k <= length l)%nat
    /\ ~ held_by_another self l (candidate base k)
    /\ forall i, (i < k)%nat -> held_by_another self l (candidate base i).
Proof.
  destruct (least_failure (fun k => held_by_another self l (candidate base k))
              (S (length l))) as [Hall | (k & Hk & Hfree & Hheld)].
  - intros i. apply held_or_free.
  - exfalso.
    assert (Hlen : (length (List.map (candidate base) (seq 0 (S (length l))))
                    <= length (List.map Model.slug l))%nat).
    { apply NoDup_incl_length.
      - apply Finite.Injective_map_NoDup; [|apply seq_NoDup].
        intros j k. apply candidate_inj.
      - intros c Hc. apply in_map_iff in Hc as (k & <- & Hk).
        apply in_seq in Hk. destruct (Hall k ltac:(lia)) as (m & Hin & _ & Hs).
        rewrite <- Hs. now apply in_map. }
    rewrite !length_map, length_seq in Hlen. lia.
  - exists k. split; [lia | easy].
Qed.

(** The loop, started at the candidate of rank [j] with the counter at
    [j + 1], stops at the first free candidate of rank [j] or more, as soon
    as the fuel reaches it. *)
Lemma probe_from fuel self base db : forall j k,
  (j <= k)%nat -> (k < j + fuel)%nat ->
  ~ held_by_another self (models db) (candidate base k) ->
  (forall i, (j <= i < k)%nat -> held_by_another self (models db) (candidate base i)) ->
  probe fuel self base (candidate base j) (S j) db = (Done (candidate base k), db).
Proof.
  induction fuel as [|fuel IH]; intros j k Hjk Hk Hfree Hheld; [lia|].
  simpl. unfold bind, findOne.
  destruct (List.find (slug_of_another self (candidate base j)) (models db)) eqn:Hf.
  - assert (j <> k).
    { intros ->. apply find_slug_of_another in Hfree. congruence. }
    change (suffixed base (S j)) with (candidate base (S j)).
    apply IH; [lia | lia | exact Hfree | intros i Hi; apply Hheld; lia].
  - destruct (Nat.eq_dec j k) as [-> | Hne]; [reflexivity|].
    exfalso. apply find_slug_of_another in Hf. apply Hf, Hheld. lia.
Qed.

(** The loop of the hook ends, and at the first free candidate. *)
Lemma probe_total self base db :
  exists s,
    probe (S (length (models db))) self base base 1%nat db = (Done s, db)
    /\ first_free_candidate self (models db) base s.
Proof.
  destruct (first_free_exists self (models db) base) as (k & Hk & Hfree & Hheld).
  exists (candidate base k). split.
  - apply (probe_from _ self base db 0 k); [lia | lia | exact Hfree|].
    intros i Hi. apply Hheld. lia.
  - exists k. easy.
Qed.

(** ** The pre-save hook and [save] *)

Lemma set_slug_letters s d :
  every slug_letter s -> Model.slug (Model.set_slug s d) = s.
Proof. intros H. simpl. now apply slug_letters_stored. Qed.

Lemma pre_save_regenerates doc db :
  name_modified doc || Js.falsy (Model.slug (fields doc)) = true ->
  exists s,
    pre_save doc db
    = (Done (mkDocument (Model.set_slug s (fields doc)) (isNew doc)
               (name_modified doc)), db)
    /\ Model.slug (Model.set_slug s (fields doc)) = s
    /\ first_free_candidate (Model._id (fields doc)) (models db)
         (baseSlug (Model.name (fields doc))) s.
Proof.
  intros Hre. unfold pre_save. rewrite Hre.
  destruct (probe_total (Model._id (fields doc))
              (baseSlug (Model.name (fields doc))) db) as (s & Hrun & Hfirst).
  exists s. split; [|split; [|exact Hfirst]].
  - unfold bind at 1, get_db. unfold bind. now rewrite Hrun.
  - apply set_slug_letters. destruct Hfirst as (k & -> & _).
    apply candidate_letters, baseSlug_letters.
Qed.

Lemma pre_save_keeps doc db :
  name_modified doc || Js.falsy (Model.slug (fields doc)) = false ->
  pre_save doc db = (Done doc, db).
Proof. intros Hre. unfold pre_save. now rewrite Hre. Qed.

Lemma existsb_slug_of_another self s l :
  ~ held_by_another self l s -> existsb (slug_of_another self s) l = false.
Proof.
  intros Hfree. apply not_true_is_false. intros Hex.
  apply existsb_exists in Hex as (m & Hin & Hm). apply Hfree. exists m.
  unfold slug_of_another, id_eqb in Hm.
  apply andb_true_iff in Hm as [Hs Hid]. apply String.eqb_eq in Hs.
  apply negb_true_iff, String.eqb_neq in Hid. easy.
Qed.

Lemma saved_from_id doc db d' :
  saved_from doc db d' -> Model._id d' = Model._id (fields doc).
Proof.
  unfold saved_from. destruct (_ || _); [intros (s & -> & _) | intros ->]; easy.
Qed.

Lemma saved_from_free doc db d' :
  saved_from doc db d' ->
  (name_modified doc || Js.falsy (Model.slug (fields doc)) = false ->
   ~ held_by_another (Model._id (fields doc)) (models db)
       (Model.slug (fields doc))) ->
  ~ held_by_another (Model._id d') (models db) (Model.slug d').
Proof.
  intros Hs Hkeep. rewrite (saved_from_id _ _ _ Hs). unfold saved_from in Hs.
  destruct (_ || _).
  - destruct Hs as (s & _ & -> & (k & _ & Hfree & _)). exact Hfree.
  - subst d'. now apply Hkeep.
Qed.

Lemma pre_save_runs doc db :
  exists d',
    pre_save doc db = (Done (mkDocument d' (isNew doc) (name_modified doc)), db)
    /\ saved_from doc db d'.
Proof.
  unfold saved_from.
  destruct (name_modified doc || Js.falsy (Model.slug (fields doc))) eqn:Hre.
  - destruct (pre_save_regenerates doc db Hre) as (s & Hrun & Hslug & Hfirst).
    exists (Model.set_slug s (fields doc)). split; [exact Hrun|].
    exists s. easy.
  - exists (fields doc). split; [|reflexivity].
    rewrite (pre_save_keeps doc db Hre). now destruct doc.
Qed.

(** [save] of a document that a query returned. *)
Lemma save_existing doc db :
  isNew doc = false ->
  Model.valid (fields doc) = true ->
  (name_modified doc || Js.falsy (Model.slug (fields doc)) = false ->
   ~ held_by_another (Model._id (fields doc)) (models db)
       (Model.slug (fields doc))) ->
  exists d',
    save doc db = (Done d', mkDb (replace_doc d' (models db)) (users db))
    /\ saved_from doc db d'.
Proof.
  intros Hnew Hvalid Hkeep.
  destruct (pre_save_runs doc db) as (d' & Hrun & Hfrom).
  exists d'. split; [|exact Hfrom].
  unfold save. rewrite Hvalid. change (negb true) with false. cbv iota.
  rewrite (bind_done _ _ _ _ _ Hrun). simpl fields. simpl isNew.
  unfold bind at 1, get_db. rewrite Hnew.
  rewrite existsb_slug_of_another by (eapply saved_from_free; eauto).
  reflexivity.
Qed.

Lemma save_invalid doc db :
  Model.valid (fields doc) = false -> save doc db = (Raise ValidationError, db).
Proof. intros H. unfold save. now rewrite H. Qed.

(** [save] of a document made by [new Model], under an id that the
    collection does not hold. *)
Lemma save_new doc db :
  isNew doc = true ->
  name_modified doc = true ->
  Model.valid (fields doc) = true ->
  ~ In (Model._id (fields doc)) (List.map Model._id (models db)) ->
  exists d',
    save doc db = (Done d', mkDb (models db ++ [d']) (users db))
    /\ saved_from doc db d'.
Proof.
  intros Hnew Hmod Hvalid Hfresh.
  destruct (pre_save_runs doc db) as (d' & Hrun & Hfrom).
  exists d'. split; [|exact Hfrom].
  unfold save. rewrite Hvalid. change (negb true) with false. cbv iota.
  rewrite (bind_done _ _ _ _ _ Hrun). simpl fields. simpl isNew.
  unfold bind at 1, get_db. rewrite Hnew.
  assert (Hid : existsb (has_id (Model._id d')) (models db) = false).
  { apply not_true_is_false. intros Hex.
    apply existsb_exists in Hex as (m & Hin & Hm). apply Hfresh.
    unfold has_id, id_eqb in Hm. apply String.eqb_eq in Hm.
    rewrite <- (saved_from_id _ _ _ Hfrom), <- Hm. now apply in_map. }
  rewrite Hid. simpl orb.
  assert (Hslug : existsb (fun m => String.eqb (Model.slug m) (Model.slug d'))
                    (models db) = false).
  { apply not_true_is_false. intros Hex.
    apply existsb_exists in Hex as (m & Hin & Hm). apply String.eqb_eq in Hm.
    unfold saved_from in Hfrom. rewrite Hmod in Hfrom. simpl in Hfrom.
    destruct Hfrom as (s & _ & Hs & (k & _ & Hfree & _)). apply Hfree.
    exists m. split; [exact Hin|]. split; [|congruence].
    intros Heq. apply Hfresh. rewrite <- Heq. now apply in_map. }
  rewrite Hslug. reflexivity.
Qed.

Lemma saved_from_rest doc db d' :
  saved_from doc db d' ->
  Model._id d' = Model._id (fields doc)
  /\ Model.name d' = Model.name (fields doc)
  /\ Model.status d' = Model.status (fields doc)
  /\ Model.rejectionReason d' = Model.rejectionReason (fields doc)
  /\ Model.uploadedBy d' = Model.uploadedBy (fields doc)
  /\ Model.valid d' = Model.valid (fields doc).
Proof.
  unfold saved_from. destruct (_ || _); [intros (s & -> & _) | intros ->]; easy.
Qed.

Lemma NoDup_map_eq {A B} (f : A -> B) l x y :
  List.NoDup (List.map f l) -> In x l -> In y l -> f x = f y -> x = y.
Proof.
  induction l as [|z l IH]; simpl; [easy|]. intros Hnd Hx Hy Hf.
  inversion Hnd as [|? ? Hz Hl]; subst.
  destruct Hx as [-> | Hx], Hy as [-> | Hy]; [easy| | |now apply IH].
  - exfalso. apply Hz. rewrite Hf. now apply in_map.
  - exfalso. apply Hz. rewrite <- Hf. now apply in_map.
Qed.

Lemma unique_slug_not_held db m :
  unique_slugs db -> In m (models db) ->
  ~ held_by_another (Model._id m) (models db) (Model.slug m).
Proof.
  intros Hnd Hin (m2 & Hin2 & Hid & Hslug). apply Hid. f_equal.
  eapply NoDup_map_eq; eauto.
Qed.

(** ** Queries by id *)

Lemma find_no_id (P : Model.t -> bool) l i :
  ~ In i (List.map Model._id l) ->
  List.find (fun x => has_id i x && P x) l = None.
Proof.
  induction l as [|x l IH]; simpl; [easy|]. intros Hnot.
  unfold has_id at 1, id_eqb. destruct (String.eqb_spec (Model._id x) i) as [Heq | Hne].
  - exfalso. apply Hnot. now left.
  - simpl. apply IH. intros Hin. apply Hnot. now right.
Qed.

Lemma find_by_id (P : Model.t -> bool) l m :
  List.NoDup (List.map Model._id l) -> In m l ->
  List.find (fun x => has_id (Model._id m) x && P x) l
  = if P m then Some m else None.
Proof.
  induction l as [|x l IH]; simpl; [easy|]. intros Hnd [-> | Hin].
  - unfold has_id at 1, id_eqb. rewrite String.eqb_refl. simpl.
    destruct (P m); [reflexivity|]. apply find_no_id.
    simpl in Hnd. inversion Hnd; assumption.
  - simpl in Hnd. inversion Hnd as [|? ? Hx Hl]; subst.
    unfold has_id at 1, id_eqb.
    destruct (String.eqb_spec (Model._id x) (Model._id m)) as [Heq | Hne].
    + exfalso. apply Hx. rewrite Heq. now apply in_map.
    + simpl. now apply IH.
Qed.

Lemma find_owned db caller m :
  unique_ids db -> In m (models db) ->
  List.find (owned_by (Model._id m) caller) (models db)
  = if id_eqb (Model.uploadedBy m) caller then Some m else None.
Proof.
  intros Hnd Hin.
  apply (find_by_id (fun x => id_eqb (Model.uploadedBy x) caller) _ _ Hnd Hin).
Qed.

Lemma find_same {A} (f g : A -> bool) l :
  (forall x, f x = g x) -> List.find f l = List.find g l.
Proof.
  intros Hfg. induction l as [|x l IH]; simpl; [easy|]. now rewrite Hfg, IH.
Qed.

Lemma find_has_id db m :
  unique_ids db -> In m (models db) ->
  List.find (has_id (Model._id m)) (models db) = Some m.
Proof.
  intros Hnd Hin.
  pose proof (find_by_id (fun _ => true) _ _ Hnd Hin) as H. simpl in H.
  rewrite <- H. apply find_same. intros x. now rewrite andb_true_r.
Qed.

Lemma cast_done raw i db : castObjectId raw = Some i -> cast raw db = (Done i, db).
Proof. unfold cast. now intros ->. Qed.

Lemma cast_raise raw db : castObjectId raw = None -> cast raw db = (Raise CastError, db).
Proof. unfold cast. now intros ->. Qed.

(** ** The handlers *)

Section Properties.

Variable is_uri : string -> bool.
Variable RegExp_i : string -> option (string -> bool).

(** The part of [PUT /:id] that runs before the payload is looked at. *)
Lemma put_model_finds caller id body db m :
  unique_ids db -> In m (models db) ->
  castObjectId id = Some (Model._id m) ->
  put_model is_uri caller id body db
  = try_catch
      (match (if id_eqb (Model.uploadedBy m) caller then Some m else None) with
       | None => ret not_yours_to_edit
       | Some m =>
           if Status_eqb (Model.status m) approved then ret approved_is_frozen
           else
             match validate is_uri body with
             | Invalid d => ret (validation_error [d])
             | Valid value =>
                 let model := assign (hydrate m) value in
                 let model :=
                   if Status_eqb (Model.status (fields model)) rejected then
                     with_fields
                       (fun d => Model.set_rejectionReason None
                                   (Model.set_status pending d)) model
                   else model in
                 let* saved := save model in
                 ret (ok (Some "Model updated successfully") (Saved saved None))
             end
       end)
      (fun _ => ret internal_error) db.
Proof.
  intros Hnd Hin Hcast. unfold put_model, try_catch.
  rewrite (bind_done _ _ _ _ _ (cast_done _ _ db Hcast)).
  unfold bind at 1, findOne. now rewrite (find_owned db caller m Hnd Hin).
Qed.

(** C1. An update of an approved listing by its owner is refused with the
    state-conflict reply (status 400, "Cannot edit an approved model"),
    whatever the payload, and leaves the database as it was; the reply is
    never the validation reply, so the state is checked before the
    payload. *)
Theorem approved_listing_is_frozen caller id body db m :
  unique_ids db -> In m (models db) ->
  castObjectId id = Some (Model._id m) ->
  Model.uploadedBy m = caller ->
  Model.status m = approved ->
  put_model is_uri caller id body db = (Done approved_is_frozen, db)
  /\ code approved_is_frozen = 400
  /\ forall ds, approved_is_frozen <> validation_error ds.
Proof.
  intros Hnd Hin Hcast Hown Hst. split; [|split; [reflexivity | easy]].
  rewrite (put_model_finds caller id body db m Hnd Hin Hcast).
  unfold id_eqb. rewrite Hown, String.eqb_refl, Hst. reflexivity.
Qed.

Lemma delete_model_finds caller id db m :
  unique_ids db -> In m (models db) ->
  castObjectId id = Some (Model._id m) ->
  id_eqb (Model.uploadedBy m) caller = false ->
  delete_model caller id db = (Done not_yours_to_delete, db).
Proof.
  intros Hnd Hin Hcast Hown. unfold delete_model, try_catch.
  rewrite (bind_done _ _ _ _ _ (cast_done _ _ db Hcast)).
  unfold bind at 1, findOne. rewrite (find_owned db caller m Hnd Hin), Hown.
  reflexivity.
Qed.

Lemma put_model_absent caller id i body db :
  castObjectId id = Some i -> ~ In i (List.map Model._id (models db)) ->
  put_model is_uri caller id body db = (Done not_yours_to_edit, db).
Proof.
  intros Hcast Habsent. unfold put_model, try_catch.
  rewrite (bind_done _ _ _ _ _ (cast_done _ _ db Hcast)).
  unfold bind at 1, findOne, owned_by. now rewrite find_no_id.
Qed.

Lemma delete_model_absent caller id i db :
  castObjectId id = Some i -> ~ In i (List.map Model._id (models db)) ->
  delete_model caller id db = (Done not_yours_to_delete, db).
Proof.
  intros Hcast Habsent. unfold delete_model, try_catch.
  rewrite (bind_done _ _ _ _ _ (cast_done _ _ db Hcast)).
  unfold bind at 1, findOne, owned_by. now rewrite find_no_id.
Qed.

(** C8. An update or a removal asked by a caller who is not the owner of
    the listing is answered by the not-found reply (status 404) and
    changes nothing; it is the very reply given for an id that no listing
    has, and it is neither the state-conflict reply nor any other. *)
Theorem non_owner_gets_not_found caller id body db m :
  unique_ids db -> In m (models db) ->
  castObjectId id = Some (Model._id m) ->
  Model.uploadedBy m <> caller ->
  put_model is_uri caller id body db = (Done not_yours_to_edit, db)
  /\ delete_model caller id db = (Done not_yours_to_delete, db)
  /\ code not_yours_to_edit = 404 /\ code not_yours_to_delete = 404
  /\ not_yours_to_edit <> approved_is_frozen
  /\ forall id' i' db',
       castObjectId id' = Some i' ->
       ~ In i' (List.map Model._id (models db')) ->
       put_model is_uri caller id' body db' = (Done not_yours_to_edit, db')
       /\ delete_model caller id' db' = (Done not_yours_to_delete, db').
Proof.
  intros Hnd Hin Hcast Hown.
  assert (Hneq : id_eqb (Model.uploadedBy m) caller = false)
    by now apply String.eqb_neq.
  repeat split; try easy.
  - rewrite (put_model_finds caller id body db m Hnd Hin Hcast), Hneq.
    reflexivity.
  - now apply (delete_model_finds caller id db m).
  - now apply (put_model_absent caller id' i').
  - now apply (delete_model_absent caller id' i').
Qed.

(** C10. There is a malformed id that the public fetch refuses as a
    validation error (status 400, "Invalid model ID format") without
    touching storage, while update and removal hand it to the storage
    lookup, whose cast throws, and answer with the reply of the catch-all
    (status 500). *)
Theorem malformed_id_reaches_storage :
  exists id,
    isValid id = false
    /\ forall caller body db,
         get_model id db = (Done invalid_id, db)
         /\ put_model is_uri caller id body db = (Done internal_error, db)
         /\ delete_model caller id db = (Done internal_error, db)
         /\ code invalid_id = 400 /\ code internal_error = 500.
Proof.
  exists "not-an-id". split; [reflexivity|]. intros caller body db.
  repeat split.
Qed.

Lemma put_admin_status_checked id body st db :
  well_formed body st ->
  put_admin_status id body db
  = try_catch
      (let* i := cast id in
       let* model := findOne (has_id i) in
       match model with
       | None => ret model_not_found
       | Some m =>
           let model := with_fields (Model.set_status st) (hydrate m) in
           let model :=
             if Status_eqb st rejected then
               with_fields
                 (Model.set_rejectionReason (StatusBody.rejectionReason body))
                 model
             else with_fields (Model.set_rejectionReason None) model in
           let* saved := save model in
           let* db := get_db in
           ret (ok (Some ("Model " +:+ Status_text st +:+ " successfully"))
                  (Saved saved
                     (populate ["firstName"; "lastName"; "email"] (users db)
                        (model_doc saved) !! "uploadedBy")))
       end)
      (fun _ => ret internal_error) db.
Proof.
  intros [Hst Hreason]. unfold put_admin_status. rewrite Hst.
  destruct st; try reflexivity. simpl Status_eqb. now rewrite Hreason.
Qed.

(** C3 (as amended). [adminSetStatus] answers with a validation reply
    (status 400) a target status outside the three and a rejection
    without a reason, before it looks for the listing.  For a well-formed
    request on an existing listing it writes the target status, and as
    rejection reason the given one with the surrounding white space
    trimmed when the target is [rejected], none otherwise.  For a
    well-formed request whose id is well formed and belongs to no listing
    it answers not-found (status 404). *)
Theorem admin_sets_status id body db :
  (StatusBody.status body ≫= Status_of_text = None ->
   put_admin_status id body db = (Done invalid_status, db))
  /\ (StatusBody.status body = Some "rejected" ->
      Js.falsy (default "" (StatusBody.rejectionReason body)) = true ->
      put_admin_status id body db = (Done reason_required, db))
  /\ (forall st m,
        well_formed body st ->
        consistent db -> In m (models db) ->
        castObjectId id = Some (Model._id m) ->
        exists m' owner,
          put_admin_status id body db
          = (Done (ok (Some ("Model " +:+ Status_text st +:+ " successfully"))
                     (Saved m' owner)),
             mkDb (replace_doc m' (models db)) (users db))
          /\ Model._id m' = Model._id m
          /\ Model.status m' = st
          /\ Model.rejectionReason m'
             = match st with
               | rejected => Js.trim <$> StatusBody.rejectionReason body
               | _ => None
               end)
  /\ (forall st i,
        well_formed body st ->
        castObjectId id = Some i ->
        ~ In i (List.map Model._id (models db)) ->
        put_admin_status id body db = (Done model_not_found, db))
  /\ code invalid_status = 400 /\ code reason_required = 400
  /\ code model_not_found = 404.
Proof.
  split; [|split; [|split; [|split; [|easy]]]].
  - intros Hst. unfold put_admin_status. now rewrite Hst.
  - intros Hst Hreason. unfold put_admin_status. rewrite Hst.
    replace (Some "rejected" ≫= Status_of_text) with (Some rejected)
      by reflexivity.
    cbv [Status_eqb]. now rewrite Hreason.
  - intros st m Hwf (Hids & Hslugs & Hvalid) Hin Hcast.
    rewrite (put_admin_status_checked id body st db Hwf).
    set (doc := if Status_eqb st rejected
                then with_fields
                       (Model.set_rejectionReason (StatusBody.rejectionReason body))
                       (with_fields (Model.set_status st) (hydrate m))
                else with_fields (Model.set_rejectionReason None)
                       (with_fields (Model.set_status st) (hydrate m))).
    assert (Hdoc : isNew doc = false /\ name_modified doc = false
                   /\ Model._id (fields doc) = Model._id m
                   /\ Model.slug (fields doc) = Model.slug m
                   /\ Model.status (fields doc) = st
                   /\ Model.valid (fields doc) = Model.valid m
                   /\ Model.rejectionReason (fields doc)
                      = match st with
                        | rejected => Js.trim <$> StatusBody.rejectionReason body
                        | _ => None
                        end).
    { subst doc. destruct st; cbv [Status_eqb]; repeat split. }
    destruct Hdoc as (Hnew & Hmod & Hid & Hslug & Hstatus & Hv & Hreason).
    destruct (save_existing doc db Hnew) as (m' & Hsave & Hfrom).
    { rewrite Hv. rewrite List.Forall_forall in Hvalid. now apply Hvalid. }
    { intros _. rewrite Hid, Hslug. now apply unique_slug_not_held. }
    destruct (saved_from_rest _ _ _ Hfrom) as (Hid' & _ & Hst' & Hr' & _).
    exists m'. eexists. split; [|rewrite Hid', Hst', Hr'; easy].
    unfold try_catch.
    rewrite (bind_done _ _ _ _ _ (cast_done _ _ db Hcast)).
    unfold bind at 1, findOne. rewrite (find_has_id db m Hids Hin).
    fold doc. rewrite (bind_done _ _ _ _ _ Hsave). reflexivity.
  - intros st i Hwf Hcast Habsent.
    rewrite (put_admin_status_checked id body st db Hwf). unfold try_catch.
    rewrite (bind_done _ _ _ _ _ (cast_done _ _ db Hcast)).
    unfold bind at 1, findOne.
    pose proof (find_no_id (fun _ => true) _ _ Habsent) as Hnone.
    rewrite (find_same (has_id i) (fun x => has_id i x && true)), Hnone;
      [reflexivity|]. intros x. now rewrite andb_true_r.
Qed.

Lemma edited_paths m v :
  isNew (edited m v) = false
  /\ name_modified (edited m v)
     = negb (String.eqb (Js.trim (Value.name v)) (Model.name m))
  /\ Model._id (fields (edited m v)) = Model._id m
  /\ Model.slug (fields (edited m v)) = Model.slug m
  /\ Model.name (fields (edited m v)) = Js.trim (Value.name v)
  /\ Model.valid (fields (edited m v))
     = Model.valid (fields (assign (hydrate m) v))
  /\ (Model.status m <> approved -> Model.status (fields (edited m v)) = pending)
  /\ (Model.status m = rejected ->
      Model.rejectionReason (fields (edited m v)) = None).
Proof.
  unfold edited. cbv zeta.
  change (Model.status (fields (assign (hydrate m) v))) with (Model.status m).
  destruct (Model.status m) eqn:Hs; cbv [Status_eqb]; repeat split;
    try easy; intros _; exact Hs.
Qed.

Lemma in_replace_doc d l m :
  In m l -> Model._id d = Model._id m -> In d (replace_doc d l).
Proof.
  intros Hin Hid. unfold replace_doc. apply in_map_iff. exists m.
  split; [|exact Hin]. unfold has_id, id_eqb. now rewrite Hid, String.eqb_refl.
Qed.

(** An edit that passes every check is written. *)
Lemma put_model_saves caller id body db m v :
  consistent db -> In m (models db) ->
  castObjectId id = Some (Model._id m) ->
  Model.uploadedBy m = caller ->
  Model.status m <> approved ->
  validate is_uri body = Valid v ->
  Model.valid (fields (assign (hydrate m) v)) = true ->
  exists m',
    put_model is_uri caller id body db
    = (Done (ok (Some "Model updated successfully") (Saved m' None)),
       mkDb (replace_doc m' (models db)) (users db))
    /\ saved_from (edited m v) db m'
    /\ In m' (replace_doc m' (models db)).
Proof.
  intros (Hids & Hslugs & _) Hin Hcast Hown Hst Hv Hvalid.
  destruct (edited_paths m v) as (Hnew & Hmod & Hid & Hslug & _ & Hval & _).
  destruct (save_existing (edited m v) db Hnew) as (m' & Hsave & Hfrom).
  { now rewrite Hval. }
  { intros _. rewrite Hid, Hslug. now apply unique_slug_not_held. }
  exists m'. split; [|split; [exact Hfrom|]].
  - transitivity
      (try_catch
         (let* saved := save (edited m v) in
          ret (ok (Some "Model updated successfully") (Saved saved None)))
         (fun _ => ret internal_error) db).
    + rewrite (put_model_finds caller id body db m Hids Hin Hcast).
      unfold id_eqb. rewrite Hown, String.eqb_refl.
      destruct (Model.status m) eqn:Hs; [|easy|]; cbv [Status_eqb];
        rewrite Hv; unfold edited; cbv zeta;
        change (Model.status (fields (assign (hydrate m) v)))
          with (Model.status m);
        rewrite Hs; reflexivity.
    + unfold try_catch. now rewrite (bind_done _ _ _ _ _ Hsave).
  - apply (in_replace_doc m' _ m Hin).
    now rewrite (proj1 (saved_from_rest _ _ _ Hfrom)).
Qed.

Lemma consistent_valid db m : consistent db -> In m (models db) -> Model.valid m = true.
Proof.
  intros (_ & _ & Hall) Hin. rewrite List.Forall_forall in Hall. now apply Hall.
Qed.

(** C2. An edit by the owner with a valid payload (whose link, if any, the
    schema accepts) succeeds and is written with the status [pending]: a
    rejected listing goes back to [pending] and loses its rejection reason,
    a pending listing stays [pending]. *)
Theorem edit_of_rejected_resets caller id body db m v :
  consistent db -> In m (models db) ->
  castObjectId id = Some (Model._id m) ->
  Model.uploadedBy m = caller ->
  Model.status m <> approved ->
  validate is_uri body = Valid v ->
  link_accepted v ->
  exists m',
    put_model is_uri caller id body db
    = (Done (ok (Some "Model updated successfully") (Saved m' None)),
       mkDb (replace_doc m' (models db)) (users db))
    /\ In m' (replace_doc m' (models db))
    /\ Model._id m' = Model._id m
    /\ Model.status m' = pending
    /\ (Model.status m = rejected -> Model.rejectionReason m' = None).
Proof.
  intros Hdb Hin Hcast Hown Hst Hv Hlink.
  assert (Hvalid : Model.valid (fields (assign (hydrate m) v)) = true).
  { apply assign_valid; [now apply (consistent_valid db) | | exact Hlink].
    now apply (validate_sound is_uri body). }
  destruct (put_model_saves caller id body db m v Hdb Hin Hcast Hown Hst Hv Hvalid)
    as (m' & Hrun & Hfrom & Hin').
  destruct (saved_from_rest _ _ _ Hfrom) as (Hid & _ & Hs & Hr & _).
  destruct (edited_paths m v) as (_ & _ & Hid' & _ & _ & _ & Hs' & Hr').
  exists m'. split; [exact Hrun|]. split; [exact Hin'|].
  split; [congruence|]. split.
  - rewrite Hs. now apply Hs'.
  - intros Hrej. rewrite Hr. now apply Hr'.
Qed.

(** An upload that passes every check is written. *)
Lemma post_model_saves caller new_id now body db v :
  validate is_uri body = Valid v ->
  List.find (fun m => String.eqb (Model.name m) (Value.name v)
                      && id_eqb (Model.uploadedBy m) caller) (models db)
  = None ->
  ~ In new_id (List.map Model._id (models db)) ->
  Model.valid (fields (new_Model new_id now v caller)) = true ->
  exists m' r us,
    post_model is_uri caller new_id now body db
    = (Done r, mkDb (models db ++ [m']) us)
    /\ code r = 201
    /\ saved_from (new_Model new_id now v caller) db m'.
Proof.
  intros Hv Hnone Hfresh Hvalid.
  destruct (save_new (new_Model new_id now v caller) db eq_refl eq_refl Hvalid
              Hfresh) as (m' & Hsave & Hfrom).
  exists m'. do 2 eexists. split; [|split; [|exact Hfrom]].
  - unfold post_model, try_catch. rewrite Hv.
    unfold bind at 1, findOne. rewrite Hnone.
    rewrite (bind_done _ _ _ _ _ Hsave). reflexivity.
  - reflexivity.
Qed.

(** C4. A creation, and an update that changes the name, with a valid
    payload (whose link, if any, the schema accepts) succeed, and the slug
    they write is the first candidate of the sequence

      [baseSlug], [baseSlug-1], [baseSlug-2], ...

    that no listing with another id holds, where [baseSlug] is the
    lower-cased name with each run of characters outside [[a-z0-9]]
    replaced by one hyphen and the hyphens at both ends removed. *)
Theorem slug_is_first_free_candidate :
  (forall caller new_id now body db v,
      validate is_uri body = Valid v ->
      List.find (fun m => String.eqb (Model.name m) (Value.name v)
                          && id_eqb (Model.uploadedBy m) caller) (models db)
      = None ->
      ~ In new_id (List.map Model._id (models db)) ->
      link_accepted v ->
      exists m' r us,
        post_model is_uri caller new_id now body db
        = (Done r, mkDb (models db ++ [m']) us)
        /\ code r = 201
        /\ Model._id m' = new_id
        /\ Model.name m' = Js.trim (Value.name v)
        /\ first_free_candidate new_id (models db)
             (baseSlug (Model.name m')) (Model.slug m'))
  /\ (forall caller id body db m v,
        consistent db -> In m (models db) ->
        castObjectId id = Some (Model._id m) ->
        Model.uploadedBy m = caller ->
        Model.status m <> approved ->
        validate is_uri body = Valid v ->
        link_accepted v ->
        Js.trim (Value.name v) <> Model.name m ->
        exists m',
          put_model is_uri caller id body db
          = (Done (ok (Some "Model updated successfully") (Saved m' None)),
             mkDb (replace_doc m' (models db)) (users db))
          /\ In m' (replace_doc m' (models db))
          /\ Model._id m' = Model._id m
          /\ Model.name m' = Js.trim (Value.name v)
          /\ first_free_candidate (Model._id m) (models db)
               (baseSlug (Model.name m')) (Model.slug m')).
Proof.
  split.
  - intros caller new_id now body db v Hv Hnone Hfresh Hlink.
    assert (Hvalid : Model.valid (fields (new_Model new_id now v caller)) = true).
    { apply new_Model_valid; [|exact Hlink]. now apply (validate_sound is_uri body). }
    destruct (post_model_saves caller new_id now body db v Hv Hnone Hfresh Hvalid)
      as (m' & r & us & Hrun & Hcode & Hfrom).
    exists m', r, us. split; [exact Hrun|]. split; [exact Hcode|].
    destruct (saved_from_rest _ _ _ Hfrom) as (Hid & Hname & _).
    split; [exact Hid|]. split; [exact Hname|]. unfold saved_from in Hfrom.
    cbn [name_modified new_Model orb] in Hfrom.
    destruct Hfrom as (s & _ & Hs & Hfirst). rewrite Hs, Hname. exact Hfirst.
  - intros caller id body db m v Hdb Hin Hcast Hown Hst Hv Hlink Hname.
    assert (Hvalid : Model.valid (fields (assign (hydrate m) v)) = true).
    { apply assign_valid; [now apply (consistent_valid db) | | exact Hlink].
      now apply (validate_sound is_uri body). }
    destruct (put_model_saves caller id body db m v Hdb Hin Hcast Hown Hst Hv Hvalid)
      as (m' & Hrun & Hfrom & Hin').
    destruct (saved_from_rest _ _ _ Hfrom) as (Hid & Hn & _).
    destruct (edited_paths m v) as (_ & Hmod & Hid' & _ & Hn' & _).
    exists m'. split; [exact Hrun|]. split; [exact Hin'|].
    split; [congruence|]. split; [congruence|].
    unfold saved_from in Hfrom. rewrite Hmod in Hfrom.
    apply String.eqb_neq in Hname. rewrite Hname in Hfrom.
    cbn [negb orb] in Hfrom. destruct Hfrom as (s & _ & Hs & Hfirst).
    rewrite Hs, Hn, <- Hid'. exact Hfirst.
Qed.

(** *** The public collection *)

Lemma get_models_runs q f db :
  build_filter RegExp_i q db = (Done f, db) ->
  get_models RegExp_i q db
  = (Done (ok None
             (Page (List.map (public_view (users db))
                      (window q (sort_by sorts_before
                                   (List.filter (matches f) (models db)))))
                (pagination q (length (List.filter (matches f) (models db)))))),
     db).
Proof.
  intros Hf. unfold get_models, try_catch.
  rewrite (bind_done _ _ _ _ _ Hf). reflexivity.
Qed.

Lemma build_filter_plain q db :
  plain_term RegExp_i q ->
  exists f,
    build_filter RegExp_i q db = (Done f, db)
    /\ forall m, matches f m = public_match q m.
Proof.
  intros Hplain. unfold build_filter, public_match, plain_term in *.
  destruct (Query.search q) as [term|].
  - destruct (Js.falsy term) eqn:Hterm.
    + eexists. split; [reflexivity|]. intros m. unfold matches, equals; simpl.
      destruct (chosen (Query.category q)), (chosen (Query.pricing q));
        now rewrite ?andb_true_r.
    + rewrite (Hplain term eq_refl Hterm). eexists. split; [reflexivity|].
      intros m. unfold matches, equals; simpl. rewrite orb_false_r.
      destruct (chosen (Query.category q)), (chosen (Query.pricing q));
        now rewrite ?andb_true_r, ?orb_assoc.
  - eexists. split; [reflexivity|]. intros m. unfold matches, equals; simpl.
    destruct (chosen (Query.category q)), (chosen (Query.pricing q));
      now rewrite ?andb_true_r.
Qed.

(** The reply of the public collection for a plain search term. *)
Lemma get_models_plain q db :
  plain_term RegExp_i q ->
  get_models RegExp_i q db
  = (Done (ok None
             (Page (List.map (public_view (users db))
                      (window q (sort_by sorts_before
                                   (List.filter (public_match q) (models db)))))
                (pagination q
                   (length (List.filter (public_match q) (models db)))))),
     db).
Proof.
  intros Hplain.
  destruct (build_filter_plain q db Hplain) as (f & Hf & Hsame).
  rewrite (get_models_runs q f db Hf).
  now rewrite (filter_ext _ _ Hsame).
Qed.

(** C5 (as amended). The public collection query finds exactly the
    listings that are approved, have the category asked for (when one is
    asked for that is not the word [all]), have the pricing asked for
    (likewise), and, when a search term is given that the
    regular-expression engine reads as its own text, contain the term,
    letter case apart, in the name, in the short description or in a tag.
    The reply counts these listings and carries the window of the page
    over them, in sort order. *)
Theorem public_collection_query q db :
  plain_term RegExp_i q ->
  let found := List.filter (public_match q) (models db) in
  get_models RegExp_i q db
  = (Done (ok None
             (Page (List.map (public_view (users db))
                      (window q (sort_by sorts_before found)))
                (pagination q (length found)))),
     db)
  /\ forall m, In m found <-> In m (models db) /\ public_match q m = true.
Proof.
  intros Hplain found. split; [|intros m; apply filter_In].
  subst found. now apply get_models_plain.
Qed.

Lemma build_filter_outcome q db :
  (exists f, build_filter RegExp_i q db = (Done f, db))
  \/ build_filter RegExp_i q db = (Raise SyntaxError, db).
Proof.
  unfold build_filter. destruct (Query.search q) as [term|].
  - destruct (Js.falsy term); [left; eexists; reflexivity|].
    destruct (RegExp_i term); [left; eexists; reflexivity | now right].
  - left. eexists. reflexivity.
Qed.

Lemma model_doc_uploadedBy m :
  model_doc m !! "uploadedBy" = Some (VStr (Model.uploadedBy m)).
Proof.
  unfold model_doc. cbn [app list_to_map foldr uncurry fst snd].
  repeat (rewrite lookup_insert_ne by done). apply lookup_insert_eq.
Qed.

Lemma model_doc_rejectionReason m :
  model_doc m !! "rejectionReason" = VStr <$> Model.rejectionReason m.
Proof.
  unfold model_doc.
  destruct (Model.longDescription m), (Model.modelType m),
    (Model.externalUrl m), (Model.iconUrl m), (Model.rejectionReason m);
    cbn [app list_to_map foldr uncurry fst snd optional fmap option_fmap
           option_map];
    repeat (rewrite lookup_insert_ne by done);
    first [apply lookup_insert_eq | apply lookup_empty].
Qed.

Lemma insert_by_in before x l z :
  In z (insert_by before x l) <-> z = x \/ In z l.
Proof.
  induction l as [|y l IH]; simpl; [intuition|].
  destruct (before x y); simpl; [intuition|]. rewrite IH. intuition.
Qed.

Lemma sort_by_in before l z : In z (sort_by before l) <-> In z l.
Proof.
  induction l as [|x l IH]; simpl; [easy|].
  rewrite insert_by_in, IH. intuition.
Qed.

Lemma select_only_keys keys d k :
  is_Some (select_only keys d !! k) -> In k ("_id" :: keys).
Proof.
  intros [v Hv]. unfold select_only in Hv.
  apply map_lookup_filter_Some in Hv as [_ Hk]. now apply list_elem_of_In.
Qed.

Lemma public_view_paths us m :
  public_view us m !! "rejectionReason" = None
  /\ (public_view us m !! "uploadedBy" = Some VNull
      \/ exists u : gmap string Val,
           public_view us m !! "uploadedBy" = Some (VDoc u)
           /\ forall k : string, is_Some (u !! k) ->
                        In k ["_id"; "firstName"; "lastName"]).
Proof.
  unfold public_view, deselect. split; [apply lookup_delete_eq|].
  rewrite lookup_delete_ne by done. unfold populate.
  rewrite model_doc_uploadedBy. rewrite lookup_insert_eq.
  destruct (List.find _ us) as [u|]; [right | now left].
  eexists. split; [reflexivity|]. apply select_only_keys.
Qed.

Lemma get_my_models_runs caller db :
  get_my_models caller db
  = (Done (ok None
             (Models
                (List.map (fun m => deselect "uploadedBy" (model_doc m))
                   (sort_by newest_first
                      (List.filter
                         (fun m => id_eqb (Model.uploadedBy m) caller)
                         (models db))))
                (length
                   (List.map (fun m => deselect "uploadedBy" (model_doc m))
                      (sort_by newest_first
                         (List.filter
                            (fun m => id_eqb (Model.uploadedBy m) caller)
                            (models db))))))),
     db).
Proof. reflexivity. Qed.

(** C7 (as amended). Every item of the public collection omits
    [rejectionReason], and its [uploadedBy] is null or a document holding
    no path other than [_id], [firstName] and [lastName], hence neither
    the email nor the password of the owner.  Every item of the owner's
    my-models listing omits [uploadedBy], and shows the rejection reason of
    the listing it stands for when that listing has one. *)
Theorem projections_of_the_listings :
  (forall q db r db' ms pg (d : gmap string Val),
      get_models RegExp_i q db = (Done r, db') ->
      data r = Page ms pg -> In d ms ->
      d !! "rejectionReason" = None
      /\ (d !! "uploadedBy" = Some VNull
          \/ exists u : gmap string Val,
               d !! "uploadedBy" = Some (VDoc u)
               /\ (forall k : string, is_Some (u !! k) ->
                             In k ["_id"; "firstName"; "lastName"])
               /\ u !! "email" = None /\ u !! "password" = None))
  /\ (forall caller db r db' ms n (d : gmap string Val),
        get_my_models caller db = (Done r, db') ->
        data r = Models ms n -> In d ms ->
        d !! "uploadedBy" = None
        /\ exists m,
             In m (models db) /\ Model.uploadedBy m = caller
             /\ d !! "rejectionReason" = VStr <$> Model.rejectionReason m).
Proof.
  split.
  - intros q db r db' ms pg d Hrun Hdata Hin.
    destruct (build_filter_outcome q db) as [(f & Hf) | Hraise].
    + rewrite (get_models_runs q f db Hf) in Hrun.
      apply done_inj in Hrun as [<- <-].
      cbn [data ok] in Hdata. apply Page_inj in Hdata as [<- <-].
      apply in_map_iff in Hin as (m & <- & _).
      destruct (public_view_paths (users db) m) as (Hr & [Hnull | (u & Hu & Hk)]).
      * split; [exact Hr | now left].
      * split; [exact Hr|]. right. exists u. split; [exact Hu|].
        split; [exact Hk|]. split.
        -- destruct (u !! "email") eqn:He; [|easy]. exfalso.
           destruct (Hk "email" (mk_is_Some _ _ He)) as [H|[H|[H|[]]]];
             discriminate.
        -- destruct (u !! "password") eqn:He; [|easy]. exfalso.
           destruct (Hk "password" (mk_is_Some _ _ He)) as [H|[H|[H|[]]]];
             discriminate.
    + unfold get_models in Hrun.
      rewrite (try_catch_raise _ _ _ _ _ (bind_raise _ _ _ _ _ Hraise)) in Hrun.
      apply done_inj in Hrun as [<- <-]. discriminate.
  - intros caller db r db' ms n d Hrun Hdata Hin.
    rewrite get_my_models_runs in Hrun. apply done_inj in Hrun as [<- <-].
    cbn [data ok] in Hdata. apply Models_inj in Hdata as <-.
    apply in_map_iff in Hin as (m & <- & Hin). split; [apply lookup_delete_eq|].
    apply sort_by_in, filter_In in Hin as [Hin Hown].
    exists m. split; [exact Hin|]. split; [now apply String.eqb_eq|].
    unfold deselect. rewrite lookup_delete_ne by done.
    apply model_doc_rejectionReason.
Qed.

(** *** Arithmetic of the pagination block *)





End Properties.

(** ** The invariants of the collection *)

Lemma keeps_pure {A} (m : M A) :
  (forall db, exists out, m db = (out, db)) -> keeps m.
Proof.
  intros Hm db out db' Hdb Hrun. destruct (Hm db) as (o & Ho).
  rewrite Ho in Hrun. now injection Hrun as _ <-.
Qed.

Lemma keeps_ret {A} (a : A) : keeps (ret a).
Proof. apply keeps_pure. intros db. now exists (Done a). Qed.

Lemma keeps_throw {A} e : keeps (throw (A:=A) e).
Proof. apply keeps_pure. intros db. now exists (Raise e). Qed.

Lemma keeps_cast raw : keeps (cast raw).
Proof.
  apply keeps_pure. intros db. unfold cast.
  destruct (castObjectId raw); eexists; reflexivity.
Qed.

Lemma keeps_findOne p : keeps (findOne p).
Proof. apply keeps_pure. intros db. eexists. reflexivity. Qed.

Lemma keeps_bind {A B} (m : M A) (k : A -> M B) :
  keeps m -> (forall a, keeps (k a)) -> keeps (bind m k).
Proof.
  intros Hm Hk db out db' Hdb Hrun. unfold bind in Hrun.
  destruct (m db) as [[a | e |] db1] eqn:Hm1.
  - apply (Hk a db1 out db'); [|exact Hrun]. apply (Hm db _ _ Hdb Hm1).
  - injection Hrun as _ <-. apply (Hm db _ _ Hdb Hm1).
  - injection Hrun as _ <-. apply (Hm db _ _ Hdb Hm1).
Qed.

Lemma keeps_try_catch {A} (m : M A) h :
  keeps m -> (forall e, keeps (h e)) -> keeps (try_catch m h).
Proof.
  intros Hm Hh db out db' Hdb Hrun. unfold try_catch in Hrun.
  destruct (m db) as [[a | e |] db1] eqn:Hm1.
  - injection Hrun as _ <-. apply (Hm db _ _ Hdb Hm1).
  - apply (Hh e db1 out db'); [|exact Hrun]. apply (Hm db _ _ Hdb Hm1).
  - injection Hrun as _ <-. apply (Hm db _ _ Hdb Hm1).
Qed.

(** A read of the database followed by the write of a function of it. *)
Lemma keeps_modify (f : Db -> Db) :
  (forall db, consistent db -> consistent (f db)) ->
  keeps (let* db := get_db in put_db (f db)).
Proof.
  intros Hf db out db' Hdb Hrun. unfold bind, get_db, put_db in Hrun.
  injection Hrun as _ <-. now apply Hf.
Qed.

Lemma map_id_replace_doc d l :
  List.map Model._id (replace_doc d l) = List.map Model._id l.
Proof.
  induction l as [|x l IH]; simpl; [easy|]. rewrite IH. f_equal.
  unfold has_id, id_eqb.
  now destruct (String.eqb_spec (Model._id x) (Model._id d)).
Qed.

Lemma in_replace_doc_inv d l z : In z (replace_doc d l) -> z = d \/ In z l.
Proof.
  unfold replace_doc. intros Hz. apply in_map_iff in Hz as (x & Hx & Hin).
  destruct (has_id (Model._id d) x); [left; now symmetry | right; now subst].
Qed.

Lemma replace_doc_absent d l :
  ~ In (Model._id d) (List.map Model._id l) -> replace_doc d l = l.
Proof.
  induction l as [|x l IH]; simpl; [easy|]. intros Hnot.
  unfold has_id at 1, id_eqb.
  destruct (String.eqb_spec (Model._id x) (Model._id d)) as [Heq | Hne].
  - exfalso. apply Hnot. now left.
  - f_equal. apply IH. intros Hin. apply Hnot. now right.
Qed.

Lemma slugs_replace_doc d l :
  List.NoDup (List.map Model.slug l) ->
  List.NoDup (List.map Model._id l) ->
  ~ held_by_another (Model._id d) l (Model.slug d) ->
  List.NoDup (List.map Model.slug (replace_doc d l)).
Proof.
  induction l as [|x l IH]; simpl; [constructor|]. intros Hslugs Hids Hfree.
  inversion Hslugs as [|? ? Hsx Hsl]; subst.
  inversion Hids as [|? ? Hix Hil]; subst.
  assert (Hfree' : ~ held_by_another (Model._id d) l (Model.slug d)).
  { intros (m & Hin & Hm). apply Hfree. exists m. split; [now right | exact Hm]. }
  unfold has_id at 1, id_eqb.
  destruct (String.eqb_spec (Model._id x) (Model._id d)) as [Heq | Hne].
  - rewrite replace_doc_absent by now rewrite <- Heq.
    constructor; [|exact Hsl]. intros Hin.
    apply in_map_iff in Hin as (y & Hy & Hin). apply Hfree'. exists y.
    split; [exact Hin|]. split; [|exact Hy]. intros Hyd. apply Hix.
    rewrite Heq, <- Hyd. now apply in_map.
  - constructor; [|now apply IH]. intros Hin.
    apply in_map_iff in Hin as (y & Hy & Hin).
    apply in_replace_doc_inv in Hin as [-> | Hin].
    + apply Hfree. exists x. split; [now left|]. split; [exact Hne | now symmetry].
    + apply Hsx. rewrite <- Hy. now apply in_map.
Qed.

Lemma NoDup_map_filter {A B} (f : A -> B) p l :
  List.NoDup (List.map f l) -> List.NoDup (List.map f (List.filter p l)).
Proof.
  induction l as [|x l IH]; simpl; [easy|]. intros Hnd.
  inversion Hnd as [|? ? Hx Hl]; subst.
  destruct (p x); simpl; [|now apply IH]. constructor; [|now apply IH].
  intros Hin. apply Hx. apply in_map_iff in Hin as (y & Hy & Hin).
  apply filter_In in Hin as [Hin _]. rewrite <- Hy. now apply in_map.
Qed.

Lemma held_iff_existsb self s l :
  existsb (slug_of_another self s) l = false -> ~ held_by_another self l s.
Proof.
  intros Hex (m & Hin & Hid & Hs).
  assert (Ht : existsb (slug_of_another self s) l = true); [|congruence].
  apply existsb_exists. exists m. split; [exact Hin|].
  unfold slug_of_another, id_eqb. rewrite Hs, String.eqb_refl. simpl.
  now apply negb_true_iff, String.eqb_neq.
Qed.

(** [save] keeps the collection consistent: its validators and the unique
    indexes refuse every write that would not. *)
Lemma keeps_save doc : keeps (save doc).
Proof.
  intros db out db' Hdb Hrun. unfold save in Hrun.
  destruct (Model.valid (fields doc)) eqn:Hvalid;
    [change (negb true) with false in Hrun
    | change (negb false) with true in Hrun]; cbv iota in Hrun;
    [|unfold throw in Hrun; now injection Hrun as _ <-].
  destruct (pre_save_runs doc db) as (d' & Hpre & Hfrom).
  rewrite (bind_done _ _ _ _ _ Hpre) in Hrun. cbn [fields isNew] in Hrun.
  unfold bind at 1, get_db in Hrun.
  destruct (saved_from_rest _ _ _ Hfrom) as (_ & _ & _ & _ & _ & Hv).
  rewrite Hvalid in Hv. destruct Hdb as (Hids & Hslugs & Hall).
  destruct (isNew doc).
  - destruct (existsb (has_id (Model._id d')) (models db)) eqn:Hid;
      [unfold throw in Hrun; injection Hrun as _ <-; easy|].
    destruct (existsb (fun m => String.eqb (Model.slug m) (Model.slug d'))
                (models db)) eqn:Hslug;
      [unfold throw in Hrun; injection Hrun as _ <-; easy|].
    cbn [orb] in Hrun. unfold bind, put_db, ret in Hrun.
    injection Hrun as _ <-. unfold consistent, unique_ids, unique_slugs.
    cbn [models]. rewrite !map_app. simpl. repeat split.
    + apply List.NoDup_app; [exact Hids | repeat constructor; now intros [] |].
      intros i Hi [<- | []]. apply in_map_iff in Hi as (m & Hm & Hin).
      assert (Ht : existsb (has_id (Model._id d')) (models db) = true);
        [|congruence].
      apply existsb_exists. exists m. split; [exact Hin|].
      unfold has_id, id_eqb. now apply String.eqb_eq.
    + apply List.NoDup_app; [exact Hslugs | repeat constructor; now intros [] |].
      intros i Hi [<- | []]. apply in_map_iff in Hi as (m & Hm & Hin).
      assert (Ht : existsb (fun m => String.eqb (Model.slug m) (Model.slug d'))
                     (models db) = true); [|congruence].
      apply existsb_exists. exists m. split; [exact Hin|].
      now apply String.eqb_eq.
    + apply List.Forall_app. split; [exact Hall | now constructor].
  - destruct (existsb (slug_of_another (Model._id d') (Model.slug d')) (models db))
      eqn:Hslug; [unfold throw in Hrun; injection Hrun as _ <-; easy|].
    unfold bind, put_db, ret in Hrun. injection Hrun as _ <-.
    unfold consistent, unique_ids, unique_slugs. cbn [models]. repeat split.
    + now rewrite map_id_replace_doc.
    + apply slugs_replace_doc; [exact Hslugs | exact Hids|].
      now apply held_iff_existsb.
    + apply List.Forall_forall. intros z Hz.
      apply in_replace_doc_inv in Hz as [-> | Hz]; [exact Hv|].
      rewrite List.Forall_forall in Hall. now apply Hall.
Qed.

Lemma keeps_update_user i f : keeps (update_user i f).
Proof.
  unfold update_user.
  apply (keeps_modify (fun db => mkDb (models db) (List.map _ (users db)))).
  now intros db.
Qed.

Lemma keeps_findByIdAndDelete raw : keeps (findByIdAndDelete raw).
Proof.
  unfold findByIdAndDelete. apply keeps_bind; [apply keeps_cast|]. intros i.
  apply (keeps_modify
           (fun db => mkDb (List.filter (fun m => negb (has_id i m)) (models db))
                        (users db))).
  intros db (Hids & Hslugs & Hall). repeat split.
  - now apply NoDup_map_filter.
  - now apply NoDup_map_filter.
  - cbn [models]. apply List.Forall_forall. intros z Hz.
    apply filter_In in Hz as [Hz _]. rewrite List.Forall_forall in Hall.
    now apply Hall.
Qed.

Lemma keeps_get_db_then {A} (k : Db -> M A) :
  (forall db0, keeps (k db0)) -> keeps (let* db := get_db in k db).
Proof.
  intros Hk. apply keeps_bind; [|exact Hk].
  apply keeps_pure. intros db. eexists. reflexivity.
Qed.

(** Every handler that writes leaves the collection consistent: unique
    ids, unique slugs, valid documents.  In particular no two persisted
    listings ever share a slug. *)
Lemma handlers_keep_consistent (is_uri : string -> bool) :
  (forall caller new_id now body, keeps (post_model is_uri caller new_id now body))
  /\ (forall caller id body, keeps (put_model is_uri caller id body))
  /\ (forall caller id, keeps (delete_model caller id))
  /\ (forall id body, keeps (put_admin_status id body)).
Proof.
  split; [|split; [|split]].
  - intros caller new_id now body. unfold post_model.
    apply keeps_try_catch; [|intros e; apply keeps_ret].
    destruct (validate is_uri body); [|apply keeps_ret].
    apply keeps_bind; [apply keeps_findOne|]. intros [m|]; [apply keeps_ret|].
    apply keeps_bind; [apply keeps_save|]. intros model.
    apply keeps_bind; [apply keeps_update_user | intros _; apply keeps_ret].
  - intros caller id body. unfold put_model.
    apply keeps_try_catch; [|intros e; apply keeps_ret].
    apply keeps_bind; [apply keeps_cast|]. intros i.
    apply keeps_bind; [apply keeps_findOne|]. intros [m|]; [|apply keeps_ret].
    destruct (Status_eqb (Model.status m) approved); [apply keeps_ret|].
    destruct (validate is_uri body); [|apply keeps_ret].
    apply keeps_bind; [apply keeps_save | intros saved; apply keeps_ret].
  - intros caller id. unfold delete_model.
    apply keeps_try_catch; [|intros e; apply keeps_ret].
    apply keeps_bind; [apply keeps_cast|]. intros i.
    apply keeps_bind; [apply keeps_findOne|]. intros [m|]; [|apply keeps_ret].
    apply keeps_bind; [apply keeps_findByIdAndDelete|]. intros _.
    apply keeps_bind; [|intros _; apply keeps_ret].
    unfold pull_uploadedModel. apply keeps_bind; [apply keeps_cast|].
    intros m'. apply keeps_update_user.
  - intros id body. unfold put_admin_status.
    apply keeps_try_catch; [|intros e; apply keeps_ret].
    destruct (StatusBody.status body ≫= Status_of_text) as [st|];
      [|apply keeps_ret].
    destruct (Status_eqb st rejected && _); [apply keeps_ret|].
    apply keeps_bind; [apply keeps_cast|]. intros i.
    apply keeps_bind; [apply keeps_findOne|]. intros [m|]; [|apply keeps_ret].
    apply keeps_bind; [apply keeps_save|]. intros saved.
    apply keeps_get_db_then. intros db0. apply keeps_ret.
Qed.

(** The empty collection is consistent. *)
Lemma empty_consistent us : consistent (mkDb [] us).
Proof. repeat split; constructor. Qed.

(** ** The properties on sample data *)

Lemma sample_consistent m :
  Model.valid m = true -> consistent (Sample.db_with m).
Proof.
  intros Hv. repeat split; simpl.
  - constructor; [intros [] | constructor].
  - constructor; [intros [] | constructor].
  - constructor; [exact Hv | constructor].
Defined.

Lemma approved_listing_is_frozen_witness :
  put_model Sample.uri Sample.alice "64B000000000000000000001" Sample.malformed
    (Sample.db_with (Sample.bot approved None))
  = (Done approved_is_frozen, Sample.db_with (Sample.bot approved None)).
Proof.
  apply (approved_listing_is_frozen Sample.uri Sample.alice
           "64B000000000000000000001" Sample.malformed
           (Sample.db_with (Sample.bot approved None))
           (Sample.bot approved None)).
  - apply sample_consistent. reflexivity.
  - left. reflexivity.
  - reflexivity.
  - reflexivity.
  - reflexivity.
Defined.

Lemma non_owner_gets_not_found_witness :
  put_model Sample.uri Sample.bob Sample.first_id (Sample.body "Bot Y")
    (Sample.db_with (Sample.bot approved None))
  = (Done not_yours_to_edit, Sample.db_with (Sample.bot approved None))
  /\ delete_model Sample.bob Sample.first_id
       (Sample.db_with (Sample.bot approved None))
     = (Done not_yours_to_delete, Sample.db_with (Sample.bot approved None)).
Proof.
  destruct (non_owner_gets_not_found Sample.uri Sample.bob Sample.first_id
              (Sample.body "Bot Y") (Sample.db_with (Sample.bot approved None))
              (Sample.bot approved None)) as (Hput & Hdel & _).
  - apply sample_consistent. reflexivity.
  - left. reflexivity.
  - reflexivity.
  - discriminate.
  - split; [exact Hput | exact Hdel].
Defined.

Lemma edit_of_rejected_resets_witness :
  exists m',
    put_model Sample.uri Sample.alice Sample.first_id (Sample.body "Bot X")
      (Sample.db_with (Sample.bot rejected (Some "too niche")))
    = (Done (ok (Some "Model updated successfully") (Saved m' None)),
       mkDb [m'] Sample.users)
    /\ Model.status m' = pending
    /\ Model.rejectionReason m' = None.
Proof.
  destruct (edit_of_rejected_resets Sample.uri Sample.alice Sample.first_id
              (Sample.body "Bot X")
              (Sample.db_with (Sample.bot rejected (Some "too niche")))
              (Sample.bot rejected (Some "too niche")) (Sample.value "Bot X"))
    as (m' & Hrun & _ & Hid & Hst & Hreason).
  - apply sample_consistent. reflexivity.
  - left. reflexivity.
  - reflexivity.
  - reflexivity.
  - discriminate.
  - reflexivity.
  - reflexivity.
  - exists m'. split; [|split; [exact Hst | now apply Hreason]].
    rewrite Hrun. unfold replace_doc, Sample.db_with, has_id, id_eqb. simpl.
    rewrite Hid. reflexivity.
Defined.

Lemma admin_sets_status_witness :
  put_admin_status Sample.first_id (StatusBody.mk (Some "archived") None)
    (Sample.db_with (Sample.bot pending None))
  = (Done invalid_status, Sample.db_with (Sample.bot pending None))
  /\ put_admin_status Sample.first_id (StatusBody.mk (Some "rejected") (Some ""))
       (Sample.db_with (Sample.bot pending None))
     = (Done reason_required, Sample.db_with (Sample.bot pending None))
  /\ (exists m' owner,
        put_admin_status Sample.first_id
          (StatusBody.mk (Some "rejected") (Some "too niche"))
          (Sample.db_with (Sample.bot pending None))
        = (Done (ok (Some "Model rejected successfully") (Saved m' owner)),
           mkDb (replace_doc m' [Sample.bot pending None]) Sample.users)
        /\ Model.status m' = rejected
        /\ Model.rejectionReason m' = Some "too niche")
  /\ put_admin_status Sample.second_id (StatusBody.mk (Some "approved") None)
       (Sample.db_with (Sample.bot pending None))
     = (Done model_not_found, Sample.db_with (Sample.bot pending None)).
Proof.
  split; [|split; [|split]].
  - apply (proj1 (admin_sets_status Sample.first_id
                    (StatusBody.mk (Some "archived") None)
                    (Sample.db_with (Sample.bot pending None)))).
    reflexivity.
  - apply (proj1 (proj2 (admin_sets_status Sample.first_id
                           (StatusBody.mk (Some "rejected") (Some ""))
                           (Sample.db_with (Sample.bot pending None))))).
    + reflexivity.
    + reflexivity.
  - destruct (proj1 (proj2 (proj2
                (admin_sets_status Sample.first_id
                   (StatusBody.mk (Some "rejected") (Some "too niche"))
                   (Sample.db_with (Sample.bot pending None)))))
                rejected (Sample.bot pending None))
      as (m' & owner & Hrun & _ & Hst & Hreason).
    + split; [reflexivity | intros _; reflexivity].
    + apply sample_consistent. reflexivity.
    + left. reflexivity.
    + reflexivity.
    + exists m', owner. split; [exact Hrun | split; [exact Hst | exact Hreason]].
  - apply (proj1 (proj2 (proj2 (proj2
             (admin_sets_status Sample.second_id
                (StatusBody.mk (Some "approved") None)
                (Sample.db_with (Sample.bot pending None))))))
             approved Sample.second_id).
    + split; [reflexivity | discriminate].
    + reflexivity.
    + simpl. intros [H | []]. discriminate.
Defined.

(** C3, the claim as it stands, fails: the reason stored for a rejection is
    the given text with its surrounding white space removed, not the given
    text; and for a malformed id, which no listing has, the reply is that
    of the catch-all (status 500), not not-found. *)
Lemma admin_reason_is_trimmed :
  (exists m' owner,
     put_admin_status Sample.first_id
       (StatusBody.mk (Some "rejected") (Some " too niche "))
       (Sample.db_with (Sample.bot pending None))
     = (Done (ok (Some "Model rejected successfully") (Saved m' owner)),
        Sample.db_with m')
     /\ Model.rejectionReason m' = Some "too niche"
     /\ Model.rejectionReason m' <> Some " too niche ")
  /\ put_admin_status "no-such-id" (StatusBody.mk (Some "approved") None)
       (Sample.db_with (Sample.bot pending None))
     = (Done internal_error, Sample.db_with (Sample.bot pending None))
  /\ internal_error <> model_not_found.
Proof.
  split; [|split; [reflexivity | discriminate]].
  do 2 eexists. split; [vm_compute; reflexivity|]. split; [reflexivity | discriminate].
Qed.

Lemma slug_is_first_free_candidate_witness :
  (exists m' r us,
     post_model Sample.uri Sample.bob Sample.second_id 2 (Sample.body "Bot X")
       (Sample.db_with (Sample.bot approved None))
     = (Done r, mkDb ([Sample.bot approved None] ++ [m']) us)
     /\ Model.slug m' = "bot-x-1")
  /\ (exists m',
        put_model Sample.uri Sample.alice Sample.first_id (Sample.body "GPT 4!")
          (Sample.db_with (Sample.bot pending None))
        = (Done (ok (Some "Model updated successfully") (Saved m' None)),
           mkDb (replace_doc m' [Sample.bot pending None]) Sample.users)
        /\ Model.slug m' = "gpt-4").
Proof.
  split.
  - destruct (proj1 (slug_is_first_free_candidate Sample.uri)
                Sample.bob Sample.second_id 2 (Sample.body "Bot X")
                (Sample.db_with (Sample.bot approved None))
                (Sample.value "Bot X"))
      as (m' & r & us & Hrun & _ & Hid & Hname & Hfirst).
    + reflexivity.
    + reflexivity.
    + simpl. intros [H | []]. discriminate.
    + reflexivity.
    + exists m', r, us. split; [exact Hrun|].
      rewrite Hname in Hfirst. destruct Hfirst as (k & Hs & Hfree & Hheld).
      destruct k as [|[|k]].
      * exfalso. apply Hfree. exists (Sample.bot approved None).
        split; [now left|]. split; [discriminate|].
        rewrite Hs. reflexivity.
      * rewrite Hs. reflexivity.
      * exfalso. destruct (Hheld 1%nat ltac:(lia)) as (m & [<- | []] & _ & Hm).
        discriminate.
  - destruct (proj2 (slug_is_first_free_candidate Sample.uri)
                Sample.alice Sample.first_id (Sample.body "GPT 4!")
                (Sample.db_with (Sample.bot pending None))
                (Sample.bot pending None) (Sample.value "GPT 4!"))
      as (m' & Hrun & _ & Hid & Hname & Hfirst).
    + apply sample_consistent. reflexivity.
    + left. reflexivity.
    + reflexivity.
    + reflexivity.
    + discriminate.
    + reflexivity.
    + reflexivity.
    + discriminate.
    + exists m'. split; [exact Hrun|].
      rewrite Hname in Hfirst. destruct Hfirst as (k & Hs & Hfree & Hheld).
      destruct k as [|k]; [rewrite Hs; reflexivity|].
      exfalso. destruct (Hheld 0%nat ltac:(lia)) as (m & [<- | []] & Hne & _).
      now apply Hne.
Defined.

Lemma public_collection_query_witness :
  let q := Query.mk (Some "chatbots") None None None (Some "Reason") in
  let db := Sample.db_with (Sample.bot approved None) in
  get_models Sample.regex q db
  = (Done (ok None
             (Page [public_view Sample.users (Sample.bot approved None)]
                (mkPagination 1 1 1 false false))),
     db).
Proof.
  intros q db.
  destruct (public_collection_query Sample.regex q db) as [Hrun _].
  - intros term _ _. reflexivity.
  - rewrite Hrun. reflexivity.
Defined.

(** C5, the claim as it stands, fails: with the category filter [all] the
    query returns an approved listing of the category [chatbots], which
    does not equal the filter. *)
Lemma category_all_is_no_filter :
  let q := Query.mk (Some "all") None None None None in
  let db := Sample.db_with (Sample.bot approved None) in
  get_models Sample.regex q db
  = (Done (ok None
             (Page [public_view Sample.users (Sample.bot approved None)]
                (mkPagination 1 1 1 false false))),
     db)
  /\ Model.category (Sample.bot approved None) <> "all"
  /\ List.filter (literal_match q) (models db) = [].
Proof.
  intros q db. split; [|split; [discriminate | reflexivity]].
  vm_compute. reflexivity.
Qed.

Lemma projections_of_the_listings_witness :
  let d := public_view Sample.users (Sample.bot approved None) in
  d !! "rejectionReason" = None
  /\ (exists u : gmap string Val,
        d !! "uploadedBy" = Some (VDoc u)
        /\ u !! "firstName" = Some (VStr "Alice")
        /\ u !! "email" = None /\ u !! "password" = None)
  /\ deselect "uploadedBy" (model_doc (Sample.bot rejected (Some "too niche")))
       !! "uploadedBy" = None.
Proof.
  intros d.
  destruct (proj1 (projections_of_the_listings Sample.regex)
              (Sample.everything 20) (Sample.db_with (Sample.bot approved None))
              (ok None (Page [d] (mkPagination 1 1 1 false false)))
              (Sample.db_with (Sample.bot approved None))
              [d] (mkPagination 1 1 1 false false) d)
    as (Hreason & [Hnull | (u & Hu & _ & Hemail & Hpassword)]).
  - vm_compute. reflexivity.
  - reflexivity.
  - left. reflexivity.
  - exfalso. vm_compute in Hnull. discriminate.
  - split; [exact Hreason|]. split.
    + exists u. split; [exact Hu|]. split; [|split; assumption].
      vm_compute in Hu. injection Hu as <-. reflexivity.
    + apply (proj2 (projections_of_the_listings Sample.regex) Sample.alice
               (Sample.db_with (Sample.bot rejected (Some "too niche")))
               (ok None
                  (Models
                     [deselect "uploadedBy"
                        (model_doc (Sample.bot rejected (Some "too niche")))]
                     1))
               (Sample.db_with (Sample.bot rejected (Some "too niche")))
               [deselect "uploadedBy"
                  (model_doc (Sample.bot rejected (Some "too niche")))]
               1%nat).
      * vm_compute. reflexivity.
      * reflexivity.
      * left. reflexivity.
Defined.

(** C7, the claim as it stands, fails: the my-models listing of an owner
    carries the rejection reason of a rejected listing. *)
Lemma my_models_show_the_rejection_reason :
  exists d : gmap string Val,
    get_my_models Sample.alice
      (Sample.db_with (Sample.bot rejected (Some "too niche")))
    = (Done (ok None (Models [d] 1)),
       Sample.db_with (Sample.bot rejected (Some "too niche")))
    /\ d !! "rejectionReason" = Some (VStr "too niche").
Proof.
  eexists. split; [vm_compute; reflexivity | reflexivity].
Qed.

(** C6: the page size is not clamped.  A query with [limit=150] over 150
    approved listings receives all 150 on one page, where a page size
    clamped to 100 would give 100 listings and two pages. *)
Theorem limit_is_not_clamped :
  exists ms pg,
    get_models Sample.regex (Sample.everything 150)
      (mkDb (Sample.crowd 150) Sample.users)
    = (Done (ok None (Page ms pg)), mkDb (Sample.crowd 150) Sample.users)
    /\ length ms = 150%nat
    /\ totalPages pg = 1 /\ hasNext pg = false.
Proof.
  pose proof (get_models_plain Sample.regex (Sample.everything 150)
                (mkDb (Sample.crowd 150) Sample.users)) as Hrun.
  do 2 eexists. split; [apply Hrun; intros term Hterm; discriminate|].
  split; [|split].
  - vm_compute. reflexivity.
  - vm_compute. reflexivity.
  - vm_compute. reflexivity.
Qed.

(** C9: a name without a letter or a digit is given the empty slug, and
    the next such name the slug [-1]; neither is a non-empty slug of the
    shape [^[a-z0-9]+(-[a-z0-9]+)*$]. *)
Theorem name_without_alphanumerics_has_empty_slug :
  exists m1 r1 db1 m2 r2 db2,
    validate Sample.uri (Sample.body "!!!") = Valid (Sample.value "!!!")
    /\ post_model Sample.uri Sample.alice Sample.first_id 1 (Sample.body "!!!")
         Sample.empty = (Done r1, db1)
    /\ code r1 = 201 /\ models db1 = [m1] /\ Model.slug m1 = ""
    /\ post_model Sample.uri Sample.bob Sample.second_id 2 (Sample.body "???")
         db1 = (Done r2, db2)
    /\ code r2 = 201 /\ models db2 = [m1; m2] /\ Model.slug m2 = "-1"
    /\ slug_shape (Model.slug m1) = false
    /\ slug_shape (Model.slug m2) = false.
Proof.
  do 6 eexists. split; [reflexivity|].
  split; [vm_compute; reflexivity|]. split; [reflexivity|].
  split; [reflexivity|]. split; [reflexivity|].
  split; [vm_compute; reflexivity|]. repeat split.
Qed.

(** ** The examples of the specification *)

Example slug_of_gpt4 : baseSlug "GPT 4!" = "gpt-4" /\ baseSlug "GPT-4" = "gpt-4".
Proof. split; reflexivity. Qed.

Example shapes :
  slug_shape "gpt-4" = true /\ slug_shape "bot-x-1" = true
  /\ slug_shape "a--b" = false /\ slug_shape "a-" = false
  /\ slug_shape "-a" = false /\ slug_shape "Ab" = false.
Proof. repeat split. Qed.

(** "Bot X" becomes [bot-x]; the same name by another owner becomes
    [bot-x-1]; the same name by the first owner again is refused before a
    slug is generated. *)
Example bot_x_scenario :
  exists db1 db2 r1 r2,
    post_model Sample.uri Sample.alice Sample.first_id 1 (Sample.body "Bot X")
      Sample.empty = (Done r1, db1)
    /\ List.map Model.slug (models db1) = ["bot-x"]
    /\ post_model Sample.uri Sample.bob Sample.second_id 2 (Sample.body "Bot X")
         db1 = (Done r2, db2)
    /\ List.map Model.slug (models db2) = ["bot-x"; "bot-x-1"]
    /\ post_model Sample.uri Sample.alice "64b000000000000000000003" 3
         (Sample.body "Bot X") db2 = (Done duplicate_name, db2).
Proof.
  do 4 eexists. split; [vm_compute; reflexivity|]. split; [reflexivity|].
  split; [vm_compute; reflexivity|]. split; reflexivity.
Qed.

(** A listing with the tag [reasoning] and the short description
    [fast inference] is found by [reason] and by [infer], not by [xyz]. *)
Example search_terms :
  let m := Sample.bot approved None in
  let q term := Query.mk None None None None (Some term) in
  public_match (q "reason") m = true
  /\ public_match (q "infer") m = true
  /\ public_match (q "xyz") m = false.
Proof. repeat split. Qed.

(** 95 listings in pages of 20: five pages, and the fifth has a page
    before it and none after. *)
Example pagination_of_95 :
  pagination (Query.mk None None (Some 5%positive) (Some 20%positive) None) 95
  = mkPagination 5 5 95 false true.
Proof. reflexivity. Qed.

(** * Further properties of the handlers

    What each handler may write, what every request answers, the
    invariants that sequences of requests keep, and the behaviour of the
    single routes at their edges. *)

(** ** What a request may write *)

(** [save] throws and writes nothing, or writes the document the hook
    completed: appended when new, in the place of the one with its id
    otherwise. *)
Lemma save_cases doc db :
  (exists e, save doc db = (Raise e, db))
  \/ exists d',
       saved_from doc db d' /\ Model.valid (fields doc) = true
       /\ (isNew doc = true ->
           existsb (has_id (Model._id d')) (models db) = false)
       /\ save doc db
          = (Done d',
             mkDb (if isNew doc then models db ++ [d']
                   else replace_doc d' (models db)) (users db)).
Proof.
  remember (save doc db) as r eqn:Hr. unfold save in Hr.
  destruct (Model.valid (fields doc)) eqn:Hvalid;
    [change (negb true) with false in Hr
    | change (negb false) with true in Hr]; cbv iota in Hr;
    [|left; now exists ValidationError].
  destruct (pre_save_runs doc db) as (d' & Hpre & Hfrom).
  rewrite (bind_done _ _ _ _ _ Hpre) in Hr. cbn [fields isNew] in Hr.
  unfold bind at 1, get_db in Hr. destruct (isNew doc).
  - destruct (existsb (has_id (Model._id d')) (models db)) eqn:Hid;
      [left; now exists DuplicateKey|].
    destruct (existsb _ (models db)) in Hr; [left; now exists DuplicateKey|].
    right. exists d'. split; [exact Hfrom|]. split; [reflexivity|].
    split; [intros _; exact Hid | exact Hr].
  - destruct (existsb _ _); [left; now exists DuplicateKey|].
    right. exists d'. split; [exact Hfrom|]. split; [reflexivity|].
    split; [discriminate | exact Hr].
Qed.

Section Effects.

Variable is_uri : string -> bool.
Variable RegExp_i : string -> option (string -> bool).

(** The effect of [POST /]: nothing, or one listing appended and its id
    pushed to the uploads of the caller. *)
Lemma post_model_effect caller new_id now body db :
  (exists reply, post_model is_uri caller new_id now body db = (Done reply, db)
                 /\ 400 <= code reply)
  \/ exists v m',
       validate is_uri body = Valid v
       /\ saved_from (new_Model new_id now v caller) db m'
       /\ Model.valid (fields (new_Model new_id now v caller)) = true
       /\ List.find (fun m => String.eqb (Model.name m) (Value.name v)
                              && id_eqb (Model.uploadedBy m) caller)
            (models db) = None
       /\ existsb (has_id new_id) (models db) = false
       /\ post_model is_uri caller new_id now body db
          = (Done (uploaded m'),
             mkDb (models db ++ [m']) (pushed caller (Model._id m') (users db))).
Proof.
  remember (post_model is_uri caller new_id now body db) as r eqn:Hr.
  unfold post_model, try_catch in Hr.
  destruct (validate is_uri body) as [v|d] eqn:Hv;
    [|left; eexists; split; [exact Hr | easy]].
  unfold bind at 1, findOne in Hr.
  destruct (List.find _ (models db)) eqn:Hfind;
    [left; eexists; split; [exact Hr | easy]|].
  destruct (save_cases (new_Model new_id now v caller) db)
    as [(e & Hsave) | (m' & Hfrom & Hvalid & Hfresh & Hsave)].
  - rewrite (bind_raise _ _ _ _ _ Hsave) in Hr.
    left. eexists. split; [exact Hr | easy].
  - rewrite (bind_done _ _ _ _ _ Hsave) in Hr. right. exists v, m'.
    split; [reflexivity|]. split; [exact Hfrom|]. split; [exact Hvalid|].
    split; [exact Hfind|]. split; [|exact Hr].
    pose proof (saved_from_id _ _ _ Hfrom) as Hid.
    cbn [fields new_Model Model._id] in Hid. rewrite <- Hid. now apply Hfresh.
Qed.

(** The effect of [PUT /:id]: nothing, or the edited document written in
    the place of a listing of the caller that is not approved. *)
Lemma put_model_effect caller id body db :
  (exists reply, put_model is_uri caller id body db = (Done reply, db)
                 /\ 400 <= code reply)
  \/ exists i m v m',
       castObjectId id = Some i
       /\ List.find (owned_by i caller) (models db) = Some m
       /\ Model.status m <> approved
       /\ validate is_uri body = Valid v
       /\ saved_from (edited m v) db m'
       /\ put_model is_uri caller id body db
          = (Done (ok (Some "Model updated successfully") (Saved m' None)),
             mkDb (replace_doc m' (models db)) (users db)).
Proof.
  remember (put_model is_uri caller id body db) as r eqn:Hr.
  unfold put_model, try_catch, cast in Hr.
  destruct (castObjectId id) as [i|] eqn:Hcast;
    [|left; eexists; split; [exact Hr | easy]].
  unfold bind at 1, ret in Hr. unfold bind at 1, findOne in Hr.
  destruct (List.find (owned_by i caller) (models db)) as [m|] eqn:Hfind;
    [|left; eexists; split; [exact Hr | easy]].
  destruct (Status_eqb (Model.status m) approved) eqn:Hst;
    [left; eexists; split; [exact Hr | easy]|].
  destruct (validate is_uri body) as [v|d] eqn:Hv;
    [|left; eexists; split; [exact Hr | easy]].
  change (if Status_eqb (Model.status (fields (assign (hydrate m) v))) rejected
          then with_fields
                 (fun d => Model.set_rejectionReason None
                             (Model.set_status pending d))
                 (assign (hydrate m) v)
          else assign (hydrate m) v) with (edited m v) in Hr.
  destruct (save_cases (edited m v) db)
    as [(e & Hsave) | (m' & Hfrom & Hvalid & _ & Hsave)].
  - rewrite (bind_raise _ _ _ _ _ Hsave) in Hr.
    left. eexists. split; [exact Hr | easy].
  - rewrite (bind_done _ _ _ _ _ Hsave) in Hr. right. exists i, m, v, m'.
    split; [reflexivity|]. split; [exact Hfind|]. split.
    { intros Heq. rewrite Heq in Hst. discriminate. }
    split; [reflexivity|]. split; [exact Hfrom|].
    destruct (edited_paths m v) as (Hnew & _). rewrite Hnew in Hr. exact Hr.
Qed.



(** The effect of [DELETE /:id]: nothing, or the listing removed and its id
    pulled from the uploads of the caller. *)
Lemma delete_model_effect caller id db :
  (exists reply, delete_model caller id db = (Done reply, db)
                 /\ 400 <= code reply)
  \/ exists i m,
       castObjectId id = Some i
       /\ List.find (owned_by i caller) (models db) = Some m
       /\ delete_model caller id db
          = (Done (ok (Some "Model deleted successfully") NoData),
             mkDb (without i (models db)) (pulled caller i (users db))).
Proof.
  remember (delete_model caller id db) as r eqn:Hr.
  unfold delete_model, try_catch, cast in Hr.
  destruct (castObjectId id) as [i|] eqn:Hcast;
    [|left; eexists; split; [exact Hr | easy]].
  unfold bind at 1, ret in Hr. unfold bind at 1, findOne in Hr.
  destruct (List.find (owned_by i caller) (models db)) as [m|] eqn:Hfind;
    [|left; eexists; split; [exact Hr | easy]].
  right. exists i, m. split; [reflexivity|]. split; [exact Hfind|].
  unfold findByIdAndDelete, pull_uploadedModel, update_user, cast in Hr.
  rewrite Hcast in Hr. exact Hr.
Qed.

(** The effect of [PUT /admin/:id/status]: nothing, or the listing
    replaced by the one the admin judged. *)
Lemma put_admin_status_effect id body db :
  (exists reply, put_admin_status id body db = (Done reply, db)
                 /\ 400 <= code reply)
  \/ exists st i m m',
       well_formed body st
       /\ castObjectId id = Some i
       /\ List.find (has_id i) (models db) = Some m
       /\ saved_from (judged body st m) db m'
       /\ Model.valid (fields (judged body st m)) = true
       /\ put_admin_status id body db
          = (Done (ok (Some ("Model " +:+ Status_text st +:+ " successfully"))
                     (Saved m'
                        (populate ["firstName"; "lastName"; "email"] (users db)
                           (model_doc m') !! "uploadedBy"))),
             mkDb (replace_doc m' (models db)) (users db)).
Proof.
  remember (put_admin_status id body db) as r eqn:Hr.
  unfold put_admin_status, try_catch in Hr.
  destruct (StatusBody.status body ≫= Status_of_text) as [st|] eqn:Hst;
    [|left; eexists; split; [exact Hr | easy]].
  destruct (Status_eqb st rejected
            && Js.falsy (default "" (StatusBody.rejectionReason body)))
    eqn:Hreason; [left; eexists; split; [exact Hr | easy]|].
  unfold cast in Hr.
  destruct (castObjectId id) as [i|] eqn:Hcast;
    [|left; eexists; split; [exact Hr | easy]].
  unfold bind at 1, ret in Hr. unfold bind at 1, findOne in Hr.
  destruct (List.find (has_id i) (models db)) as [m|] eqn:Hfind;
    [|left; eexists; split; [exact Hr | easy]].
  change (if Status_eqb st rejected
          then with_fields
                 (Model.set_rejectionReason (StatusBody.rejectionReason body))
                 (with_fields (Model.set_status st) (hydrate m))
          else with_fields (Model.set_rejectionReason None)
                 (with_fields (Model.set_status st) (hydrate m)))
    with (judged body st m) in Hr.
  destruct (save_cases (judged body st m) db)
    as [(e & Hsave) | (m' & Hfrom & Hvalid & _ & Hsave)].
  - rewrite (bind_raise _ _ _ _ _ Hsave) in Hr.
    left. eexists. split; [exact Hr | easy].
  - rewrite (bind_done _ _ _ _ _ Hsave) in Hr. right. exists st, i, m, m'.
    split.
    { split; [exact Hst|]. intros ->. exact Hreason. }
    split; [reflexivity|]. split; [exact Hfind|]. split; [exact Hfrom|].
    split; [exact Hvalid|].
    assert (Hnew : isNew (judged body st m) = false)
      by (unfold judged; now destruct (Status_eqb st rejected)).
    rewrite Hnew in Hr. exact Hr.
Qed.

End Effects.

(** ** What a request answers *)

Section Answers.

Variable is_uri : string -> bool.
Variable RegExp_i : string -> option (string -> bool).

(** [GET /]: the page, or the error of a search term that is no regular
    expression. *)
Lemma get_models_outcome q db :
  (exists f,
     build_filter RegExp_i q db = (Done f, db)
     /\ get_models RegExp_i q db
        = (Done (ok None
                   (Page (List.map (public_view (users db))
                            (window q (sort_by sorts_before
                                         (List.filter (matches f) (models db)))))
                      (pagination q
                         (length (List.filter (matches f) (models db)))))),
           db))
  \/ (build_filter RegExp_i q db = (Raise SyntaxError, db)
      /\ get_models RegExp_i q db = (Done internal_error, db)).
Proof.
  destruct (build_filter_outcome RegExp_i q db) as [(f & Hf) | Hf].
  - left. exists f. split; [exact Hf|]. now apply get_models_runs.
  - right. split; [exact Hf|].
    unfold get_models, try_catch. now rewrite (bind_raise _ _ _ _ _ Hf).
Qed.

(** [GET /:id]. *)
Lemma get_model_outcome id db :
  get_model id db
  = (Done (if isValid id then
             match List.find (fun m => has_id (Js.toLowerCase id) m
                                       && Status_eqb (Model.status m) approved)
                     (models db) with
             | Some m =>
                 ok None (OneModel (populate ["firstName"; "lastName"]
                                      (users db) (model_doc m)))
             | None => model_not_found
             end
           else invalid_id), db).
Proof.
  unfold get_model, try_catch, cast, castObjectId.
  destruct (isValid id); [|reflexivity].
  change (negb true) with false. cbv iota.
  unfold bind at 1, ret. unfold bind at 1, findOne.
  now destruct (List.find _ (models db)).
Qed.

(** The admin listings. *)
Lemma admin_listing_runs filter q db :
  admin_listing filter q db
  = (let page := default 1 (Npos <$> AdminQuery.page q) in
     let limit := default 20 (Npos <$> AdminQuery.limit q) in
     let found := List.filter filter (models db) in
     let totalPages := ceil_div (N.of_nat (length found)) limit in
     (Done (ok None
              (Page (List.map (admin_view (users db))
                       (firstn (N.to_nat limit)
                          (skipn (N.to_nat ((page - 1) * limit))
                             (sort_by newest_first found))))
                 (mkPagination page totalPages (N.of_nat (length found))
                    (page <? totalPages) (1 <? page)))), db)).
Proof. reflexivity. Qed.

(** A request that only reads is answered and leaves the database as it
    is. *)
Lemma read_only r db :
  reads r = true -> exists reply, route is_uri RegExp_i r db = (Done reply, db).
Proof.
  destruct r; try discriminate; intros _; cbn [route].
  - eexists. apply get_my_models_runs.
  - destruct (get_models_outcome q db) as [(f & _ & H) | (_ & H)];
      eexists; exact H.
  - eexists. apply get_model_outcome.
  - eexists. apply admin_listing_runs.
  - eexists. apply admin_listing_runs.
Qed.

(** Every request: the reply, and the database unless the reply is a
    success. *)
Lemma route_outcome r db :
  exists reply db',
    route is_uri RegExp_i r db = (Done reply, db')
    /\ (400 <= code reply -> db' = db).
Proof.
  destruct (reads r) eqn:Hreads.
  { destruct (read_only r db Hreads) as (reply & H). now exists reply, db. }
  destruct r; try discriminate; cbn [route].
  - destruct (post_model_effect is_uri caller new_id now body db)
      as [(reply & H & Hcode) | (v & m' & _ & _ & _ & _ & _ & H)].
    + now exists reply, db.
    + eexists. eexists. split; [exact H|]. cbn [code uploaded]. lia.
  - destruct (put_model_effect is_uri caller id body db)
      as [(reply & H & Hcode) | (i & m & v & m' & _ & _ & _ & _ & _ & H)].
    + now exists reply, db.
    + eexists. eexists. split; [exact H|]. cbn [code ok]. lia.
  - destruct (delete_model_effect caller id db)
      as [(reply & H & Hcode) | (i & m & _ & _ & H)].
    + now exists reply, db.
    + eexists. eexists. split; [exact H|]. cbn [code ok]. lia.
  - destruct (put_admin_status_effect id body db)
      as [(reply & H & Hcode) | (st & i & m & m' & _ & _ & _ & _ & _ & H)].
    + now exists reply, db.
    + eexists. eexists. split; [exact H|]. cbn [code ok]. lia.
Qed.

End Answers.

(** ** Invariants over sequences of requests *)

Section Sequences.

Variable is_uri : string -> bool.
Variable RegExp_i : string -> option (string -> bool).

Lemma Forall_replace_doc (P : Model.t -> Prop) d l :
  P d -> Forall P l -> Forall P (replace_doc d l).
Proof.
  intros Hd Hl. apply List.Forall_forall. intros z Hz.
  destruct (in_replace_doc_inv _ _ _ Hz) as [-> | Hin]; [exact Hd|].
  now apply (proj1 (List.Forall_forall P l) Hl).
Qed.

Lemma Forall_without (P : Model.t -> Prop) i l :
  Forall P l -> Forall P (without i l).
Proof.
  intros Hl. apply List.Forall_forall. intros z Hz.
  apply List.filter_In in Hz as [Hz _].
  now apply (proj1 (List.Forall_forall P l) Hl).
Qed.

Lemma route_closed (P : Model.t -> Prop) r db :
  step_closed P -> Forall P (models db) ->
  Forall P (models (snd (route is_uri RegExp_i r db))).
Proof.
  intros (Hpost & Hput & Hadmin) Hall.
  destruct (reads r) eqn:Hreads.
  { destruct (read_only is_uri RegExp_i r db Hreads) as (reply & ->).
    exact Hall. }
  destruct r; try discriminate; cbn [route].
  - destruct (post_model_effect is_uri caller new_id now body db)
      as [(reply & -> & _) | (v & m' & _ & Hfrom & _ & _ & _ & ->)]; [exact Hall|].
    cbn [snd models]. apply Forall_app. split; [exact Hall|].
    constructor; [|constructor]. eapply Hpost, Hfrom.
  - destruct (put_model_effect is_uri caller id body db)
      as [(reply & -> & _) | (i & m & v & m' & _ & Hfind & _ & _ & Hfrom & ->)];
      [exact Hall|].
    cbn [snd models]. apply Forall_replace_doc; [|exact Hall].
    apply List.find_some in Hfind as [Hin _].
    eapply Hput; [|exact Hfrom].
    now apply (proj1 (List.Forall_forall P _) Hall).
  - destruct (delete_model_effect caller id db)
      as [(reply & -> & _) | (i & m & _ & _ & ->)]; [exact Hall|].
    cbn [snd models]. now apply Forall_without.
  - destruct (put_admin_status_effect id body db)
      as [(reply & -> & _)
         | (st & i & m & m' & Hwell & _ & Hfind & Hfrom & _ & ->)];
      [exact Hall|].
    cbn [snd models]. apply Forall_replace_doc; [|exact Hall].
    apply List.find_some in Hfind as [Hin _].
    eapply Hadmin; [|exact Hwell|exact Hfrom].
    now apply (proj1 (List.Forall_forall P _) Hall).
Qed.

Lemma serve_closed (P : Model.t -> Prop) rs : forall db,
  step_closed P -> Forall P (models db) ->
  Forall P (models (serve is_uri RegExp_i rs db)).
Proof.
  induction rs as [|r rs IH]; intros db Hstep Hall; [exact Hall|].
  cbn [serve]. apply IH; [exact Hstep|]. now apply route_closed.
Qed.

Lemma route_keeps r : keeps (route is_uri RegExp_i r).
Proof.
  destruct (handlers_keep_consistent is_uri) as (Hpost & Hput & Hdel & Hadmin).
  destruct (reads r) eqn:Hreads.
  { apply keeps_pure. intros db.
    destruct (read_only is_uri RegExp_i r db Hreads) as (reply & H).
    now exists (Done reply). }
  destruct r; try discriminate; cbn [route];
    [apply Hpost | apply Hput | apply Hdel | apply Hadmin].
Qed.

Lemma serve_consistent rs : forall db,
  consistent db -> consistent (serve is_uri RegExp_i rs db).
Proof.
  induction rs as [|r rs IH]; intros db Hdb; [exact Hdb|].
  cbn [serve]. apply IH.
  destruct (route is_uri RegExp_i r db) as [out db'] eqn:Hrun.
  exact (route_keeps r db out db' Hdb Hrun).
Qed.

(** A request that is no decision of the admin adds no approved listing
    and changes none. *)
Lemma route_approves_nothing r db m :
  decides r = false ->
  In m (models (snd (route is_uri RegExp_i r db))) ->
  Model.status m = approved ->
  In m (models db).
Proof.
  intros Hr Hin Hst.
  destruct (reads r) eqn:Hreads.
  { destruct (read_only is_uri RegExp_i r db Hreads) as (reply & H).
    now rewrite H in Hin. }
  destruct r; try discriminate; cbn [route] in Hin.
  - destruct (post_model_effect is_uri caller new_id now body db)
      as [(reply & H & _) | (v & m' & _ & Hfrom & _ & _ & _ & H)];
      rewrite H in Hin; [exact Hin|].
    cbn [snd models] in Hin. apply in_app_or in Hin as [Hin | [<- | []]];
      [exact Hin|].
    destruct (saved_from_rest _ _ _ Hfrom) as (_ & _ & Hst' & _).
    rewrite Hst in Hst'. discriminate.
  - destruct (put_model_effect is_uri caller id body db)
      as [(reply & H & _) | (i & m0 & v & m' & _ & _ & Hne & _ & Hfrom & H)];
      rewrite H in Hin; [exact Hin|].
    cbn [snd models] in Hin.
    apply in_replace_doc_inv in Hin as [-> | Hin]; [|exact Hin].
    destruct (saved_from_rest _ _ _ Hfrom) as (_ & _ & Hst' & _).
    destruct (edited_paths m0 v) as (_ & _ & _ & _ & _ & _ & Hpending & _).
    rewrite (Hpending Hne), Hst in Hst'. discriminate.
  - destruct (delete_model_effect caller id db)
      as [(reply & H & _) | (i & m0 & _ & _ & H)];
      rewrite H in Hin; [exact Hin|].
    cbn [snd models] in Hin. now apply List.filter_In in Hin.
Qed.

(** The pairing of status and rejection reason. *)
Lemma reason_iff_rejected_closed : step_closed reason_iff_rejected.
Proof.
  unfold reason_iff_rejected. split; [|split].
  - intros db new_id now v caller m' Hfrom.
    destruct (saved_from_rest _ _ _ Hfrom) as (_ & _ & -> & -> & _).
    cbn [fields new_Model Model.status Model.rejectionReason]. easy.
  - intros db m v m' Hm Hfrom.
    destruct (saved_from_rest _ _ _ Hfrom) as (_ & _ & -> & -> & _).
    unfold edited. cbn [assign hydrate fields Model.status].
    destruct (Model.status m) eqn:Hst;
      cbn [Status_eqb with_fields fields assign hydrate Model.status
           Model.rejectionReason Model.set_rejectionReason Model.set_status
           fmap option_fmap option_map];
      rewrite ?Hst; try exact Hm; easy.
  - intros db body st m m' _ (_ & Hreason) Hfrom.
    destruct (saved_from_rest _ _ _ Hfrom) as (_ & _ & -> & -> & _).
    unfold judged.
    destruct st;
      cbn [Status_eqb with_fields fields hydrate Model.status
           Model.rejectionReason Model.set_rejectionReason Model.set_status];
      try easy.
    specialize (Hreason eq_refl).
    destruct (StatusBody.rejectionReason body); [easy|discriminate].
Qed.

(** The slug a save leaves is a candidate for the name, or the slug the
    document had. *)
Lemma saved_from_slug doc db d' :
  saved_from doc db d' ->
  Model.name d' = Model.name (fields doc)
  /\ ((exists k, Model.slug d' = candidate (baseSlug (Model.name d')) k)
      \/ (name_modified doc = false
          /\ Model.slug (fields doc) <> ""
          /\ Model.slug d' = Model.slug (fields doc))).
Proof.
  intros Hfrom. destruct (saved_from_rest _ _ _ Hfrom) as (_ & Hname & _).
  split; [exact Hname|]. rewrite Hname. unfold saved_from in Hfrom.
  destruct (name_modified doc || Js.falsy (Model.slug (fields doc))) eqn:Hre.
  - left. destruct Hfrom as (s & _ & -> & (k & -> & _)). now exists k.
  - right. apply orb_false_iff in Hre as [Hmod Hslug]. subst d'.
    split; [exact Hmod|]. split; [|reflexivity].
    intros Hempty. rewrite Hempty in Hslug. discriminate.
Qed.

Lemma judged_paths body st m :
  isNew (judged body st m) = false
  /\ name_modified (judged body st m) = false
  /\ Model.name (fields (judged body st m)) = Model.name m
  /\ Model.slug (fields (judged body st m)) = Model.slug m
  /\ Model._id (fields (judged body st m)) = Model._id m
  /\ Model.status (fields (judged body st m)) = st
  /\ Model.rejectionReason (fields (judged body st m))
     = match st with
       | rejected => Js.trim <$> StatusBody.rejectionReason body
       | _ => None
       end.
Proof. unfold judged. now destruct st. Qed.

Lemma slug_from_name_closed : step_closed slug_from_name.
Proof.
  unfold slug_from_name. split; [|split].
  - intros db new_id now v caller m' Hfrom.
    destruct (saved_from_slug _ _ _ Hfrom) as (_ & [Hk | (Hmod & _)]);
      [exact Hk | discriminate].
  - intros db m v m' (k & Hm) Hfrom.
    destruct (saved_from_slug _ _ _ Hfrom) as (Hname & [Hk | (Hmod & _ & Hs)]);
      [exact Hk|].
    destruct (edited_paths m v) as (_ & Hmod' & _ & Hslug & Hname' & _).
    rewrite Hmod' in Hmod. apply negb_false_iff, String.eqb_eq in Hmod.
    exists k. rewrite Hs, Hslug, Hname, Hname', Hmod. exact Hm.
  - intros db body st m m' (k & Hm) _ Hfrom.
    destruct (saved_from_slug _ _ _ Hfrom) as (Hname & [Hk | (_ & _ & Hs)]);
      [exact Hk|].
    destruct (judged_paths body st m) as (_ & _ & Hname' & Hslug & _).
    exists k. rewrite Hs, Hslug, Hname, Hname'. exact Hm.
Qed.

End Sequences.

(** ** Requests, one after the other *)

Section Requests.

Variable is_uri : string -> bool.
Variable RegExp_i : string -> option (string -> bool).

(** X1.  The five [GET] routes only read: each is answered, and the
    database after it is the database before it. *)
Theorem reading_writes_nothing r db :
  reads r = true ->
  exists reply, route is_uri RegExp_i r db = (Done reply, db).
Proof. apply read_only. Qed.

(** X2.  A request that is answered with a status of 400 or more has
    written nothing: every check of a handler comes before its first
    write. *)
Theorem refused_request_writes_nothing r db reply db' :
  route is_uri RegExp_i r db = (Done reply, db') ->
  400 <= code reply ->
  db' = db.
Proof.
  intros Hrun Hcode.
  destruct (route_outcome is_uri RegExp_i r db) as (reply0 & db0 & H & Hsame).
  rewrite H in Hrun. apply done_inj in Hrun as [-> ->]. now apply Hsame.
Qed.

(** X3.  Every request is answered: no exception leaves a handler, and
    the loop of the slug generator ends. *)
Theorem every_request_is_answered r db :
  exists reply db', route is_uri RegExp_i r db = (Done reply, db').
Proof.
  destruct (route_outcome is_uri RegExp_i r db) as (reply & db' & H & _).
  now exists reply, db'.
Qed.

(** X4.  Whatever requests are served, the collection stays consistent:
    the ids are unique, the slugs are unique, and every document passes
    the validators of the schema. *)
Theorem requests_keep_the_collection_consistent rs db :
  consistent db -> consistent (serve is_uri RegExp_i rs db).
Proof. apply serve_consistent. Qed.

(** X5.  Whatever requests are served, a listing holds a rejection reason
    exactly when its status is [rejected]. *)
Theorem reason_exactly_on_rejected rs db :
  Forall reason_iff_rejected (models db) ->
  Forall reason_iff_rejected (models (serve is_uri RegExp_i rs db)).
Proof. apply serve_closed, reason_iff_rejected_closed. Qed.

(** X6.  Whatever requests are served, the slug of a listing is the slug
    of its current name, with or without a collision suffix; when the name
    holds a letter or a digit the slug has the shape
    [^[a-z0-9]+(-[a-z0-9]+)*$]. *)
Theorem slugs_follow_names rs db m :
  Forall slug_from_name (models db) ->
  In m (models (serve is_uri RegExp_i rs db)) ->
  slug_from_name m
  /\ (has_alphanumeric (Model.name m) -> slug_shape (Model.slug m) = true).
Proof.
  intros Hall Hin.
  assert (Hm : slug_from_name m).
  { pose proof (serve_closed is_uri RegExp_i slug_from_name rs db
                  slug_from_name_closed Hall) as H.
    now apply (proj1 (List.Forall_forall _ _) H). }
  split; [exact Hm|]. intros Hname. destruct Hm as (k & ->).
  now apply candidate_shape, baseSlug_shape.
Qed.

(** X7.  Only the admin publishes: when no request of a sequence is a
    decision of the admin, every listing that is approved after the
    sequence was approved before it and has not changed. *)
Theorem only_the_admin_approves rs : forall db m,
  Forall (fun r => decides r = false) rs ->
  In m (models (serve is_uri RegExp_i rs db)) ->
  Model.status m = approved ->
  In m (models db).
Proof.
  induction rs as [|r rs IH]; intros db m Hrs Hin Hst; [exact Hin|].
  inversion Hrs as [|? ? Hr Hrest]; subst. cbn [serve] in Hin.
  apply (route_approves_nothing is_uri RegExp_i r db m Hr); [|exact Hst].
  now apply IH.
Qed.

End Requests.

Lemma reading_writes_nothing_witness :
  exists reply,
    route Sample.uri Sample.regex (GetMyModels Sample.alice)
      (Sample.db_with (Sample.bot pending None))
    = (Done reply, Sample.db_with (Sample.bot pending None)).
Proof.
  apply (reading_writes_nothing Sample.uri Sample.regex
           (GetMyModels Sample.alice)). reflexivity.
Defined.

Lemma refused_request_writes_nothing_witness :
  route Sample.uri Sample.regex
    (PutModel Sample.alice Sample.first_id (Sample.body "Bot Y"))
    (Sample.db_with (Sample.bot approved None))
  = (Done approved_is_frozen, Sample.db_with (Sample.bot approved None))
  /\ 400 <= code approved_is_frozen.
Proof.
  assert (Hrun : route Sample.uri Sample.regex
                   (PutModel Sample.alice Sample.first_id (Sample.body "Bot Y"))
                   (Sample.db_with (Sample.bot approved None))
                 = (Done approved_is_frozen,
                    Sample.db_with (Sample.bot approved None)))
    by reflexivity.
  assert (Hcode : 400 <= code approved_is_frozen) by (cbn; lia).
  pose proof (refused_request_writes_nothing Sample.uri Sample.regex _ _ _ _
                Hrun Hcode) as Hsame.
  split; [exact Hrun | exact Hcode].
Defined.

Lemma requests_keep_the_collection_consistent_witness :
  consistent (serve Sample.uri Sample.regex Session.requests Sample.empty).
Proof.
  apply (requests_keep_the_collection_consistent Sample.uri Sample.regex
           Session.requests Sample.empty).
  apply empty_consistent.
Defined.

Lemma reason_exactly_on_rejected_witness :
  Forall reason_iff_rejected
    (models (serve Sample.uri Sample.regex Session.requests Sample.empty)).
Proof.
  apply (reason_exactly_on_rejected Sample.uri Sample.regex Session.requests
           Sample.empty).
  constructor.
Defined.

Lemma slugs_follow_names_witness :
  In (Sample.listing Sample.second_id Sample.bob "Bot Y" "bot-y-1" pending None)
    (models (serve Sample.uri Sample.regex Session.requests Sample.empty))
  /\ slug_from_name
       (Sample.listing Sample.second_id Sample.bob "Bot Y" "bot-y-1" pending
          None)
  /\ slug_shape "bot-y-1" = true.
Proof.
  assert (Hin : In (Sample.listing Sample.second_id Sample.bob "Bot Y"
                      "bot-y-1" pending None)
                  (models (serve Sample.uri Sample.regex Session.requests
                             Sample.empty)))
    by (vm_compute; left; reflexivity).
  destruct (slugs_follow_names Sample.uri Sample.regex Session.requests
              Sample.empty
              (Sample.listing Sample.second_id Sample.bob "Bot Y" "bot-y-1"
                 pending None)) as [Hslug Hshape].
  - constructor.
  - exact Hin.
  - split; [exact Hin|]. split; [exact Hslug|]. apply Hshape.
    exists "b"%char. split; [vm_compute; tauto | reflexivity].
Defined.

Lemma only_the_admin_approves_witness :
  In (Sample.bot approved None)
    (models (serve Sample.uri Sample.regex
               [ PostModel Sample.bob Sample.second_id 2 (Sample.body "Bot Y");
                 PutModel Sample.alice Sample.first_id (Sample.body "Bot Z");
                 DeleteModel Sample.bob Sample.second_id ]
               (Sample.db_with (Sample.bot approved None))))
  /\ In (Sample.bot approved None)
       (models (Sample.db_with (Sample.bot approved None))).
Proof.
  assert (Hin : In (Sample.bot approved None)
                  (models (serve Sample.uri Sample.regex
                             [ PostModel Sample.bob Sample.second_id 2
                                 (Sample.body "Bot Y");
                               PutModel Sample.alice Sample.first_id
                                 (Sample.body "Bot Z");
                               DeleteModel Sample.bob Sample.second_id ]
                             (Sample.db_with (Sample.bot approved None)))))
    by (vm_compute; left; reflexivity).
  split; [exact Hin|].
  apply (only_the_admin_approves Sample.uri Sample.regex
           [ PostModel Sample.bob Sample.second_id 2 (Sample.body "Bot Y");
             PutModel Sample.alice Sample.first_id (Sample.body "Bot Z");
             DeleteModel Sample.bob Sample.second_id ]
           (Sample.db_with (Sample.bot approved None))
           (Sample.bot approved None)).
  - repeat constructor.
  - exact Hin.
  - reflexivity.
Defined.

(** ** Uploads *)

Section Uploads.

Variable is_uri : string -> bool.
Variable RegExp_i : string -> option (string -> bool).

(** [save] changes the slug at most. *)
Lemma saved_from_paths doc db d' :
  saved_from doc db d' ->
  same_standing (fields doc) d' /\ same_content (fields doc) d'
  /\ Model.status d' = Model.status (fields doc)
  /\ Model.rejectionReason d' = Model.rejectionReason (fields doc).
Proof.
  unfold saved_from, same_standing, same_content.
  destruct (_ || _); [intros (s & -> & _) | intros ->]; cbn; easy.
Qed.

(** X8.  A listing that [POST /] creates starts as the schema's defaults
    have it, whatever the payload holds: pending, without rejection reason,
    owned by the caller, not featured, with no score, rating, review or
    install; it is appended to the collection and its id is pushed to the
    uploads of the caller. *)
Theorem upload_starts_pending caller new_id now body db reply db' :
  post_model is_uri caller new_id now body db = (Done reply, db') ->
  code reply = 201 ->
  exists m',
    reply = uploaded m'
    /\ models db' = models db ++ [m']
    /\ users db' = pushed caller new_id (users db)
    /\ Model._id m' = new_id
    /\ Model.uploadedBy m' = caller
    /\ Model.status m' = pending
    /\ Model.rejectionReason m' = None
    /\ Model.createdAt m' = now
    /\ Model.featured m' = false
    /\ Model.trendingScore m' = 0
    /\ Model.rating m' = 0
    /\ Model.reviewsCount m' = 0
    /\ Model.installsCount m' = 0.
Proof.
  intros Hrun Hcode.
  destruct (post_model_effect is_uri caller new_id now body db)
    as [(reply0 & H & Hrefused) | (v & m' & _ & Hfrom & _ & _ & _ & H)];
    rewrite H in Hrun; apply done_inj in Hrun as [<- <-].
  { rewrite Hcode in Hrefused. lia. }
  destruct (saved_from_paths _ _ _ Hfrom)
    as ((Hid & Hby & Hat & Hfeat & Htrend & Hrate & Hrev & Hinst & _)
        & _ & Hst & Hreason).
  cbn [fields new_Model Model._id Model.uploadedBy Model.createdAt
       Model.featured Model.trendingScore Model.rating Model.reviewsCount
       Model.installsCount Model.status Model.rejectionReason] in *.
  exists m'. cbn [models users]. rewrite <- Hid at 2.
  repeat split; congruence.
Qed.

Lemma valid_needs_link d :
  Model.opt_ok Model.externalUrl_validator (Model.externalUrl d) = false ->
  Model.valid d = false.
Proof.
  intros H. unfold Model.valid. rewrite H.
  now rewrite !andb_false_r.
Qed.

(** X9.  Joi takes any URI for [externalUrl], the schema only [http] and
    [https] links: a payload that Joi accepts with another link fails in
    [save], and [POST /] and [PUT /:id] answer 500 and write nothing. *)
Theorem unsupported_link_is_a_server_error caller body db v :
  validate is_uri body = Valid v ->
  link_refused v ->
  (forall new_id now,
      List.find (fun m => String.eqb (Model.name m) (Value.name v)
                          && id_eqb (Model.uploadedBy m) caller) (models db)
      = None ->
      post_model is_uri caller new_id now body db = (Done internal_error, db))
  /\ (forall id i m,
        castObjectId id = Some i ->
        List.find (owned_by i caller) (models db) = Some m ->
        Model.status m <> approved ->
        put_model is_uri caller id body db = (Done internal_error, db)).
Proof.
  intros Hv Hlink. unfold link_refused in Hlink. split.
  - intros new_id now Hfind. unfold post_model, try_catch. rewrite Hv.
    unfold bind at 1, findOne. rewrite Hfind.
    rewrite (bind_raise _ _ _ ValidationError db); [reflexivity|].
    apply save_invalid, valid_needs_link. exact Hlink.
  - intros id i m Hcast Hfind Hst. unfold put_model, try_catch, cast.
    rewrite Hcast. unfold bind at 1, ret. unfold bind at 1, findOne.
    rewrite Hfind.
    destruct (Status_eqb (Model.status m) approved) eqn:Heq;
      [now destruct (Model.status m)|].
    rewrite Hv.
    change (if Status_eqb (Model.status (fields (assign (hydrate m) v))) rejected
            then with_fields
                   (fun d => Model.set_rejectionReason None
                               (Model.set_status pending d))
                   (assign (hydrate m) v)
            else assign (hydrate m) v) with (edited m v).
    rewrite (bind_raise _ _ _ ValidationError db); [reflexivity|].
    apply save_invalid.
    destruct (edited_paths m v) as (_ & _ & _ & _ & _ & -> & _).
    apply valid_needs_link. cbn [assign fields hydrate Model.externalUrl].
    destruct (Value.externalUrl v); [exact Hlink | discriminate].
Qed.

(** X10.  A payload with a key that the Joi schema does not declare
    ([status], [slug], [uploadedBy], [featured], ...) is refused: [POST /]
    answers 400 with the validation error and writes nothing. *)
Theorem undeclared_key_is_refused caller new_id now body db :
  Body.unknown body <> [] ->
  exists d,
    validate is_uri body = Invalid d
    /\ post_model is_uri caller new_id now body db
       = (Done (validation_error [d]), db).
Proof.
  intros Hkeys.
  assert (Hv : exists d, validate is_uri body = Invalid d).
  { unfold validate.
    repeat match goal with
           | |- exists d, and_then ?c _ = Invalid d =>
               destruct c; cbn [and_then]; [|eexists; reflexivity]
           end.
    destruct (Body.unknown body); [easy | eexists; reflexivity]. }
  destruct Hv as (d & Hv). exists d. split; [exact Hv|].
  unfold post_model, try_catch. now rewrite Hv.
Qed.

(** X11.  A user cannot hold two listings of one name: [POST /] with the
    name of a listing of the caller is refused with 400 and writes
    nothing; the check is on the exact text, after Joi has trimmed it. *)
Theorem same_name_twice_is_refused caller new_id now body db v m :
  validate is_uri body = Valid v ->
  In m (models db) ->
  Model.name m = Value.name v ->
  Model.uploadedBy m = caller ->
  post_model is_uri caller new_id now body db = (Done duplicate_name, db)
  /\ code duplicate_name = 400.
Proof.
  intros Hv Hin Hname Hby. split; [|reflexivity].
  unfold post_model, try_catch. rewrite Hv. unfold bind at 1, findOne.
  destruct (List.find _ (models db)) eqn:Hfind; [reflexivity|].
  eapply List.find_none in Hfind; [|exact Hin]. cbv beta in Hfind.
  unfold id_eqb in Hfind. now rewrite Hname, Hby, !String.eqb_refl in Hfind.
Qed.

End Uploads.

Lemma upload_starts_pending_witness :
  exists m',
    models (snd (post_model Sample.uri Sample.alice Sample.first_id 1
                   (Sample.body "Bot X") Sample.empty)) = [m']
    /\ Model.status m' = pending
    /\ Model.uploadedBy m' = Sample.alice.
Proof.
  edestruct (upload_starts_pending Sample.uri Sample.alice Sample.first_id 1
               (Sample.body "Bot X") Sample.empty)
    as (m' & _ & Hmodels & _ & _ & Hby & Hst & _).
  - reflexivity.
  - reflexivity.
  - exists m'. split; [exact Hmodels|]. split; [exact Hst | exact Hby].
Defined.

Lemma unsupported_link_is_a_server_error_witness :
  post_model Sample.uri Sample.alice Sample.second_id 2 Session.linked
    (Sample.db_with (Sample.bot pending None))
  = (Done internal_error, Sample.db_with (Sample.bot pending None))
  /\ put_model Sample.uri Sample.alice Sample.first_id Session.linked
       (Sample.db_with (Sample.bot pending None))
     = (Done internal_error, Sample.db_with (Sample.bot pending None)).
Proof.
  destruct (unsupported_link_is_a_server_error Sample.uri Sample.alice
              Session.linked (Sample.db_with (Sample.bot pending None))
              Session.linked_value) as (Hpost & Hput).
  - reflexivity.
  - reflexivity.
  - split.
    + apply Hpost. reflexivity.
    + apply (Hput Sample.first_id Sample.first_id (Sample.bot pending None)).
      * reflexivity.
      * reflexivity.
      * discriminate.
Defined.

Lemma undeclared_key_is_refused_witness :
  exists d,
    validate Sample.uri Session.approving = Invalid d
    /\ post_model Sample.uri Sample.alice Sample.first_id 1 Session.approving
         Sample.empty
       = (Done (validation_error [d]), Sample.empty).
Proof.
  apply (undeclared_key_is_refused Sample.uri Sample.alice Sample.first_id 1
           Session.approving Sample.empty).
  discriminate.
Defined.

Lemma same_name_twice_is_refused_witness :
  post_model Sample.uri Sample.alice Sample.second_id 2 (Sample.body " Bot X ")
    (Sample.db_with (Sample.bot rejected (Some "too niche")))
  = (Done duplicate_name,
     Sample.db_with (Sample.bot rejected (Some "too niche"))).
Proof.
  apply (same_name_twice_is_refused Sample.uri Sample.alice Sample.second_id 2
           (Sample.body " Bot X ")
           (Sample.db_with (Sample.bot rejected (Some "too niche")))
           (Sample.value "Bot X") (Sample.bot rejected (Some "too niche"))).
  - reflexivity.
  - left. reflexivity.
  - reflexivity.
  - reflexivity.
Defined.

(** ** The Joi schema on its own values *)

Lemma string_rule_again key n allow s s' :
  string_rule key n allow s = Valid s' -> string_rule key n allow s' = Valid s'.
Proof.
  intros H. assert (Hs : s' = Js.trim s).
  { unfold string_rule in H. destruct (Js.falsy (Js.trim s)).
    - destruct allow; [congruence | discriminate].
    - destruct (n <? String.length (Js.trim s))%nat; [discriminate | congruence]. }
  subst s'. unfold string_rule in *. rewrite trim_trim. exact H.
Qed.

Lemma required_string_again key n g s' :
  required_string key n g = Valid s' ->
  required_string key n (Given s') = Valid s'.
Proof.
  destruct g as [| |s]; try discriminate. apply string_rule_again.
Qed.

Lemma optional_string_again key n g o :
  optional_string key n g = Valid o ->
  optional_string key n (if_some o) = Valid o.
Proof.
  destruct g as [| |s]; cbn [optional_string]; try discriminate.
  - now intros [= <-].
  - destruct (string_rule key n true s) as [s1|] eqn:Hrule; [|discriminate].
    cbn [and_then]. intros [= <-]. cbn [if_some optional_string].
    now rewrite (string_rule_again _ _ _ _ _ Hrule).
Qed.

Lemma required_only_again key allowed g y :
  required_only key allowed g = Valid y ->
  required_only key allowed (Given y) = Valid y.
Proof.
  destruct g as [| |s]; cbn [required_only]; try discriminate.
  destruct (Js.one_of allowed s) eqn:H; [|discriminate].
  intros [= <-]. now rewrite H.
Qed.

Lemma only_or_default_again key allowed d g y :
  Js.one_of allowed d = true ->
  only_or_default key allowed d g = Valid y ->
  only_or_default key allowed d (Given y) = Valid y.
Proof.
  intros Hd. destruct g as [| |s]; cbn [only_or_default]; try discriminate.
  - intros [= <-]. now rewrite Hd.
  - destruct (Js.one_of allowed s) eqn:H; [|discriminate].
    intros [= <-]. now rewrite H.
Qed.

Lemma each_item_again rule :
  (forall x y, rule x = Valid y -> rule (Some y) = Valid y) ->
  forall l i l',
    each_item rule i l = Valid l' ->
    forall j, each_item rule j (List.map Some l') = Valid l'.
Proof.
  intros Hrule. induction l as [|x l IH]; intros i l'; cbn [each_item].
  - now intros [= <-].
  - destruct (at_index i (rule x)) as [x'|] eqn:Hx; [|discriminate].
    cbn [and_then].
    destruct (each_item rule (S i) l) as [r'|] eqn:Hr; [|discriminate].
    cbn [and_then]. intros [= <-] j. cbn [List.map each_item].
    apply at_index_valid in Hx. rewrite (Hrule _ _ Hx). cbn [at_index and_then].
    now rewrite (IH _ _ Hr).
Qed.

Lemma array_of_again key rule g l' :
  (forall x y, rule x = Valid y -> rule (Some y) = Valid y) ->
  array_of key rule g = Valid l' ->
  array_of key rule (Given (List.map Some l')) = Valid l'.
Proof.
  intros Hrule. destruct g as [| |l]; cbn [array_of]; try discriminate.
  - now intros [= <-].
  - intros H. now apply (each_item_again rule Hrule l 0%nat).
Qed.

Lemma text_item_again key n x y :
  text_item key n x = Valid y -> text_item key n (Some y) = Valid y.
Proof. destruct x as [s|]; [apply string_rule_again | discriminate]. Qed.

Lemma only_item_again key allowed x y :
  only_item key allowed x = Valid y -> only_item key allowed (Some y) = Valid y.
Proof.
  destruct x as [s|]; cbn [only_item]; [|discriminate].
  destruct (Js.one_of allowed s) eqn:H; [|discriminate].
  intros [= <-]. now rewrite H.
Qed.

Lemma boolean_again key g b :
  boolean key g = Valid b -> boolean key (Given b) = Valid b.
Proof. reflexivity. Qed.

Lemma uri_rule_again is_uri key g o :
  uri_rule is_uri key g = Valid o -> uri_rule is_uri key (if_some o) = Valid o.
Proof.
  destruct g as [| |s]; cbn [uri_rule]; try discriminate.
  - now intros [= <-].
  - destruct (Js.falsy s) eqn:Hempty.
    + intros [= <-]. cbn [if_some uri_rule]. now rewrite Hempty.
    + destruct (is_uri s) eqn:Huri; [|discriminate].
      intros [= <-]. cbn [if_some uri_rule]. now rewrite Hempty, Huri.
Qed.

(** X12.  The Joi schema is idempotent: the value it returns for an
    accepted payload, sent as a payload, is accepted and returned as it
    is. *)
Theorem validated_value_is_a_fixed_point is_uri body v :
  validate is_uri body = Valid v ->
  validate is_uri (to_body v) = Valid v.
Proof.
  unfold validate at 1. unfold and_then. intros H.
  repeat match type of H with
         | match ?c with Valid _ => _ | Invalid _ => _ end = _ =>
             let E := fresh "E" in destruct c eqn:E; [|discriminate]
         end.
  destruct (Body.unknown body); [|discriminate]. injection H as <-.
  unfold validate, to_body.
  cbn [Body.name Body.shortDescription Body.longDescription Body.category
       Body.tags Body.provider Body.pricing Body.capabilities
       Body.isApiAvailable Body.isOpenSource Body.modelType Body.externalUrl
       Body.bestFor Body.features Body.examplePrompts Body.unknown
       Value.name Value.shortDescription Value.longDescription Value.category
       Value.tags Value.provider Value.pricing Value.capabilities
       Value.isApiAvailable Value.isOpenSource Value.modelType
       Value.externalUrl Value.bestFor Value.features Value.examplePrompts].
  repeat match goal with
         | E : required_string ?k ?n _ = Valid ?a |- _ =>
             rewrite (required_string_again k n _ a E); clear E
         | E : optional_string ?k ?n _ = Valid ?a |- _ =>
             change (match a with Some s => Given s | None => Missing end)
               with (if_some a);
             rewrite (optional_string_again k n _ a E); clear E
         | E : required_only ?k ?l _ = Valid ?a |- _ =>
             rewrite (required_only_again k l _ a E); clear E
         | E : only_or_default ?k ?l ?d _ = Valid ?a |- _ =>
             rewrite (only_or_default_again k l d _ a eq_refl E); clear E
         | E : array_of ?k (text_item ?k' ?n) _ = Valid ?a |- _ =>
             rewrite (array_of_again k (text_item k' n) _ a
                        (text_item_again k' n) E); clear E
         | E : array_of ?k (only_item ?k' ?l) _ = Valid ?a |- _ =>
             rewrite (array_of_again k (only_item k' l) _ a
                        (only_item_again k' l) E); clear E
         | E : boolean ?k _ = Valid ?a |- _ => clear E
         | E : uri_rule _ ?k _ = Valid ?a |- _ =>
             change (match a with Some s => Given s | None => Missing end)
               with (if_some a);
             rewrite (uri_rule_again is_uri k _ a E); clear E
         end.
  reflexivity.
Qed.

Lemma validated_value_is_a_fixed_point_witness :
  validate Sample.uri (to_body (Sample.value "Bot X"))
  = Valid (Sample.value "Bot X").
Proof.
  apply (validated_value_is_a_fixed_point Sample.uri (Sample.body "  Bot X ")
           (Sample.value "Bot X")).
  reflexivity.
Defined.

(** ** Edits and removals by the owner *)

Lemma same_standing_trans a b c :
  same_standing a b -> same_standing b c -> same_standing a c.
Proof.
  unfold same_standing.
  intros (? & ? & ? & ? & ? & ? & ? & ? & ? & ?)
         (? & ? & ? & ? & ? & ? & ? & ? & ? & ?).
  repeat split; congruence.
Qed.


Section Owner.

Variable is_uri : string -> bool.
Variable RegExp_i : string -> option (string -> bool).

Lemma edited_standing m v :
  same_standing m (fields (edited m v)).
Proof.
  unfold edited, same_standing.
  destruct (Status_eqb (Model.status (fields (assign (hydrate m) v))) rejected);
    cbn; easy.
Qed.

(** X13.  An edit by the owner reaches the paths of the payload only: the
    id, the owner, the creation time, the featured flag, the scores and
    counters, the icon and the screenshots of the listing stay as they
    were; the listing stands where it stood; no user changes. *)
Theorem edit_keeps_the_standing caller id body db reply db' :
  put_model is_uri caller id body db = (Done reply, db') ->
  code reply = 200 ->
  exists m m',
    In m (models db)
    /\ Model.uploadedBy m = caller
    /\ reply = ok (Some "Model updated successfully") (Saved m' None)
    /\ models db' = replace_doc m' (models db)
    /\ users db' = users db
    /\ same_standing m m'.
Proof.
  intros Hrun Hcode.
  destruct (put_model_effect is_uri caller id body db)
    as [(reply0 & H & Hrefused)
       | (i & m & v & m' & _ & Hfind & _ & _ & Hfrom & H)];
    rewrite H in Hrun; apply done_inj in Hrun as [<- <-].
  { rewrite Hcode in Hrefused. lia. }
  apply List.find_some in Hfind as [Hin Howned].
  apply andb_true_iff in Howned as [_ Hby]. apply String.eqb_eq in Hby.
  exists m, m'. split; [exact Hin|]. split; [exact Hby|].
  split; [reflexivity|]. split; [reflexivity|]. split; [reflexivity|].
  eapply same_standing_trans; [apply edited_standing|].
  apply (saved_from_paths _ _ _ Hfrom).
Qed.

(** X14.  An edit that does not change the name leaves the slug of the
    listing as it is, so that its address stays. *)
Theorem edit_without_rename_keeps_the_slug caller id body db i m v reply db' :
  castObjectId id = Some i ->
  List.find (owned_by i caller) (models db) = Some m ->
  validate is_uri body = Valid v ->
  Value.name v = Model.name m ->
  Model.slug m <> "" ->
  put_model is_uri caller id body db = (Done reply, db') ->
  code reply = 200 ->
  exists m',
    reply = ok (Some "Model updated successfully") (Saved m' None)
    /\ Model.name m' = Model.name m
    /\ Model.slug m' = Model.slug m.
Proof.
  intros Hcast Hfind Hv Hname Hslug Hrun Hcode.
  destruct (put_model_effect is_uri caller id body db)
    as [(reply0 & H & Hrefused)
       | (i0 & m0 & v0 & m' & Hcast0 & Hfind0 & _ & Hv0 & Hfrom & H)];
    rewrite H in Hrun; apply done_inj in Hrun as [<- <-].
  { rewrite Hcode in Hrefused. lia. }
  rewrite Hcast in Hcast0. injection Hcast0 as <-.
  rewrite Hfind in Hfind0. injection Hfind0 as <-.
  rewrite Hv in Hv0. injection Hv0 as <-.
  exists m'. split; [reflexivity|].
  destruct (validate_sound _ _ _ Hv) as ((Htrim & _) & _).
  destruct (edited_paths m v) as (_ & Hmod & _ & Hs & Hn & _).
  rewrite Htrim, Hname, String.eqb_refl in Hmod. cbn [negb] in Hmod.
  rewrite Htrim, Hname in Hn.
  destruct (saved_from_rest _ _ _ Hfrom) as (_ & Hname' & _).
  split; [congruence|].
  unfold saved_from in Hfrom. rewrite Hmod, Hs in Hfrom.
  destruct (Js.falsy (Model.slug m)) eqn:Hempty.
  - apply String.eqb_eq in Hempty. contradiction.
  - cbn [orb] in Hfrom. subst m'. exact Hs.
Qed.

Lemma replace_doc_keeps d l m :
  In m l -> Model._id m <> Model._id d -> In m (replace_doc d l).
Proof.
  intros Hin Hid. unfold replace_doc. apply in_map_iff. exists m.
  split; [|exact Hin]. unfold has_id, id_eqb.
  now apply String.eqb_neq in Hid as ->.
Qed.

(** X15.  A request of a caller leaves the listings of the other owners
    as they are: nothing a user sends edits or removes what another user
    uploaded. *)
Theorem others_listings_are_out_of_reach r caller db m :
  unique_ids db ->
  sender r = Some caller ->
  In m (models db) ->
  Model.uploadedBy m <> caller ->
  In m (models (snd (route is_uri RegExp_i r db))).
Proof.
  intros Hids Hsender Hin Hother.
  assert (Hneq : forall i m0,
             List.find (owned_by i caller) (models db) = Some m0 ->
             Model._id m <> i).
  { intros i m0 Hfind Hid. apply List.find_some in Hfind as [Hin0 Howned].
    apply andb_true_iff in Howned as [Hi Hby].
    apply String.eqb_eq in Hi, Hby. apply Hother. rewrite <- Hby. f_equal.
    apply (NoDup_map_eq Model._id (models db)); [exact Hids| | |]; congruence. }
  destruct r; try discriminate; injection Hsender as ->; cbn [route].
  - destruct (post_model_effect is_uri caller new_id now body db)
      as [(reply & -> & _) | (v & m' & _ & _ & _ & _ & _ & ->)]; [exact Hin|].
    cbn [snd models]. apply in_or_app. now left.
  - rewrite get_my_models_runs. exact Hin.
  - destruct (put_model_effect is_uri caller id body db)
      as [(reply & -> & _) | (i & m0 & v & m' & _ & Hfind & _ & _ & Hfrom & ->)];
      [exact Hin|].
    cbn [snd models]. apply replace_doc_keeps; [exact Hin|].
    rewrite (saved_from_id _ _ _ Hfrom).
    destruct (edited_paths m0 v) as (_ & _ & -> & _).
    apply List.find_some in Hfind as Hfound. destruct Hfound as [_ Howned].
    apply andb_true_iff in Howned as [Hi _]. apply String.eqb_eq in Hi.
    rewrite Hi. now apply (Hneq i m0).
  - destruct (delete_model_effect caller id db)
      as [(reply & -> & _) | (i & m0 & _ & Hfind & ->)]; [exact Hin|].
    cbn [snd models]. apply List.filter_In. split; [exact Hin|].
    apply negb_true_iff, String.eqb_neq. now apply (Hneq i m0).
Qed.

Lemma delete_model_owned caller id i db m :
  castObjectId id = Some i ->
  In m (models db) ->
  Model._id m = i ->
  Model.uploadedBy m = caller ->
  delete_model caller id db
  = (Done (ok (Some "Model deleted successfully") NoData),
     mkDb (without i (models db)) (pulled caller i (users db))).
Proof.
  intros Hcast Hin Hid Hby.
  unfold delete_model, try_catch, cast. rewrite Hcast.
  unfold bind at 1, ret. unfold bind at 1, findOne.
  destruct (List.find (owned_by i caller) (models db)) eqn:Hfind.
  - unfold findByIdAndDelete, pull_uploadedModel, update_user, cast.
    rewrite Hcast. reflexivity.
  - eapply List.find_none in Hfind; [|exact Hin].
    unfold owned_by, has_id, id_eqb in Hfind.
    now rewrite Hid, Hby, !String.eqb_refl in Hfind.
Qed.

(** X16.  The owner removes a listing whatever its status, approved
    included: the listing leaves the collection, the others stay in their
    order, and the id leaves the uploads of the owner. *)
Theorem owner_removes_at_any_status caller id i db m :
  castObjectId id = Some i ->
  In m (models db) ->
  Model._id m = i ->
  Model.uploadedBy m = caller ->
  delete_model caller id db
  = (Done (ok (Some "Model deleted successfully") NoData),
     mkDb (without i (models db)) (pulled caller i (users db)))
  /\ forall z, In z (without i (models db)) <-> In z (models db) /\ Model._id z <> i.
Proof.
  intros Hcast Hin Hid Hby. split.
  - now apply (delete_model_owned caller id i db m).
  - intros z. unfold without. rewrite List.filter_In.
    unfold has_id, id_eqb. rewrite negb_true_iff, String.eqb_neq. reflexivity.
Qed.

End Owner.

(** ** Removal after upload, and the decisions of the admin *)

Section Decisions.

Variable is_uri : string -> bool.
Variable RegExp_i : string -> option (string -> bool).

Lemma without_absent i l :
  existsb (has_id i) l = false -> without i l = l.
Proof.
  induction l as [|x l IH]; [easy|]. cbn [existsb without List.filter].
  intros [Hx Hl]%orb_false_iff. rewrite Hx. cbn [negb]. f_equal. now apply IH.
Qed.

Lemma pulled_pushed caller i us :
  (forall u, In u us -> ~ In i (User.uploadedModels u)) ->
  pulled caller i (pushed caller i us) = us.
Proof.
  intros Hfresh. unfold pulled, pushed. rewrite List.map_map.
  rewrite <- (List.map_id us) at 2. apply List.map_ext_in. intros u Hu.
  destruct (id_eqb (User._id u) caller) eqn:Hc.
  - cbn [User._id User.set_uploadedModels User.uploadedModels]. rewrite Hc.
    rewrite List.filter_app. cbn [List.filter]. unfold id_eqb at 2.
    rewrite String.eqb_refl. cbn [negb]. rewrite app_nil_r.
    assert (Hkeep : List.filter (fun x => negb (id_eqb x i))
                      (User.uploadedModels u) = User.uploadedModels u).
    { specialize (Hfresh u Hu). induction (User.uploadedModels u) as [|x l IH];
        [easy|]. cbn [List.filter]. unfold id_eqb at 1.
      destruct (String.eqb_spec x i) as [-> | _].
      - exfalso. apply Hfresh. now left.
      - cbn [negb]. f_equal. apply IH. intros Hin. apply Hfresh. now right. }
    rewrite Hkeep. now destruct u.
  - now rewrite Hc.
Qed.

(** X17.  Upload, then removal: when the owner removes the listing just
    uploaded, the collection and the users are as they were before the
    upload. *)
Theorem removal_undoes_the_upload caller new_id now body db reply db' :
  post_model is_uri caller new_id now body db = (Done reply, db') ->
  code reply = 201 ->
  castObjectId new_id = Some new_id ->
  (forall u, In u (users db) -> ~ In new_id (User.uploadedModels u)) ->
  delete_model caller new_id db'
  = (Done (ok (Some "Model deleted successfully") NoData), db).
Proof.
  intros Hrun Hcode Hcast Hfresh.
  destruct (post_model_effect is_uri caller new_id now body db)
    as [(reply0 & H & Hrefused) | (v & m' & _ & Hfrom & _ & _ & Habsent & H)];
    rewrite H in Hrun; apply done_inj in Hrun as [<- <-].
  { rewrite Hcode in Hrefused. lia. }
  destruct (saved_from_rest _ _ _ Hfrom) as (Hid & _ & _ & _ & Hby & _).
  cbn [fields new_Model Model._id Model.uploadedBy] in Hid, Hby.
  rewrite (delete_model_owned caller new_id new_id _ m' Hcast);
    [|cbn [models]; apply in_or_app; right; now left|exact Hid|exact Hby].
  cbn [models users]. rewrite Hid.
  unfold without at 1. rewrite List.filter_app. fold (without new_id (models db)).
  rewrite (without_absent _ _ Habsent). cbn [List.filter].
  unfold has_id, id_eqb. rewrite Hid, String.eqb_refl. cbn [negb].
  rewrite app_nil_r, (pulled_pushed _ _ _ Hfresh). now destruct db.
Qed.

(** X18.  [GET /:id] shows approved listings only: for a listing that is
    pending or rejected the answer is the 404 of an id that no listing
    has; for an approved one it is the listing, with the names of the
    owner. *)
Theorem only_approved_listings_are_shown id db :
  isValid id = true ->
  ((forall m, In m (models db) -> Model._id m = Js.toLowerCase id ->
              Model.status m <> approved) ->
   get_model id db = (Done model_not_found, db))
  /\ (forall m,
        unique_ids db -> In m (models db) ->
        Model._id m = Js.toLowerCase id -> Model.status m = approved ->
        get_model id db
        = (Done (ok None (OneModel (populate ["firstName"; "lastName"]
                                      (users db) (model_doc m)))), db)).
Proof.
  intros Hvalid. rewrite get_model_outcome, Hvalid. split.
  - intros Hnone.
    destruct (List.find _ (models db)) as [m|] eqn:Hfind; [|reflexivity].
    apply List.find_some in Hfind as [Hin Hm].
    apply andb_true_iff in Hm as [Hid Hst]. apply String.eqb_eq in Hid.
    destruct (Hnone m Hin Hid). now destruct (Model.status m).
  - intros m Hids Hin Hid Hst. rewrite <- Hid.
    rewrite (find_by_id (fun x => Status_eqb (Model.status x) approved)
               _ _ Hids Hin).
    now rewrite Hst.
Qed.

Lemma judged_valid body st m :
  Model.valid (fields (judged body st m)) = Model.valid m.
Proof. unfold judged. now destruct (Status_eqb st rejected). Qed.


Lemma put_admin_status_saves id body st db m :
  well_formed body st ->
  consistent db -> In m (models db) ->
  castObjectId id = Some (Model._id m) ->
  exists m',
    put_admin_status id body db
    = (Done (ok (Some ("Model " +:+ Status_text st +:+ " successfully"))
               (Saved m'
                  (populate ["firstName"; "lastName"; "email"] (users db)
                     (model_doc m') !! "uploadedBy"))),
       mkDb (replace_doc m' (models db)) (users db))
    /\ saved_from (judged body st m) db m'.
Proof.
  intros Hwf (Hids & Hslugs & Hvalid) Hin Hcast.
  rewrite (put_admin_status_checked id body st db Hwf).
  destruct (judged_paths body st m) as (Hnew & Hmod & _ & Hslug & Hid & _).
  destruct (save_existing (judged body st m) db Hnew) as (m' & Hsave & Hfrom).
  { rewrite judged_valid. rewrite List.Forall_forall in Hvalid.
    now apply Hvalid. }
  { intros _. rewrite Hid, Hslug. now apply unique_slug_not_held. }
  exists m'. split; [|exact Hfrom].
  unfold try_catch.
  rewrite (bind_done _ _ _ _ _ (cast_done _ _ db Hcast)).
  unfold bind at 1, findOne. rewrite (find_has_id db m Hids Hin).
  change (if Status_eqb st rejected
          then with_fields
                 (Model.set_rejectionReason (StatusBody.rejectionReason body))
                 (with_fields (Model.set_status st) (hydrate m))
          else with_fields (Model.set_rejectionReason None)
                 (with_fields (Model.set_status st) (hydrate m)))
    with (judged body st m).
  rewrite (bind_done _ _ _ _ _ Hsave). reflexivity.
Qed.

(** X19.  The decision of the admin decides what [GET /:id] shows: after
    an approval the listing is shown, after a rejection or a return to
    pending the answer is 404, whatever the status was before. *)
Theorem decision_decides_visibility id body st db m :
  consistent db -> In m (models db) ->
  isValid id = true -> Model._id m = Js.toLowerCase id ->
  well_formed body st ->
  exists reply db' m',
    put_admin_status id body db = (Done reply, db')
    /\ code reply = 200
    /\ In m' (models db') /\ Model._id m' = Model._id m
    /\ Model.status m' = st
    /\ get_model id db'
       = (Done (if Status_eqb st approved
                then ok None (OneModel (populate ["firstName"; "lastName"]
                                          (users db') (model_doc m')))
                else model_not_found), db').
Proof.
  intros Hdb Hin Hvalid Hid Hwf.
  assert (Hcast : castObjectId id = Some (Model._id m))
    by (unfold castObjectId; now rewrite Hvalid, Hid).
  destruct (put_admin_status_saves id body st db m Hwf Hdb Hin Hcast)
    as (m' & Hrun & Hfrom).
  destruct (saved_from_rest _ _ _ Hfrom) as (Hid' & _ & Hst & _).
  destruct (judged_paths body st m) as (_ & _ & _ & _ & Hjid & Hjst & _).
  rewrite Hjid in Hid'. rewrite Hjst in Hst.
  assert (Hin' : In m' (replace_doc m' (models db)))
    by now apply (in_replace_doc m' (models db) m).
  eexists. eexists. exists m'. split; [exact Hrun|]. split; [reflexivity|].
  split; [exact Hin'|]. split; [exact Hid'|]. split; [exact Hst|].
  rewrite get_model_outcome, Hvalid. cbn [models users].
  rewrite <- Hid, <- Hid'.
  rewrite (find_by_id (fun x => Status_eqb (Model.status x) approved)
             (replace_doc m' (models db)) m');
    [|rewrite map_id_replace_doc; apply Hdb|exact Hin'].
  rewrite Hst. now destruct (Status_eqb st approved).
Qed.


(** X21.  The reason that a rejection requires may be blank: a reason of
    white space only passes the check of the handler and is stored as the
    empty text. *)
Theorem blank_reason_passes id reason db m :
  consistent db -> In m (models db) ->
  castObjectId id = Some (Model._id m) ->
  reason <> "" -> Js.trim reason = "" ->
  exists reply db' m',
    put_admin_status id (StatusBody.mk (Some "rejected") (Some reason)) db
    = (Done reply, db')
    /\ code reply = 200
    /\ In m' (models db') /\ Model._id m' = Model._id m
    /\ Model.status m' = rejected
    /\ Model.rejectionReason m' = Some "".
Proof.
  intros Hdb Hin Hcast Hne Hblank.
  assert (Hwf : well_formed (StatusBody.mk (Some "rejected") (Some reason))
                  rejected).
  { split; [reflexivity|]. intros _. now apply String.eqb_neq. }
  destruct (put_admin_status_saves id _ rejected db m Hwf Hdb Hin Hcast)
    as (m' & Hrun & Hfrom).
  destruct (saved_from_rest _ _ _ Hfrom) as (Hid' & _ & Hst & Hreason & _).
  eexists. eexists. exists m'. split; [exact Hrun|]. split; [reflexivity|].
  split; [now apply (in_replace_doc m' (models db) m)|].
  split; [exact Hid'|]. split; [exact Hst|].
  rewrite Hreason. cbn. now rewrite Hblank.
Qed.

End Decisions.

Lemma edit_keeps_the_standing_witness :
  exists m m',
    In m (models (Sample.db_with (Sample.bot pending None)))
    /\ models (snd (put_model Sample.uri Sample.alice Sample.first_id
                      (Sample.body "Bot Y")
                      (Sample.db_with (Sample.bot pending None))))
       = replace_doc m' (models (Sample.db_with (Sample.bot pending None)))
    /\ same_standing m m'.
Proof.
  edestruct (edit_keeps_the_standing Sample.uri Sample.alice Sample.first_id
               (Sample.body "Bot Y")
               (Sample.db_with (Sample.bot pending None)))
    as (m & m' & Hin & _ & _ & Hmodels & _ & Hstanding).
  - reflexivity.
  - reflexivity.
  - exists m, m'. split; [exact Hin|]. split; [exact Hmodels | exact Hstanding].
Defined.

Lemma edit_without_rename_keeps_the_slug_witness :
  exists m',
    Model.name m' = "Bot X" /\ Model.slug m' = "bot-x".
Proof.
  edestruct (edit_without_rename_keeps_the_slug Sample.uri Sample.alice
               Sample.first_id (Sample.body "Bot X")
               (Sample.db_with (Sample.bot rejected (Some "too niche")))
               Sample.first_id (Sample.bot rejected (Some "too niche"))
               (Sample.value "Bot X"))
    as (m' & _ & Hname & Hslug).
  - reflexivity.
  - reflexivity.
  - reflexivity.
  - reflexivity.
  - discriminate.
  - reflexivity.
  - reflexivity.
  - exists m'. split; [exact Hname | exact Hslug].
Defined.

Lemma others_listings_are_out_of_reach_witness :
  In (Sample.bot approved None)
    (models (snd (route Sample.uri Sample.regex
                    (DeleteModel Sample.bob Sample.first_id)
                    (Sample.db_with (Sample.bot approved None))))).
Proof.
  apply (others_listings_are_out_of_reach Sample.uri Sample.regex
           (DeleteModel Sample.bob Sample.first_id) Sample.bob
           (Sample.db_with (Sample.bot approved None))
           (Sample.bot approved None)).
  - apply sample_consistent. reflexivity.
  - reflexivity.
  - left. reflexivity.
  - discriminate.
Defined.

Lemma owner_removes_at_any_status_witness :
  delete_model Sample.alice Sample.first_id
    (Sample.db_with (Sample.bot approved None))
  = (Done (ok (Some "Model deleted successfully") NoData),
     mkDb (without Sample.first_id [Sample.bot approved None])
       (pulled Sample.alice Sample.first_id Sample.users)).
Proof.
  apply (owner_removes_at_any_status Sample.alice Sample.first_id
           Sample.first_id (Sample.db_with (Sample.bot approved None))
           (Sample.bot approved None)).
  - reflexivity.
  - left. reflexivity.
  - reflexivity.
  - reflexivity.
Defined.

Lemma removal_undoes_the_upload_witness :
  delete_model Sample.alice Sample.first_id
    (snd (post_model Sample.uri Sample.alice Sample.first_id 1
            (Sample.body "Bot X") Sample.empty))
  = (Done (ok (Some "Model deleted successfully") NoData), Sample.empty).
Proof.
  eapply (removal_undoes_the_upload Sample.uri Sample.alice Sample.first_id 1
            (Sample.body "Bot X") Sample.empty).
  - reflexivity.
  - reflexivity.
  - reflexivity.
  - intros u [<- | [<- | []]]; intros [].
Defined.

Lemma only_approved_listings_are_shown_witness :
  get_model Sample.first_id (Sample.db_with (Sample.bot pending None))
  = (Done model_not_found, Sample.db_with (Sample.bot pending None))
  /\ get_model Sample.first_id (Sample.db_with (Sample.bot approved None))
     = (Done (ok None (OneModel (populate ["firstName"; "lastName"]
                                   Sample.users
                                   (model_doc (Sample.bot approved None))))),
        Sample.db_with (Sample.bot approved None)).
Proof.
  split.
  - apply (only_approved_listings_are_shown Sample.first_id
             (Sample.db_with (Sample.bot pending None))); [reflexivity|].
    intros m [<- | []] _. discriminate.
  - apply (only_approved_listings_are_shown Sample.first_id
             (Sample.db_with (Sample.bot approved None))).
    + reflexivity.
    + apply sample_consistent. reflexivity.
    + left. reflexivity.
    + reflexivity.
    + reflexivity.
Defined.

Lemma decision_decides_visibility_witness :
  exists reply db' m',
    put_admin_status Sample.first_id (StatusBody.mk (Some "approved") None)
      (Sample.db_with (Sample.bot pending None))
    = (Done reply, db')
    /\ get_model Sample.first_id db'
       = (Done (ok None (OneModel (populate ["firstName"; "lastName"]
                                     (users db') (model_doc m')))), db').
Proof.
  destruct (decision_decides_visibility Sample.first_id
              (StatusBody.mk (Some "approved") None) approved
              (Sample.db_with (Sample.bot pending None))
              (Sample.bot pending None))
    as (reply & db' & m' & Hrun & _ & _ & _ & _ & Hget).
  - apply sample_consistent. reflexivity.
  - left. reflexivity.
  - reflexivity.
  - reflexivity.
  - split; [reflexivity | discriminate].
  - exists reply, db', m'. split; [exact Hrun | exact Hget].
Defined.


Lemma blank_reason_passes_witness :
  exists reply db' m',
    put_admin_status Sample.first_id
      (StatusBody.mk (Some "rejected") (Some "  "))
      (Sample.db_with (Sample.bot pending None))
    = (Done reply, db')
    /\ Model.status m' = rejected
    /\ Model.rejectionReason m' = Some "".
Proof.
  destruct (blank_reason_passes Sample.first_id "  "
              (Sample.db_with (Sample.bot pending None))
              (Sample.bot pending None))
    as (reply & db' & m' & Hrun & _ & _ & _ & Hst & Hreason).
  - apply sample_consistent. reflexivity.
  - left. reflexivity.
  - reflexivity.
  - discriminate.
  - reflexivity.
  - exists reply, db', m'. split; [exact Hrun|]. split; assumption.
Defined.

(** ** Sorting and paging *)

Lemma sorts_before_total : total_order sorts_before.
Proof.
  intros a b. unfold sorts_before.
  destruct (Model.featured a), (Model.featured b); try easy;
    intros H; apply orb_false_iff in H as [Hlt H];
    apply N.ltb_ge in Hlt; apply orb_true_iff;
    (destruct (N.eqb_spec (Model.trendingScore a) (Model.trendingScore b))
       as [Heq | Hne];
     [right; cbn [andb] in H; apply N.leb_gt in H;
      apply andb_true_iff; split; [apply N.eqb_eq; lia | apply N.leb_le; lia]
     |left; apply N.ltb_lt; lia]).
Qed.

Lemma newest_first_total : total_order newest_first.
Proof.
  intros a b. unfold newest_first. intros H. apply N.leb_gt in H.
  apply N.leb_le. lia.
Qed.

Lemma in_order_tail {A} (before : A -> A -> bool) x l :
  in_order before (x :: l) -> in_order before l.
Proof. destruct l; cbn; [easy|]. now intros [_ H]. Qed.

Lemma in_order_insert before x l :
  total_order before -> in_order before l -> in_order before (insert_by before x l).
Proof.
  intros Htotal. induction l as [|y l IH]; [easy|]. intros Hl.
  cbn [insert_by]. destruct (before x y) eqn:Hxy.
  - split; [exact Hxy | exact Hl].
  - specialize (IH (in_order_tail _ _ _ Hl)).
    destruct l as [|z l].
    + cbn. split; [now apply Htotal | easy].
    + cbn [insert_by] in *. destruct Hl as [Hyz Hl].
      destruct (before x z); (split; [|exact IH]);
        [now apply Htotal | exact Hyz].
Qed.

Lemma sort_by_in_order before l :
  total_order before -> in_order before (sort_by before l).
Proof.
  intros Htotal. induction l as [|x l IH]; [easy|].
  now apply in_order_insert.
Qed.

Lemma in_order_skipn {A} (before : A -> A -> bool) n : forall l,
  in_order before l -> in_order before (skipn n l).
Proof.
  induction n as [|n IH]; intros l Hl; [exact Hl|].
  destruct l as [|x l]; [exact Hl|]. cbn [skipn].
  apply IH. now apply in_order_tail in Hl.
Qed.

Lemma in_order_firstn {A} (before : A -> A -> bool) n : forall l,
  in_order before l -> in_order before (firstn n l).
Proof.
  induction n as [|n IH]; intros l Hl; [easy|].
  destruct l as [|x l]; [easy|]. cbn [firstn].
  specialize (IH l (in_order_tail _ _ _ Hl)).
  destruct l as [|y l]; [now destruct n|].
  destruct n as [|n]; [easy|]. cbn [firstn] in *.
  split; [apply Hl | exact IH].
Qed.

Lemma insert_by_perm before x l : insert_by before x l ≡ₚ x :: l.
Proof.
  induction l as [|y l IH]; [easy|]. cbn [insert_by].
  destruct (before x y); [easy|]. rewrite IH. apply Permutation_swap.
Qed.

Lemma sort_by_perm before l : sort_by before l ≡ₚ l.
Proof.
  induction l as [|x l IH]; [easy|]. cbn [sort_by fold_right].
  fold (sort_by before l). now rewrite insert_by_perm, IH.
Qed.


Lemma In_firstn_skipn {A} n k (l : list A) x :
  In x (firstn n (skipn k l)) -> In x l.
Proof.
  intros H. rewrite <- (List.firstn_skipn k l). apply in_or_app. right.
  rewrite <- (List.firstn_skipn n (skipn k l)). apply in_or_app. now left.
Qed.

Section Collection.

Variable RegExp_i : string -> option (string -> bool).

Lemma build_filter_status q db f db' :
  build_filter RegExp_i q db = (Done f, db') ->
  forall m, matches f m = true -> Model.status m = approved.
Proof.
  intros Hf m Hm.
  assert (Hst : f_status f = Some approved).
  { unfold build_filter in Hf. destruct (Query.search q) as [term|].
    - destruct (Js.falsy term).
      + apply done_inj in Hf as [<- _]. reflexivity.
      + destruct (RegExp_i term); [|discriminate].
        apply done_inj in Hf as [<- _]. reflexivity.
    - apply done_inj in Hf as [<- _]. reflexivity. }
  unfold matches in Hm. rewrite Hst in Hm. cbn [equals] in Hm.
  apply andb_true_iff in Hm as [Hm _]. apply andb_true_iff in Hm as [Hm _].
  apply andb_true_iff in Hm as [Hm _]. now destruct (Model.status m).
Qed.

Lemma build_filter_page q p db :
  build_filter RegExp_i (with_page q p) db = build_filter RegExp_i q db.
Proof. reflexivity. Qed.

(** X22.  Whatever the query and whatever the regular-expression engine
    makes of the search term, a page of the public collection holds
    approved listings of the collection only, in the order of the sort:
    featured first, then by trending score, then the newest. *)
Theorem public_page_is_approved_and_ordered q db reply db' ms pg :
  get_models RegExp_i q db = (Done reply, db') ->
  data reply = Page ms pg ->
  exists l,
    ms = List.map (public_view (users db)) l
    /\ Forall (fun m => In m (models db) /\ Model.status m = approved) l
    /\ in_order sorts_before l.
Proof.
  intros Hrun Hdata.
  destruct (get_models_outcome RegExp_i q db) as [(f & Hf & H) | (_ & H)];
    rewrite H in Hrun; apply done_inj in Hrun as [<- <-];
    [|discriminate].
  cbn [data ok] in Hdata. apply Page_inj in Hdata as [<- _].
  eexists. split; [reflexivity|]. split.
  - apply List.Forall_forall. intros m Hm. unfold window in Hm.
    apply In_firstn_skipn, sort_by_in, List.filter_In in Hm as [Hin Hm].
    split; [exact Hin|]. exact (build_filter_status q db f db Hf m Hm).
  - unfold window. apply in_order_firstn, in_order_skipn, sort_by_in_order.
    exact sorts_before_total.
Qed.





End Collection.

(** ** The listings of the owner and of the admin *)

(** X26.  [GET /my-models] lists every listing of the caller and no
    other, whatever the status, each once, the newest first, and counts
    them. *)
Theorem my_models_are_all_listed caller db :
  exists l,
    get_my_models caller db
    = (Done (ok None
               (Models (List.map (fun m => deselect "uploadedBy" (model_doc m)) l)
                  (length l))), db)
    /\ l ≡ₚ List.filter (fun m => id_eqb (Model.uploadedBy m) caller) (models db)
    /\ in_order newest_first l
    /\ forall m, In m l <-> In m (models db) /\ Model.uploadedBy m = caller.
Proof.
  exists (sort_by newest_first
            (List.filter (fun m => id_eqb (Model.uploadedBy m) caller)
               (models db))).
  split; [|split; [|split]].
  - rewrite get_my_models_runs. now rewrite length_map.
  - apply sort_by_perm.
  - apply sort_by_in_order, newest_first_total.
  - intros m. rewrite sort_by_in, List.filter_In. unfold id_eqb.
    now rewrite String.eqb_eq.
Qed.

Lemma admin_listing_ext f g q db :
  (forall m, f m = g m) -> admin_listing f q db = admin_listing g q db.
Proof.
  intros Hfg. rewrite !admin_listing_runs.
  now rewrite (List.filter_ext f g Hfg).
Qed.

Lemma Status_text_inv st s : Status_text st = s -> Status_of_text s = Some st.
Proof. intros <-. now destruct st. Qed.

(** X27.  The pending queue is the listing of all models filtered by the
    status [pending]: [GET /admin/pending] answers what
    [GET /admin/all?status=pending] answers for the same page. *)
Theorem pending_queue_is_a_filter_of_all s p l db :
  get_admin_pending (AdminQuery.mk s p l) db
  = get_admin_all (AdminQuery.mk (Some "pending") p l) db.
Proof.
  unfold get_admin_pending, get_admin_all.
  rewrite !admin_listing_runs. cbn [AdminQuery.status AdminQuery.page AdminQuery.limit].
  rewrite (List.filter_ext is_pending (has_status (Some "pending"))); [reflexivity|].
  intros m. unfold is_pending, has_status. now destruct (Model.status m).
Qed.

Lemma filter_none {A} (f : A -> bool) l :
  (forall x, f x = false) -> List.filter f l = [].
Proof.
  intros Hf. induction l as [|x l IH]; [easy|]. cbn [List.filter].
  now rewrite Hf.
Qed.

Lemma filter_all {A} (f : A -> bool) l :
  (forall x, f x = true) -> List.filter f l = l.
Proof.
  intros Hf. induction l as [|x l IH]; [easy|]. cbn [List.filter].
  now rewrite Hf, IH.
Qed.

Lemma has_status_text st m :
  has_status (Some (Status_text st)) m = Status_eqb (Model.status m) st.
Proof. unfold has_status. now destruct st, (Model.status m). Qed.

Lemma count_by_status (l : list Model.t) :
  length l
  = (length (List.filter (has_status (Some "pending")) l)
     + length (List.filter (has_status (Some "approved")) l)
     + length (List.filter (has_status (Some "rejected")) l))%nat.
Proof.
  induction l as [|m l IH]; [easy|]. cbn [List.filter].
  rewrite (has_status_text pending m : has_status (Some "pending") m = _),
    (has_status_text approved m : has_status (Some "approved") m = _),
    (has_status_text rejected m : has_status (Some "rejected") m = _).
  destruct (Model.status m); cbn [Status_eqb length]; lia.
Qed.

(** X28.  The totals of the admin listing add up: without a status, or
    with the word [all], [GET /admin/all] counts every listing, and that
    is the sum of what it counts for the three statuses. *)
Theorem admin_totals_add_up p l db :
  let total s := total_of (get_admin_all (AdminQuery.mk s p l) db) in
  total None = N.of_nat (length (models db))
  /\ total (Some "all") = total None
  /\ total (Some "") = total None
  /\ total None
     = total (Some "pending") + total (Some "approved") + total (Some "rejected").
Proof.
  intros total. subst total. unfold get_admin_all.
  rewrite !admin_listing_runs.
  cbn [total_of data ok totalModels AdminQuery.status].
  rewrite (filter_all (has_status None)) by easy.
  rewrite (filter_all (has_status (Some "all"))) by easy.
  rewrite (filter_all (has_status (Some ""))) by easy.
  split; [reflexivity|]. split; [reflexivity|]. split; [reflexivity|].
  rewrite (count_by_status (models db)) at 1. lia.
Qed.

(** X29.  The status parameter of [GET /admin/all] is not checked: a
    text that is no status selects nothing, and the answer is an empty
    first page with a total of 0, not an error. *)
Theorem unknown_status_selects_nothing s p l db :
  Status_of_text s = None -> s <> "" -> s <> "all" ->
  exists pg,
    get_admin_all (AdminQuery.mk (Some s) p l) db
    = (Done (ok None (Page [] pg)), db)
    /\ totalModels pg = 0 /\ totalPages pg = 0 /\ hasNext pg = false.
Proof.
  intros Hs Hempty Hall. unfold get_admin_all. rewrite admin_listing_runs.
  cbn [AdminQuery.status AdminQuery.page AdminQuery.limit].
  rewrite (filter_none (has_status (Some s))).
  - eexists. cbn [sort_by fold_right]. rewrite skipn_nil, firstn_nil.
    split; [reflexivity|]. cbn [totalModels totalPages hasNext length].
    assert (Hpages : forall b, ceil_div 0 b = 0).
    { intros b. unfold ceil_div. rewrite N.Div0.mod_0_l, N.Div0.div_0_l.
      reflexivity. }
    rewrite Hpages. split; [reflexivity|]. split; [reflexivity|].
    apply N.ltb_ge. lia.
  - intros m. unfold has_status, chosen, Js.falsy.
    apply String.eqb_neq in Hempty, Hall. rewrite Hempty, Hall. cbn [orb].
    apply String.eqb_neq. intros Htext.
    rewrite (Status_text_inv _ _ Htext) in Hs. discriminate.
Qed.

(** ** The slug of a slug *)

Lemma shaped_letters s : forall b,
  hyphen_separated b s = true -> every slug_letter s.
Proof.
  induction s as [|c s IH]; intros b H; [apply every_nil|].
  cbn [hyphen_separated] in H. apply every_cons. unfold slug_letter.
  destruct (slug_char c) eqn:Hc.
  - split; [reflexivity | now apply (IH false)].
  - apply andb_true_iff in H as [H Hs]. apply andb_true_iff in H as [Hh _].
    split; [now rewrite Hh | now apply (IH true)].
Qed.

Lemma replace_runs_shaped s : forall b,
  hyphen_separated b s = true -> replace_runs b s = s.
Proof.
  induction s as [|c s IH]; intros b H; [reflexivity|].
  cbn [hyphen_separated replace_runs] in *. destruct (slug_char c) eqn:Hc.
  - f_equal. now apply IH.
  - apply andb_true_iff in H as [H Hs]. apply andb_true_iff in H as [Hh Hb].
    apply negb_true_iff in Hb. subst b. apply Ascii.eqb_eq in Hh. subst c.
    f_equal. now apply IH.
Qed.

Lemma shaped_last s : forall b l,
  hyphen_separated b s = true -> chars s <> l ++ ["-"%char].
Proof.
  induction s as [|c s IH]; intros b l H Hl.
  - now destruct l.
  - cbn [hyphen_separated] in H. cbn in Hl. destruct l as [|x l].
    + injection Hl as -> Hs. destruct s; [|discriminate].
      rewrite hyphen_not_slug_char in H. cbn in H. now destruct b.
    + injection Hl as -> Hs. destruct (slug_char x).
      * exact (IH false l H Hs).
      * apply andb_true_iff in H as [_ H]. exact (IH true l H Hs).
Qed.

Lemma drop_hyphens_none s :
  (forall r, chars s <> "-"%char :: r) -> drop_hyphens s = s.
Proof.
  destruct s as [|c s]; [easy|]. intros H. cbn [drop_hyphens].
  destruct (Ascii.eqb_spec c "-") as [-> | _]; [|reflexivity].
  now destruct (H (chars s)).
Qed.

Lemma baseSlug_of_shaped s : slug_shape s = true -> baseSlug s = s.
Proof.
  intros H. unfold slug_shape in H. unfold baseSlug, strip_hyphens.
  assert (Hlow : Js.toLowerCase s = s).
  { apply toLowerCase_none. eapply every_weaken; [|exact (shaped_letters s _ H)].
    intros c Hc. now apply slug_letter_plain. }
  rewrite Hlow.
  assert (Hruns : replace_runs false s = s).
  { destruct s as [|c s]; [reflexivity|]. cbn [hyphen_separated replace_runs] in *.
    destruct (slug_char c).
    - f_equal. now apply replace_runs_shaped.
    - rewrite andb_false_r in H. discriminate. }
  rewrite Hruns.
  assert (Hhead : drop_hyphens s = s).
  { apply drop_hyphens_none. intros r Hr. destruct s as [|c s]; [discriminate|].
    cbn in Hr. injection Hr as -> _. cbn [hyphen_separated] in H.
    rewrite hyphen_not_slug_char in H. discriminate. }
  rewrite Hhead.
  rewrite drop_hyphens_none; [apply rev_rev|].
  intros r Hr. rewrite chars_rev in Hr.
  apply (shaped_last s true (List.rev r) H).
  rewrite <- (List.rev_involutive (chars s)), Hr. reflexivity.
Qed.

Lemma replace_runs_none s :
  (forall c, In c (chars s) -> slug_char c = false) ->
  replace_runs true s = "" /\ (replace_runs false s = "" \/ replace_runs false s = "-").
Proof.
  induction s as [|c s IH]; intros H; [now split; [|left]|].
  cbn [replace_runs]. rewrite (H c) by now left.
  destruct IH as [IH _]; [intros x Hx; apply H; now right|].
  rewrite IH. split; [reflexivity | now right].
Qed.

Lemma baseSlug_empty_or_shaped name :
  baseSlug name = "" \/ slug_shape (baseSlug name) = true.
Proof.
  destruct (existsb slug_char (chars (Js.toLowerCase name))) eqn:Hex.
  - right. apply baseSlug_shape. apply existsb_exists in Hex as (c & Hin & Hc).
    now exists c.
  - left. unfold baseSlug.
    destruct (replace_runs_none (Js.toLowerCase name)) as (_ & [-> | ->]);
      [|reflexivity|reflexivity].
    intros c Hin. apply not_true_is_false. intros Hc.
    assert (Htrue : existsb slug_char (chars (Js.toLowerCase name)) = true)
      by (apply existsb_exists; now exists c).
    rewrite Htrue in Hex. discriminate.
Qed.

(** X30.  The slug generator is idempotent: the base slug of a base slug
    is that slug, so a listing renamed to its own slug keeps it. *)
Theorem slug_of_a_slug name : baseSlug (baseSlug name) = baseSlug name.
Proof.
  destruct (baseSlug_empty_or_shaped name) as [-> | Hshape]; [reflexivity|].
  now apply baseSlug_of_shaped.
Qed.

Lemma public_page_is_approved_and_ordered_witness :
  exists l,
    items_of (get_models Sample.regex (Sample.everything 10)
                (mkDb (Sample.crowd 25) Sample.users))
    = List.map (public_view Sample.users) l
    /\ Forall (fun m => In m (Sample.crowd 25) /\ Model.status m = approved) l
    /\ in_order sorts_before l.
Proof.
  edestruct (public_page_is_approved_and_ordered Sample.regex
               (Sample.everything 10) (mkDb (Sample.crowd 25) Sample.users))
    as (l & Hms & Hall & Horder).
  - reflexivity.
  - reflexivity.
  - exists l. split; [exact Hms|]. split; assumption.
Defined.



Lemma unknown_status_selects_nothing_witness :
  exists pg,
    get_admin_all (AdminQuery.mk (Some "archived") None None)
      (Sample.db_with (Sample.bot pending None))
    = (Done (ok None (Page [] pg)), Sample.db_with (Sample.bot pending None))
    /\ totalModels pg = 0.
Proof.
  destruct (unknown_status_selects_nothing "archived" None None
              (Sample.db_with (Sample.bot pending None)))
    as (pg & Hrun & Htotal & _).
  - reflexivity.
  - discriminate.
  - discriminate.
  - exists pg. split; [exact Hrun | exact Htotal].
Defined.
